(** * Continuous-training loop of the MLOps course, assignment 4

    A shallow embedding of [train.py], [tune.py] and [update_model.py]
    (directory [assignments/assignment_4/src]) and the properties of the
    detect / retrain / evaluate / compare / promote cycle.

    Conventions of the embedding.
    - Python exceptions and [sys.exit] are values of [exn]; a computation
      that can raise has type [result A].
    - Code that prints, talks to the MLflow tracking server or touches the
      file system runs in the monad [M], which threads a [World]: effects
      performed before an exception stay in the world.
    - Metric values (RMSE, MAE, R2) are binary64 numbers that the code only
      compares and subtracts to look at the sign; they are represented by
      the rational number they denote, on which the order and the sign of a
      difference are the same.  The split index [int(n * (1 - test_size))]
      is different: there the rounding of the two floating-point operations
      decides the result, so it is computed on primitive binary64 floats.
    - The model backend (scikit-learn estimators, numpy reductions, MD5) is
      a black box, given by the variables of [Section Program]. *)

From Stdlib Require Import List String Ascii Strings.Byte Bool.
From Stdlib Require Import ZArith QArith Qround Lia.
From Stdlib Require Import Sorted Permutation.
From Stdlib Require DecimalString.
From Stdlib Require Import Floats.PrimFloat Floats.SpecFloat Floats.FloatOps.
From Stdlib Require Import Uint63.
Import ListNotations.

Set Warnings "-inexact-float".
Set Implicit Arguments.
Local Open Scope string_scope.
Local Open Scope Z_scope.

(** ** Python values and exceptions *)

Inductive exn : Type :=
  | SystemExit (code : Z)
  | KeyError (key : string)
  | IndexError
  | ValueError
  | OverflowError
  | TypeError
  | FileNotFoundError (path : string).

Inductive result (A : Type) : Type :=
  | Ok (a : A)
  | Raise (e : exn).
Arguments Ok {A} a.
Arguments Raise {A} e.

Definition rbind {A B} (r : result A) (k : A -> result B) : result B :=
  match r with Ok a => k a | Raise e => Raise e end.

(** [sub in s] on Python strings. *)
Fixpoint contains (sub s : string) : bool :=
  String.prefix sub s ||
  match s with
  | EmptyString => false
  | String _ s' => contains sub s'
  end.

(** [s.endswith(suffix)]. *)
Fixpoint endswith (s suffix : string) : bool :=
  String.eqb s suffix ||
  match s with
  | EmptyString => false
  | String _ s' => endswith s' suffix
  end.

(** A Python [dict] keeps insertion order, and [update_pipeline] trains the
    versions in the order in which [current_state.items()] yields the files:
    dictionaries are association lists with unique keys. *)
Definition dict (V : Type) : Type := list (string * V).

Fixpoint dict_get {V} (d : dict V) (k : string) : option V :=
  match d with
  | [] => None
  | (k', v) :: d' => if String.eqb k' k then Some v else dict_get d' k
  end.

(** [k in d]. *)
Definition dict_mem {V} (d : dict V) (k : string) : bool :=
  match dict_get d k with Some _ => true | None => false end.

(** [d[k]], which raises [KeyError] on a missing key. *)
Definition dict_item {V} (d : dict V) (k : string) : result V :=
  match dict_get d k with Some v => Ok v | None => Raise (KeyError k) end.

(** [d[k] = v]: an existing key keeps its position. *)
Fixpoint dict_set {V} (d : dict V) (k : string) (v : V) : dict V :=
  match d with
  | [] => [(k, v)]
  | (k', v') :: d' =>
      if String.eqb k' k then (k', v) :: d' else (k', v') :: dict_set d' k v
  end.

(** Slices [l[:k]] and [l[k:]] ([iloc[:k]], [iloc[k:]]): a negative bound
    counts from the end, and bounds are clipped to the sequence. *)
Definition slice_bound (k : Z) (len : nat) : nat :=
  let n := Z.of_nat len in
  Z.to_nat (if k <? 0 then Z.max 0 (n + k) else Z.min k n).

Definition slice_to {A} (k : Z) (l : list A) : list A :=
  firstn (slice_bound k (List.length l)) l.

Definition slice_from {A} (k : Z) (l : list A) : list A :=
  skipn (slice_bound k (List.length l)) l.

(** ** Binary64 arithmetic of the split index *)

(** [int(x)] on a float: truncation toward zero; [nan] raises [ValueError]
    and an infinity [OverflowError]. *)
Definition int_of_float (x : float) : result Z :=
  match Prim2SF x with
  | S754_zero _ => Ok 0
  | S754_infinity _ => Raise OverflowError
  | S754_nan => Raise ValueError
  | S754_finite s m e =>
      let mag := match e with
                 | Z0 => Z.pos m
                 | Zpos p => Z.shiftl (Z.pos m) (Zpos p)
                 | Zneg p => Z.shiftr (Z.pos m) (Zpos p)
                 end in
      Ok (if s then - mag else mag)
  end.

(** The conversion of the row count in [n * (...)]: exact below [2^53]. *)
Definition float_of_len (n : nat) : float :=
  PrimFloat.of_uint63 (Uint63.of_Z (Z.of_nat n)).

(** The rational number a finite float denotes. *)
Definition float_value (x : float) : option Q :=
  match Prim2SF x with
  | S754_zero _ => Some 0%Q
  | S754_finite s m e =>
      let q := match e with
               | Z0 => inject_Z (Z.pos m)
               | Zpos p => inject_Z (Z.shiftl (Z.pos m) (Zpos p))
               | Zneg p => Qmake (Z.pos m) (Pos.pow 2 p)
               end in
      Some (if s then Qopp q else q)
  | _ => None
  end.

(** Comparisons of metric values. *)
Definition Qltb (x y : Q) : bool := negb (Qle_bool y x).

(** ** train.py: data, split and metrics *)

Record Row : Type := mkRow {
  date : Z;                 (* parsed timestamp of the "date" column *)
  features : list Q;
  target : Q
}.

Record Metrics : Type := mkMetrics {
  rmse : Q;
  mae : Q;
  r2 : Q
}.

Record Thresholds : Type := mkThresholds {
  rmse_acceptable : Q;
  mae_acceptable : Q;
  r2_minimum : Q
}.

Inductive KpiStatus : Type := PASS | FAIL.

(** [df.sort_values("date")]: the rows in ascending date order. *)
Fixpoint insert_by_date (r : Row) (l : list Row) : list Row :=
  match l with
  | [] => [r]
  | r' :: l' =>
      if date r <=? date r' then r :: l else r' :: insert_by_date r l'
  end.

Fixpoint sort_values_date (l : list Row) : list Row :=
  match l with
  | [] => []
  | r :: l' => insert_by_date r (sort_values_date l')
  end.

(** [load_gold_data], applied to the rows [pd.read_csv] parsed. *)
Definition load_gold_data (csv_rows : list Row) : list Row :=
  sort_values_date csv_rows.

(** [split_idx = int(n * (1 - test_size))]. *)
Definition split_idx (n : nat) (test_size : float) : result Z :=
  int_of_float
    (PrimFloat.mul (float_of_len n) (PrimFloat.sub 1%float test_size)).

(** [temporal_train_test_split]: [X], [y] and [dates] are columns of the
    same frame and are cut at the same index, so one list of rows stands
    for the three. *)
Definition temporal_train_test_split (rows : list Row) (test_size : float)
  : result (list Row * list Row) :=
  rbind (split_idx (List.length rows) test_size) (fun k =>
  Ok (slice_to k rows, slice_from k rows)).

(** The KPI check at the end of [train_model]: [mae_ok] is computed and
    printed, the status uses [rmse_ok] and [r2_ok] only. *)
Definition kpi_status (test_metrics : Metrics) (thresholds : Thresholds)
  : KpiStatus :=
  let rmse_ok := Qltb (rmse test_metrics) (rmse_acceptable thresholds) in
  let mae_ok := Qltb (mae test_metrics) (mae_acceptable thresholds) in
  let r2_ok := Qltb (r2_minimum thresholds) (r2 test_metrics) in
  if rmse_ok && r2_ok then PASS else FAIL.

(** The same check in [tune_model] ([passes]). *)
Definition tune_passes (test_metrics : Metrics) (thresholds : Thresholds)
  : bool :=
  Qltb (rmse test_metrics) (rmse_acceptable thresholds)
  && Qltb (r2_minimum thresholds) (r2 test_metrics).

Definition tune_kpi_status (test_metrics : Metrics) (thresholds : Thresholds)
  : KpiStatus :=
  if tune_passes test_metrics thresholds then PASS else FAIL.

(** ** sklearn.model_selection.TimeSeriesSplit

    The fold generator of scikit-learn with its default [gap = 0],
    [test_size = None] and [max_train_size = None], as the library
    documents and implements it: [n_splits + 1] folds are needed, fewer
    samples raise [ValueError]; fold [i] trains on rows [[0, test_start)]
    and validates on the next [n_samples / (n_splits + 1)] rows. *)
Record Fold : Type := mkFold {
  train_end : nat;
  val_start : nat;
  val_len : nat
}.

Definition TimeSeriesSplit_split (n_splits n_samples : nat)
  : result (list Fold) :=
  let n_folds := (n_splits + 1)%nat in
  let test_size := (n_samples / n_folds)%nat in
  if (n_samples <? n_folds)%nat then Raise ValueError
  else if (Z.of_nat n_samples - Z.of_nat (test_size * n_splits) <=? 0)
  then Raise ValueError
  else Ok (map (fun i =>
                  let test_start :=
                    (n_samples - n_splits * test_size + i * test_size)%nat in
                  mkFold test_start test_start test_size)
               (seq 0 n_splits)).

Definition fold_train {A} (f : Fold) (l : list A) : list A :=
  firstn (train_end f) l.

Definition fold_val {A} (f : Fold) (l : list A) : list A :=
  firstn (val_len f) (skipn (val_start f) l).

(** ** The world the scripts run in *)

Definition HyperParams : Type := dict Q.

(** The recognised part of [params.yaml]. *)
Record Params : Type := mkParams {
  p_data : dict string;          (* params["data"]: "gold_v1" -> path *)
  p_model_type : string;         (* params["model"]["type"] *)
  p_model : dict Q;              (* numeric entries of params["model"] *)
  p_test_size : float;           (* params["model"]["test_size"] *)
  p_thresholds : Thresholds;     (* params["kpi"]["thresholds"] *)
  p_tuning : dict (list Q)       (* params["tuning"] *)
}.

(** An entry of the directory [data/gold]. *)
Record DirEntry : Type := mkDirEntry {
  fname : string;
  content : list byte;
  mtime_of : Q
}.

(** The value [get_data_state] stores per file. *)
Record FileInfo : Type := mkFileInfo {
  path : string;
  md5 : string;
  mtime : Q;
  size : Z
}.

Definition DataState : Type := dict FileInfo.

(** A run of the MLflow tracking server, with what the scripts log. *)
Record Run : Type := mkRun {
  run_id : nat;
  run_name : string;
  tag_data_version : string;
  tag_model_type : string;
  tag_run_type : option string;
  run_params : HyperParams;
  run_train_metrics : option Metrics;
  run_test_metrics : option Metrics;
  run_cv_metrics : dict Q;
  model_logged : bool;
  tag_kpi_status : option KpiStatus
}.

Inductive Decision : Type := PROMOTE | HOLD.

(** The lines the scripts print that tell what happened. *)
Inductive Msg : Type :=
  | MsgUpToDate                (* "No new or modified gold data detected." *)
  | MsgChanged (new_files modified_files : list string)
  | MsgNoVersion               (* "Could not determine data version ..." *)
  | MsgCurrentBest (id : nat) (old_rmse : Q)
  | MsgRetraining (version : string)  (* "RETRAINING on data v" *)
  | MsgNotFound (p : string)          (* "Error: p not found" *)
  | MsgUnknownModel (mtype : string)
  | MsgDataVersion (version : string) (n_train n_test : nat)
  | MsgKpi (status : KpiStatus)       (* "  Overall: PASS" *)
  | MsgDelta (delta : Q) (improved : bool)
  | MsgDecision (d : Decision) (* "-> New model is better. Promoting." or
                                  "-> Previous model is still better. ..." *)
  | MsgStateSaved              (* "Data state saved for future change
                                  detection." *)
  | MsgTuneConfig (i : nat) (test_rmse : Q) (best : bool)
  | MsgBestConfiguration (id : nat) (best_rmse : Q).

Record World : Type := mkWorld {
  params : Params;                (* params.yaml *)
  gold_dir : list DirEntry;       (* os.listdir("data/gold") *)
  csv_files : dict (list Row);    (* dataset files, as read_csv parses them *)
  state_file : option DataState;  (* models/data_state.json *)
  registry : list Run;            (* MLflow runs, newest first *)
  stdout : list Msg               (* printed lines, oldest first *)
}.

(** Computations with effects on the world and exceptions: the world is
    returned in both cases. *)
Definition M (A : Type) : Type := World -> World * result A.

Definition ret {A} (a : A) : M A := fun w => (w, Ok a).

Definition bind {A B} (c : M A) (k : A -> M B) : M B :=
  fun w =>
    match c w with
    | (w', Ok a) => k a w'
    | (w', Raise e) => (w', Raise e)
    end.

Definition raise {A} (e : exn) : M A := fun w => (w, Raise e).

Definition lift {A} (r : result A) : M A := fun w => (w, r).

Notation "x <- c ;; k" := (bind c (fun x => k))
  (at level 61, c at next level, right associativity).
Notation "c ;;; k" := (bind c (fun _ => k))
  (at level 61, right associativity).

Fixpoint for_each {A} (l : list A) (body : A -> M unit) : M unit :=
  match l with
  | [] => ret tt
  | a :: l' => body a ;;; for_each l' body
  end.

Definition print (m : Msg) : M unit :=
  fun w => (mkWorld (params w) (gold_dir w) (csv_files w) (state_file w)
                    (registry w) (stdout w ++ [m]), Ok tt).

Definition load_params : M Params := fun w => (w, Ok (params w)).

Definition set_registry (rs : list Run) (w : World) : World :=
  mkWorld (params w) (gold_dir w) (csv_files w) (state_file w) rs (stdout w).

(** [mlflow.start_run(run_name=...)]: a new run, which is the active run
    until the [with] block ends.  MLflow names a run by an opaque string
    of its own choice, which the scripts only print and hand back to
    [mlflow.get_run]; the registry of the model numbers its runs instead,
    and the number itself stands for nothing in the scripts. *)
Definition blank_run (id : nat) (name : string) : Run :=
  mkRun id name EmptyString EmptyString None [] None None [] false None.

Definition mlflow_start_run (name : string) : M nat :=
  fun w =>
    let id := List.length (registry w) in
    (set_registry (blank_run id name :: registry w) w, Ok id).

(** A logging call ([set_tag], [log_params], [log_metric], [log_model]) on
    the active run. *)
Definition mlflow_log (f : Run -> Run) : M unit :=
  fun w =>
    match registry w with
    | r :: rs => (set_registry (f r :: rs) w, Ok tt)
    | [] => (w, Ok tt)
    end.

Definition set_tags (version mtype : string) (r : Run) : Run :=
  mkRun (run_id r) (run_name r) version mtype (tag_run_type r) (run_params r)
        (run_train_metrics r) (run_test_metrics r) (run_cv_metrics r)
        (model_logged r) (tag_kpi_status r).

Definition set_run_type (t : string) (r : Run) : Run :=
  mkRun (run_id r) (run_name r) (tag_data_version r) (tag_model_type r) (Some t)
        (run_params r) (run_train_metrics r) (run_test_metrics r)
        (run_cv_metrics r) (model_logged r) (tag_kpi_status r).

Definition log_params (hp : HyperParams) (r : Run) : Run :=
  mkRun (run_id r) (run_name r) (tag_data_version r) (tag_model_type r)
        (tag_run_type r) hp (run_train_metrics r) (run_test_metrics r)
        (run_cv_metrics r) (model_logged r) (tag_kpi_status r).

Definition log_train_metrics (m : Metrics) (r : Run) : Run :=
  mkRun (run_id r) (run_name r) (tag_data_version r) (tag_model_type r)
        (tag_run_type r) (run_params r) (Some m) (run_test_metrics r)
        (run_cv_metrics r) (model_logged r) (tag_kpi_status r).

Definition log_test_metrics (m : Metrics) (r : Run) : Run :=
  mkRun (run_id r) (run_name r) (tag_data_version r) (tag_model_type r)
        (tag_run_type r) (run_params r) (run_train_metrics r) (Some m)
        (run_cv_metrics r) (model_logged r) (tag_kpi_status r).

Definition log_cv_metrics (cv : dict Q) (r : Run) : Run :=
  mkRun (run_id r) (run_name r) (tag_data_version r) (tag_model_type r)
        (tag_run_type r) (run_params r) (run_train_metrics r)
        (run_test_metrics r) cv (model_logged r) (tag_kpi_status r).

Definition log_model (r : Run) : Run :=
  mkRun (run_id r) (run_name r) (tag_data_version r) (tag_model_type r)
        (tag_run_type r) (run_params r) (run_train_metrics r)
        (run_test_metrics r) (run_cv_metrics r) true (tag_kpi_status r).

Definition set_kpi_status (s : KpiStatus) (r : Run) : Run :=
  mkRun (run_id r) (run_name r) (tag_data_version r) (tag_model_type r)
        (tag_run_type r) (run_params r) (run_train_metrics r)
        (run_test_metrics r) (run_cv_metrics r) (model_logged r) (Some s).

(** [mlflow.get_run(run_id)]. *)
Definition find_run (id : nat) (rs : list Run) : option Run :=
  find (fun r => Nat.eqb (run_id r) id) rs.

Definition mlflow_get_run (id : nat) : M Run :=
  fun w =>
    match find_run id (registry w) with
    | Some r => (w, Ok r)
    | None => (w, Raise (KeyError "run_id"))
    end.

(** [os.path.exists(p)] and [pd.read_csv(p)] on the dataset files. *)
Definition path_exists (p : string) : M bool :=
  fun w => (w, Ok (dict_mem (csv_files w) p)).

Definition read_csv (p : string) : M (list Row) :=
  fun w =>
    match dict_get (csv_files w) p with
    | Some rows => (w, Ok rows)
    | None => (w, Raise (FileNotFoundError p))
    end.

(** [dates.iloc[0]] and [dates.iloc[-1]], which the report of the date
    range reads: [IndexError] on an empty partition. *)
Definition date_range (rows : list Row) : result (Z * Z) :=
  match rows with
  | [] => Raise IndexError
  | r :: _ => Ok (date r, date (last rows r))
  end.

(** [itertools.product] of a list of pools: the rightmost pool advances
    fastest. *)
Fixpoint itertools_product {A} (pools : list (list A)) : list (list A) :=
  match pools with
  | [] => [[]]
  | pool :: rest =>
      flat_map (fun x => map (cons x) (itertools_product rest)) pool
  end.

(** [dict(zip(keys, values))]. *)
Definition dict_zip {V} (keys : list string) (values : list V) : dict V :=
  fold_left (fun d kv => dict_set d (fst kv) (snd kv)) (combine keys values) [].

(** [best_rmse] of [tune_model] starts at [float("inf")], above every
    RMSE a model can score. *)
Inductive Bound : Type := Inf | Fin (q : Q).

(** [x < b] and [x <= b] for a bound [b]. *)
Definition lt_bound (x : Q) (b : Bound) : bool :=
  match b with Inf => true | Fin q => Qltb x q end.

Definition le_bound (x : Q) (b : Bound) : bool :=
  match b with Inf => true | Fin q => Qle_bool x q end.

Record TuneState : Type := mkTuneState {
  best_rmse : Bound;
  best_run_id : option nat;
  best_params : option HyperParams
}.

(** [f"{i:03d}"]. *)
Definition fmt_03d (i : nat) : string :=
  let s := DecimalString.NilEmpty.string_of_uint (Nat.to_uint i) in
  let s := match s with EmptyString => "0" | _ => s end in
  match String.length s with
  | 1%nat => String.append "00" s
  | 2%nat => String.append "0" s
  | _ => s
  end.

(** [sorted(os.listdir(data_dir))]. *)
Fixpoint insert_by_name (e : DirEntry) (l : list DirEntry) : list DirEntry :=
  match l with
  | [] => [e]
  | e' :: l' =>
      if String.leb (fname e) (fname e') then e :: l
      else e' :: insert_by_name e l'
  end.

Fixpoint sorted_listdir (l : list DirEntry) : list DirEntry :=
  match l with
  | [] => []
  | e :: l' => insert_by_name e (sorted_listdir l')
  end.

(** The chunks [f.read(8192)] returns in [compute_file_hash], until the
    empty one.  Every chunk takes at least one byte, so the length of the data
    is enough fuel. *)
Fixpoint read_chunks (fuel chunk : nat) (data : list byte) : list (list byte) :=
  match fuel, data with
  | _, [] => []
  | O, _ => []
  | S fuel', _ =>
      firstn chunk data :: read_chunks fuel' chunk (skipn chunk data)
  end.

Definition chunk_size : nat := Z.to_nat 8192.

(** Step 2 of [update_pipeline]: the version of each changed file. *)
Fixpoint versions_of (all_changed : list string) : list string :=
  match all_changed with
  | [] => []
  | fname :: rest =>
      if contains "v1" fname then "v1" :: versions_of rest
      else if contains "v2" fname then "v2" :: versions_of rest
      else versions_of rest
  end.

(** The loop of [detect_new_data] over [current_state.items()]. *)
Fixpoint detect_loop (items : list (string * FileInfo)) (last_state : DataState)
  : list string * list string :=
  match items with
  | [] => ([], [])
  | (fname, info) :: rest =>
      let (new_files, modified_files) := detect_loop rest last_state in
      match dict_get last_state fname with
      | None => (fname :: new_files, modified_files)
      | Some last_info =>
          if negb (String.eqb (md5 last_info) (md5 info))
          then (new_files, fname :: modified_files)
          else (new_files, modified_files)
      end
  end.

(** [load_last_state]: the stored state, [{}] when the file is missing. *)
Definition load_last_state : M DataState :=
  fun w => (w, Ok (match state_file w with Some s => s | None => [] end)).

(** [save_state]. *)
Definition save_state (state : DataState) : M unit :=
  fun w => (mkWorld (params w) (gold_dir w) (csv_files w) (Some state)
                    (registry w) (stdout w), Ok tt).

(** [mlflow.search_runs] with [filter_string="tags.kpi_status = 'PASS'"],
    [order_by=["metrics.test_rmse ASC"]] and [max_results=1], on the runs
    that have the metric: the newest of the runs with the lowest RMSE. *)
Fixpoint search_best_pass (rs : list Run) : option Run :=
  match rs with
  | [] => None
  | r :: rs' =>
      let rest := search_best_pass rs' in
      match tag_kpi_status r, run_test_metrics r with
      | Some PASS, Some m =>
          match rest with
          | Some b =>
              match run_test_metrics b with
              | Some mb =>
                  if Qle_bool (rmse m) (rmse mb) then Some r else Some b
              | None => Some r
              end
          | None => Some r
          end
      | _, _ => rest
      end
  end.

Definition get_current_best_model (p : Params) : M (option Run) :=
  fun w => (w, Ok (search_best_pass (registry w))).

(** [run.data.metrics["test_rmse"]]. *)
Definition metric_test_rmse (r : Run) : result Q :=
  match run_test_metrics r with
  | Some m => Ok (rmse m)
  | None => Raise (KeyError "test_rmse")
  end.

(** Step 5 of [update_pipeline]: [delta < 0] promotes, anything else
    holds. *)
Definition promotion_decision (delta : Q) : Decision :=
  if Qltb delta 0 then PROMOTE else HOLD.

Definition rmse_delta (new_run current_best : Run) : result Q :=
  rbind (metric_test_rmse new_run) (fun new_rmse =>
  rbind (metric_test_rmse current_best) (fun old_rmse =>
  Ok (new_rmse - old_rmse)%Q)).

(** [{k: d[k] for k in keys}], written out as a dict literal in the code. *)
Fixpoint pick_items {V} (d : dict V) (keys : list string) : result (dict V) :=
  match keys with
  | [] => Ok []
  | k :: ks =>
      rbind (dict_item d k) (fun v =>
      rbind (pick_items d ks) (fun rest => Ok ((k, v) :: rest)))
  end.

(** [d.get(k, default)]. *)
Definition dict_get_default {V} (d : dict V) (k : string) (default : V) : V :=
  match dict_get d k with Some v => v | None => default end.

(** [a or b] on an optional, possibly empty value. *)
Definition or_else_string (a : option string) (b : string) : string :=
  match a with
  | Some (String _ _ as s) => s
  | _ => b
  end.

Definition nonempty_dict {V} (a : option (dict V)) : option (dict V) :=
  match a with
  | Some ((_ :: _) as d) => Some d
  | _ => None
  end.

Definition gb_keys : list string :=
  ["n_estimators"; "max_depth"; "learning_rate"; "min_samples_split";
   "min_samples_leaf"; "subsample"; "random_state"].

Definition grid_keys : list string :=
  ["n_estimators"; "max_depth"; "learning_rate"; "min_samples_split"].

(** The hyperparameters of one configuration of [tune_model]: the grid
    values under their keys, then [random_state], [subsample] and
    [min_samples_leaf] of the model section. *)
Definition tune_hyperparams (p : Params) (values : list Q)
  : result HyperParams :=
  rbind (pick_items (p_model p)
           ["random_state"; "subsample"; "min_samples_leaf"]) (fun extra =>
  Ok (fold_left (fun d kv => dict_set d (fst kv) (snd kv)) extra
        (dict_zip grid_keys values))).

Section Program.

(** The model backend: fit an estimator of the given type and
    hyperparameters on the first rows, predict the second rows and
    compute the metrics of the predictions ([model.fit], [model.predict]
    and [compute_metrics]).  The library may raise. *)
Variable fit_score :
  string -> HyperParams -> list Row -> list Row -> result Metrics.

(** [np.mean] and [np.std]. *)
Variable np_mean : list Q -> Q.
Variable np_std : list Q -> Q.

(** [hashlib.md5]: the hex digest of the bytes fed to the hash object. *)
Variable md5_hexdigest : list byte -> string.

(** *** train.py *)

Fixpoint score_folds (mtype : string) (hp : HyperParams) (rows : list Row)
    (folds : list Fold) : result (list Metrics) :=
  match folds with
  | [] => Ok []
  | f :: folds' =>
      rbind (fit_score mtype hp (fold_train f rows) (fold_val f rows))
        (fun metrics =>
      rbind (score_folds mtype hp rows folds') (fun rest =>
      Ok (metrics :: rest)))
  end.

Definition cross_validate_timeseries (mtype : string) (hp : HyperParams)
    (rows : list Row) (n_splits : nat) : result (dict Q) :=
  rbind (TimeSeriesSplit_split n_splits (List.length rows)) (fun folds =>
  rbind (score_folds mtype hp rows folds) (fun fold_metrics =>
  match fold_metrics with
  | [] => Raise IndexError          (* fold_metrics[0] *)
  | _ :: _ =>
      Ok [("cv_rmse_mean", np_mean (map rmse fold_metrics));
          ("cv_rmse_std", np_std (map rmse fold_metrics));
          ("cv_mae_mean", np_mean (map mae fold_metrics));
          ("cv_mae_std", np_std (map mae fold_metrics));
          ("cv_r2_mean", np_mean (map r2 fold_metrics));
          ("cv_r2_std", np_std (map r2 fold_metrics))]
  end)).

(** The choice of the estimator and of its hyperparameters. *)
Definition select_model (mtype : string) (custom_params : option HyperParams)
    (model_params : dict Q) : M HyperParams :=
  if String.eqb mtype "gradient_boosting" then
    match nonempty_dict custom_params with
    | Some hp => ret hp
    | None => lift (pick_items model_params gb_keys)
    end
  else if String.eqb mtype "random_forest" then
    match nonempty_dict custom_params with
    | Some hp => ret hp
    | None =>
        lift (rbind (dict_item model_params "random_state") (fun rs =>
              Ok [("n_estimators",
                   dict_get_default model_params "n_estimators" 100%Q);
                  ("max_depth", dict_get_default model_params "max_depth" 5%Q);
                  ("random_state", rs)]))
    end
  else if String.eqb mtype "linear_regression" then ret []
  else print (MsgUnknownModel mtype) ;;; raise (SystemExit 1).

Definition train_model (data_version : string) (model_type : option string)
    (custom_params : option HyperParams) : M nat :=
  p <- load_params ;;
  data_path <- lift (dict_item (p_data p)
                       (String.append "gold_" data_version)) ;;
  found <- path_exists data_path ;;
  if negb found then print (MsgNotFound data_path) ;;; raise (SystemExit 1)
  else
  csv_rows <- read_csv data_path ;;
  let rows := load_gold_data csv_rows in
  parts <- lift (temporal_train_test_split rows (p_test_size p)) ;;
  let train := fst parts in
  let test := snd parts in
  _ <- lift (date_range train) ;;
  _ <- lift (date_range test) ;;
  print (MsgDataVersion data_version (List.length train) (List.length test)) ;;;
  let mtype := or_else_string model_type (p_model_type p) in
  hp <- select_model mtype custom_params (p_model p) ;;
  id <- mlflow_start_run
          (String.append mtype (String.append "_" data_version)) ;;
  mlflow_log (set_tags data_version mtype) ;;;
  mlflow_log (log_params hp) ;;;
  train_metrics <- lift (fit_score mtype hp train train) ;;
  test_metrics <- lift (fit_score mtype hp train test) ;;
  mlflow_log (log_train_metrics train_metrics) ;;;
  mlflow_log (log_test_metrics test_metrics) ;;;
  cv_metrics <- lift (cross_validate_timeseries mtype hp train 5) ;;
  mlflow_log (log_cv_metrics cv_metrics) ;;;
  mlflow_log log_model ;;;
  let status := kpi_status test_metrics (p_thresholds p) in
  print (MsgKpi status) ;;;
  mlflow_log (set_kpi_status status) ;;;
  ret id.

(** *** tune.py *)

(** The cross-validation inside the loop of [tune_model]: the RMSE of
    every fold, then its mean and standard deviation. *)
Definition tune_cross_validate (hp : HyperParams) (rows : list Row)
    : result (Q * Q) :=
  rbind (TimeSeriesSplit_split 3 (List.length rows)) (fun folds =>
  rbind (score_folds "gradient_boosting" hp rows folds) (fun fold_metrics =>
  let cv_rmse_scores := map rmse fold_metrics in
  Ok (np_mean cv_rmse_scores, np_std cv_rmse_scores))).

(** One iteration of the loop over [enumerate(combinations)]. *)
Definition tune_step (data_version : string) (p : Params)
    (train test : list Row) (i : nat) (values : list Q) (st : TuneState)
    : M TuneState :=
  hp <- lift (tune_hyperparams p values) ;;
  id <- mlflow_start_run
          (String.append "tune_"
             (String.append (fmt_03d (i + 1))
                (String.append "_" data_version))) ;;
  mlflow_log (set_tags data_version "gradient_boosting") ;;;
  mlflow_log (set_run_type "tuning") ;;;
  mlflow_log (log_params hp) ;;;
  cv <- lift (tune_cross_validate hp train) ;;
  mlflow_log (log_cv_metrics [("cv_rmse_mean", fst cv);
                              ("cv_rmse_std", snd cv)]) ;;;
  test_metrics <- lift (fit_score "gradient_boosting" hp train test) ;;
  mlflow_log (log_test_metrics test_metrics) ;;;
  mlflow_log
    (set_kpi_status (tune_kpi_status test_metrics (p_thresholds p))) ;;;
  st' <- (if lt_bound (rmse test_metrics) (best_rmse st)
          then mlflow_log log_model ;;;
               ret (mkTuneState (Fin (rmse test_metrics)) (Some id) (Some hp))
          else ret st) ;;
  print (MsgTuneConfig (i + 1) (rmse test_metrics)
           (le_bound (rmse test_metrics) (best_rmse st'))) ;;;
  ret st'.

Fixpoint tune_loop (data_version : string) (p : Params)
    (train test : list Row) (i : nat) (combinations : list (list Q))
    (st : TuneState) : M TuneState :=
  match combinations with
  | [] => ret st
  | values :: rest =>
      st' <- tune_step data_version p train test i values st ;;
      tune_loop data_version p train test (S i) rest st'
  end.

Definition tune_model (data_version : string) : M nat :=
  p <- load_params ;;
  data_path <- lift (dict_item (p_data p)
                       (String.append "gold_" data_version)) ;;
  csv_rows <- read_csv data_path ;;
  let rows := load_gold_data csv_rows in
  parts <- lift (temporal_train_test_split rows (p_test_size p)) ;;
  let train := fst parts in
  let test := snd parts in
  param_grid <- lift (pick_items (p_tuning p) grid_keys) ;;
  let combinations := itertools_product (map snd param_grid) in
  st <- tune_loop data_version p train test 0 combinations
          (mkTuneState Inf None None) ;;
  match best_run_id st with
  | None => raise TypeError          (* best_run_id[:8] on None *)
  | Some id =>
      print (MsgBestConfiguration id
               (match best_rmse st with Fin q => q | Inf => 0%Q end)) ;;;
      ret id
  end.

(** *** update_model.py *)

Definition compute_file_hash (data : list byte) : string :=
  md5_hexdigest (List.concat (read_chunks (List.length data) chunk_size data)).

Definition file_info (e : DirEntry) : FileInfo :=
  mkFileInfo (String.append "data/gold/" (fname e))
             (compute_file_hash (content e))
             (mtime_of e)
             (Z.of_nat (List.length (content e))).

(** The body of the loop of [get_data_state]. *)
Definition track_entry (state : DataState) (e : DirEntry) : DataState :=
  if endswith (fname e) ".csv"
  then dict_set state (fname e) (file_info e)
  else state.

Definition get_data_state_of (entries : list DirEntry) : DataState :=
  fold_left track_entry (sorted_listdir entries) [].

Definition get_data_state : M DataState :=
  fun w => (w, Ok (get_data_state_of (gold_dir w))).

Definition detect_new_data : M (list string * list string * DataState) :=
  current_state <- get_data_state ;;
  last_state <- load_last_state ;;
  ret (detect_loop current_state last_state, current_state).

(** The body of the loop of step 4, with the comparison of step 5. *)
Definition retrain (current_best : option Run) (version : string) : M unit :=
  print (MsgRetraining version) ;;;
  new_run_id <- train_model version None None ;;
  match current_best with
  | Some best =>
      new_run <- mlflow_get_run new_run_id ;;
      delta <- lift (rmse_delta new_run best) ;;
      print (MsgDelta delta (Qltb delta 0)) ;;;
      print (MsgDecision (promotion_decision delta))
  | None => ret tt
  end.

Definition update_pipeline : M unit :=
  p <- load_params ;;
  detected <- detect_new_data ;;
  let new_files := fst (fst detected) in
  let modified_files := snd (fst detected) in
  let current_state := snd detected in
  match new_files, modified_files with
  | [], [] => print MsgUpToDate
  | _, _ =>
      print (MsgChanged new_files modified_files) ;;;
      let all_changed := (new_files ++ modified_files)%list in
      let versions_to_train := versions_of all_changed in
      match versions_to_train with
      | [] => print MsgNoVersion
      | _ :: _ =>
          current_best <- get_current_best_model p ;;
          match current_best with
          | Some best =>
              old_rmse <- lift (metric_test_rmse best) ;;
              print (MsgCurrentBest (run_id best) old_rmse)
          | None => ret tt
          end ;;;
          for_each versions_to_train (retrain current_best) ;;;
          save_state current_state ;;;
          print MsgStateSaved
      end
  end.

End Program.

(** ** Vocabulary of the specification *)

(** The train count the specification names: [floor(n * (1 - f))], in
    exact arithmetic. *)
Definition floor_train_count (n : nat) (f : Q) : Z :=
  Qfloor (inject_Z (Z.of_nat n) * (1 - f)).

(** Date order on rows. *)
Definition date_le (a b : Row) : Prop := date a <= date b.

(** Every timestamp of the first list is at most every timestamp of the
    second ([max(train dates) <= min(test dates)]). *)
Definition dates_before (train test : list Row) : Prop :=
  Forall (fun r => Forall (fun r' => date r <= date r') test) train.

(** The lines [train_model] prints. *)
Definition train_msg (m : Msg) : Prop :=
  match m with
  | MsgNotFound _ | MsgUnknownModel _ | MsgDataVersion _ _ _ | MsgKpi _ => True
  | _ => False
  end.

(** [w'] is [w] with more runs in front of the registry and more lines
    printed; the files are the same. *)
Definition extends (w w' : World) (runs : list Run) (out : list Msg) : Prop :=
  w' = mkWorld (params w) (gold_dir w) (csv_files w) (state_file w)
               (runs ++ registry w)%list (stdout w ++ out)%list.

(** A run as [train_model] leaves it when it returns: trained on the
    version, scored on the test partition, with the model artifact and the
    KPI status of the test metrics. *)
Definition trained_run (p : Params) (version : string) (r : Run) : Prop :=
  tag_data_version r = version
  /\ model_logged r = true
  /\ exists tm : Metrics,
       run_test_metrics r = Some tm
       /\ tag_kpi_status r = Some (kpi_status tm (p_thresholds p)).

(** The versions whose retraining was announced, and the decisions
    printed, in the order of the lines. *)
Definition retrained_versions (out : list Msg) : list string :=
  flat_map (fun m => match m with MsgRetraining v => [v] | _ => [] end) out.

Definition decisions (out : list Msg) : list Decision :=
  flat_map (fun m => match m with MsgDecision d => [d] | _ => [] end) out.

(** The loop body [body] ran on every element of the list, from world
    [w] to world [w'], and returned each time. *)
Inductive runs_ok {A} (body : A -> M unit) : list A -> World -> World -> Prop :=
  | runs_ok_nil w : runs_ok body [] w w
  | runs_ok_cons a l w1 w2 w3 :
      body a w1 = (w2, Ok tt) -> runs_ok body l w2 w3 ->
      runs_ok body (a :: l) w1 w3.

(** The world after a line is printed. *)
Definition printed (m : Msg) (w : World) : World := fst (print m w).

Section Cycle.

Variable md5_hexdigest : list byte -> string.

Definition current_state_of (w : World) : DataState :=
  get_data_state_of md5_hexdigest (gold_dir w).

Definition last_state_of (w : World) : DataState :=
  match state_file w with Some s => s | None => [] end.

Definition new_files_of (w : World) : list string :=
  fst (detect_loop (current_state_of w) (last_state_of w)).

Definition modified_files_of (w : World) : list string :=
  snd (detect_loop (current_state_of w) (last_state_of w)).

Definition versions_to_train (w : World) : list string :=
  versions_of (new_files_of w ++ modified_files_of w).

(** The incumbent [update_pipeline] compares with. *)
Definition incumbent (w : World) : option Run :=
  search_best_pass (registry w).

(** The world in which the retraining loop starts. *)
Definition before_training (w : World) : World :=
  let w1 := printed (MsgChanged (new_files_of w) (modified_files_of w)) w in
  match incumbent w with
  | Some best =>
      match run_test_metrics best with
      | Some m => printed (MsgCurrentBest (run_id best) (rmse m)) w1
      | None => w1
      end
  | None => w1
  end.

(** Step 6: the state of this cycle is saved. *)
Definition committed (w_start w_end : World) : World :=
  printed MsgStateSaved (fst (save_state (current_state_of w_start) w_end)).

End Cycle.

(** The decisions printed for the runs, one per run, are those of
    [promotion_decision] on the delta to the incumbent; without an
    incumbent none is printed. *)
Definition decided (best : option Run) (runs : list Run)
    (ds : list Decision) : Prop :=
  match best with
  | None => ds = []
  | Some b =>
      Forall2 (fun run d => exists delta,
                 rmse_delta run b = Ok delta
                 /\ d = promotion_decision delta) runs ds
  end.


(** [name] ends with [suffix]. *)
Definition ends_with (name suffix : string) : Prop :=
  exists stem, name = String.append stem suffix.

(** The test RMSE logged on a run. *)
Definition run_rmse (r : Run) : Q :=
  match run_test_metrics r with Some m => rmse m | None => 0%Q end.

(** [b] is the first of the runs with the lowest test RMSE: it beats
    every run before it and is not beaten by any run after it. *)
Definition first_minimum (runs : list Run) (b : Run) : Prop :=
  exists before after,
    runs = (before ++ b :: after)%list
    /\ Forall (fun r => (run_rmse b < run_rmse r)%Q) before
    /\ Forall (fun r => (run_rmse b <= run_rmse r)%Q) after.

(** [r] beats every run enumerated before it: it becomes the best so
    far. *)
Definition new_best (before : list Run) (r : Run) : Prop :=
  Forall (fun r' => (run_rmse r < run_rmse r')%Q) before.

(** The number of tuples of the cartesian product of the pools. *)
Definition product_size {A} (pools : list (list A)) : nat :=
  fold_right (fun pool n => (List.length pool * n)%nat) 1%nat pools.

(** The best-so-far record of the loop describes the runs done so far. *)
Definition tune_invariant (st : TuneState) (done : list Run) : Prop :=
  match best_rmse st with
  | Inf => done = [] /\ best_run_id st = None
  | Fin q =>
      exists b,
        first_minimum done b /\ q = run_rmse b
        /\ best_run_id st = Some (run_id b)
        /\ best_params st = Some (run_params b)
  end.

(** Each run carries the model artifact exactly when it became the best
    so far. *)
Fixpoint logged_from (before runs : list Run) : Prop :=
  match runs with
  | [] => True
  | r :: rest =>
      (model_logged r = true <-> new_best before r)
      /\ logged_from (before ++ [r]) rest
  end.


(** ** Concrete backends, datasets and worlds *)

Module Examples.

(** A backend whose scores are read off the hyperparameters. *)
Definition toy_fit_score (mtype : string) (hp : HyperParams)
    (train test : list Row) : result Metrics :=
  Ok (mkMetrics (dict_get_default hp "max_depth" 2%Q) 100%Q (9 # 10)%Q).

Definition toy_mean (l : list Q) : Q :=
  match l with
  | [] => 0%Q
  | _ => (fold_right Qplus 0 l / inject_Z (Z.of_nat (List.length l)))%Q
  end.

Definition toy_std (l : list Q) : Q := 0%Q.

Definition toy_md5 (data : list byte) : string := string_of_list_byte data.

(** [n] daily rows, stored newest first. *)
Definition days (n : nat) : list Row :=
  map (fun i => mkRow (Z.of_nat i) [] 0%Q) (rev (seq 1 n)).

Definition toy_model_params (max_depth : Q) : dict Q :=
  [("n_estimators", 100%Q); ("max_depth", max_depth);
   ("learning_rate", (1 # 10)%Q); ("min_samples_split", 2%Q);
   ("min_samples_leaf", 1%Q); ("subsample", 1%Q); ("random_state", 42%Q)].

Definition toy_grid : dict (list Q) :=
  [("n_estimators", [50%Q; 100%Q]); ("max_depth", [3%Q; 2%Q; 2%Q]);
   ("learning_rate", [(1 # 10)%Q]); ("min_samples_split", [2%Q])].

Definition toy_params (max_depth : Q) (test_size : float) (th : Thresholds)
    : Params :=
  mkParams [("gold_v1", "data/gold/gold_v1.csv");
            ("gold_v2", "data/gold/gold_v2.csv")]
           "gradient_boosting" (toy_model_params max_depth) test_size th
           toy_grid.

Definition lenient : Thresholds := mkThresholds 3%Q 1%Q (1 # 2)%Q.
Definition strict : Thresholds := mkThresholds 1%Q 1%Q (1 # 2)%Q.

Definition gold_v1 : DirEntry := mkDirEntry "gold_v1.csv" [x61; x62] 10%Q.
Definition gold_v2 : DirEntry := mkDirEntry "gold_v2.csv" [x63] 11%Q.
Definition notes : DirEntry := mkDirEntry "notes.csv" [x64] 12%Q.
Definition readme : DirEntry := mkDirEntry "README.md" [x65] 13%Q.
Definition gold_v1_v2 : DirEntry := mkDirEntry "gold_v1_v2.csv" [x66] 14%Q.

(** A finished run with test RMSE [q], as an earlier cycle left it. *)
Definition past_run (id : nat) (q : Q) (status : KpiStatus) : Run :=
  mkRun id "gradient_boosting_v1" "v1" "gradient_boosting" None
        (toy_model_params q) (Some (mkMetrics q 100%Q (9 # 10)%Q))
        (Some (mkMetrics q 100%Q (9 # 10)%Q)) [] true (Some status).

(** First cycle: two new files, one of them without a version marker. *)
Definition world_notes : World :=
  mkWorld (toy_params 2%Q 0.2%float lenient) [notes; gold_v1; readme]
          [("data/gold/gold_v1.csv", days 10)] None [] [].

(** A new [gold_v1.csv] whose model ties with the incumbent. *)
Definition world_tie : World :=
  mkWorld (toy_params 2%Q 0.2%float lenient) [gold_v1]
          [("data/gold/gold_v1.csv", days 10)] None [past_run 0 2%Q PASS] [].

(** A candidate that fails the KPI check but beats the incumbent. *)
Definition world_fail_better : World :=
  mkWorld (toy_params 2%Q 0.2%float strict) [gold_v1]
          [("data/gold/gold_v1.csv", days 10)] None
          [past_run 0 (5 # 2)%Q PASS] [].

(** Two new versions; the dataset of the first is missing. *)
Definition world_missing_v1 : World :=
  mkWorld (toy_params 2%Q 0.2%float lenient) [gold_v1; gold_v2]
          [("data/gold/gold_v2.csv", days 10)] None [] [].

(** Two new versions, both datasets present. *)
Definition world_two : World :=
  mkWorld (toy_params 2%Q 0.2%float lenient) [gold_v2; gold_v1]
          [("data/gold/gold_v1.csv", days 10);
           ("data/gold/gold_v2.csv", days 20)] None
          [past_run 0 (5 # 2)%Q PASS] [].

(** A dataset of six rows: four of them train the model. *)
Definition world_small : World :=
  mkWorld (toy_params 2%Q 0.2%float lenient) [gold_v1]
          [("data/gold/gold_v1.csv", days 6)] None [] [].

(** [gold_v1.csv] rewritten with the same bytes: new time stamp only. *)
Definition world_touched : World :=
  mkWorld (toy_params 2%Q 0.2%float lenient) [gold_v1; gold_v2]
          [("data/gold/gold_v1.csv", days 10);
           ("data/gold/gold_v2.csv", days 20)]
          (Some [("gold_v1.csv",
                  mkFileInfo "data/gold/gold_v1.csv" "ab" 1%Q 7);
                 ("gold_v2.csv",
                  mkFileInfo "data/gold/gold_v2.csv" "old" 11%Q 1);
                 ("gold_v0.csv",
                  mkFileInfo "data/gold/gold_v0.csv" "zz" 1%Q 2)])
          [] [].

End Examples.

Abbreviation toy_update :=
  (update_pipeline Examples.toy_fit_score Examples.toy_mean Examples.toy_std
     Examples.toy_md5) (only parsing).

Abbreviation toy_train :=
  (train_model Examples.toy_fit_score Examples.toy_mean Examples.toy_std)
  (only parsing).

Abbreviation toy_tune :=
  (tune_model Examples.toy_fit_score Examples.toy_mean Examples.toy_std)
  (only parsing).

Abbreviation toy_retrain :=
  (retrain Examples.toy_fit_score Examples.toy_mean Examples.toy_std)
  (only parsing).

(** ** Further vocabulary *)

(** A changed file carries a version marker. *)
Definition has_marker (name : string) : bool :=
  contains "v1" name || contains "v2" name.

(** A run that [search_runs] can rank: status PASS and a test RMSE. *)
Definition eligible (r : Run) : Prop :=
  tag_kpi_status r = Some PASS /\ exists m, run_test_metrics r = Some m.

(** A run as configuration number [i + 1] of [tune_model] leaves it: the
    name and tags of the loop body, no train metrics, the test metrics and
    the KPI status computed from them. *)
Definition tuning_run (p : Params) (version : string) (i : nat) (r : Run)
  : Prop :=
  run_name r
  = String.append "tune_"
      (String.append (fmt_03d (i + 1)) (String.append "_" version))
  /\ tag_data_version r = version
  /\ tag_model_type r = "gradient_boosting"
  /\ tag_run_type r = Some "tuning"
  /\ run_train_metrics r = None
  /\ exists m : Metrics,
       run_test_metrics r = Some m
       /\ tag_kpi_status r = Some (tune_kpi_status m (p_thresholds p)).

(** [x] is at most the test RMSE of every run of [runs]. *)
Definition at_most_all (x : Q) (runs : list Run) : Prop :=
  Forall (fun r => (x <= run_rmse r)%Q) runs.

(** ** evaluate.py: the comparison of the best runs of v1 and v2 *)

Inductive Recommendation : Type :=
  | PromoteImproved            (* "PROMOTE v2 model — improved on new data" *)
  | PromoteDespiteRegression   (* "PROMOTE v2 model — meets thresholds
                                  despite slight regression" *)
  | KeepV1.                    (* "KEEP v1 model — v2 does not meet KPI
                                  thresholds" *)

(** The word printed after a delta. *)
Inductive Trend : Type := Improved | Degraded.

Record Comparison : Type := mkComparison {
  c_rmse_delta : Q;
  c_mae_delta : Q;
  c_r2_delta : Q;
  trend_rmse : Trend;
  trend_mae : Trend;
  trend_r2 : Trend;
  recommendation : Recommendation
}.

(** The block of [compare_models] that runs when both versions have a
    best run: the deltas, their labels and the recommendation, from the
    test metrics [v1] and [v2] of the two runs. *)
Definition compare_versions (v1 v2 : Metrics) (thresholds : Thresholds)
  : Comparison :=
  let rmse_delta := (rmse v2 - rmse v1)%Q in
  let mae_delta := (mae v2 - mae v1)%Q in
  let r2_delta := (r2 v2 - r2 v1)%Q in
  let v2_passes :=
    Qltb (rmse v2) (rmse_acceptable thresholds)
    && Qltb (r2_minimum thresholds) (r2 v2) in
  mkComparison rmse_delta mae_delta r2_delta
    (if Qltb rmse_delta 0 then Improved else Degraded)
    (if Qltb mae_delta 0 then Improved else Degraded)
    (if Qltb 0 r2_delta then Improved else Degraded)
    (if v2_passes && Qle_bool rmse_delta 0 then PromoteImproved
     else if v2_passes then PromoteDespiteRegression
     else KeepV1).

(** ** predict.py and prepare_test.py: alignment of the feature columns

    A data frame by columns, under their names, which are unique;
    [len(df)] is the length of its columns. *)
Definition Frame (A : Type) : Type := dict (list A).

Definition frame_len {A} (df : Frame A) : nat :=
  match df with
  | [] => 0%nat
  | (_, col) :: _ => List.length col
  end.

(** [df[col] = 0]: the scalar fills a column of [len(df)] entries. *)
Definition set_scalar {A} (zero : A) (df : Frame A) (col : string) : Frame A :=
  dict_set df col (repeat zero (frame_len df)).

(** [[c for c in feature_cols if c not in test_df.columns]]. *)
Definition missing_cols {A} (feature_cols : list string) (test_df : Frame A)
  : list string :=
  filter (fun c => negb (dict_mem test_df c)) feature_cols.

(** [df[cols]] with a list of labels: the columns in the order of the
    list, [KeyError] when a label is not a column. *)
Definition select_columns {A} (df : Frame A) (cols : list string)
  : result (Frame A) :=
  pick_items df cols.

(** Lines 86 to 93 of [predict]. *)
Definition align_features {A} (zero : A) (feature_cols : list string)
    (test_df : Frame A) : result (Frame A) :=
  let missing := missing_cols feature_cols test_df in
  let test_df :=
    match missing with
    | [] => test_df
    | _ => fold_left (set_scalar zero) missing test_df
    end in
  select_columns test_df feature_cols.

(** The alignment loop of [prepare_test_data]. *)
Definition add_missing_features {A} (zero : A) (gold_features : list string)
    (test_processed : Frame A) : Frame A :=
  fold_left (fun df col =>
               if negb (dict_mem df col) then set_scalar zero df col else df)
            gold_features test_processed.

(** The value of a feature column after the alignment. *)
Definition aligned_column {A} (zero : A) (test_df : Frame A) (c : string)
  : list A :=
  match dict_get test_df c with
  | Some v => v
  | None => repeat zero (frame_len test_df)
  end.

(** * Assignment 3: the silver layer ([clean.py], [validate.py])

    The climate frame by columns: the dates and the four measurements, a
    measurement being [None] where pandas has NaN.  The values are the
    rationals they denote, as for the metrics: the code compares them
    with the configured bounds and copies them.  [len(df)] is the length
    of the date column. *)

Record Climate : Type := mkClimate {
  c_date : list Z;
  c_meantemp : list (option Q);
  c_humidity : list (option Q);
  c_wind_speed : list (option Q);
  c_meanpressure : list (option Q)
}.

(** The section [clean] of params.yaml. *)
Record CleanParams : Type := mkCleanParams {
  meantemp_range : Q * Q;
  humidity_range : Q * Q;
  wind_speed_min : Q;
  meanpressure_range : Q * Q
}.

(** ** pandas operations on columns *)

(** [Series.duplicated()] with the default [keep="first"]: an entry is
    marked when its value occurred before. *)
Fixpoint duplicated_from (seen dates : list Z) : list bool :=
  match dates with
  | [] => []
  | d :: rest =>
      let dup := existsb (Z.eqb d) seen in
      dup :: duplicated_from (if dup then seen else d :: seen) rest
  end.

Definition duplicated (dates : list Z) : list bool := duplicated_from [] dates.

(** Boolean indexing [col[mask]]. *)
Fixpoint select {A} (mask : list bool) (col : list A) : list A :=
  match mask, col with
  | b :: mask', x :: col' =>
      if b then x :: select mask' col' else select mask' col'
  | _, _ => []
  end.

Definition select_rows (mask : list bool) (df : Climate) : Climate :=
  mkClimate (select mask (c_date df)) (select mask (c_meantemp df))
            (select mask (c_humidity df)) (select mask (c_wind_speed df))
            (select mask (c_meanpressure df)).

(** [mask.sum()] and [mask.all()]. *)
Definition count_true (mask : list bool) : nat :=
  List.length (filter (fun b => b) mask).

Definition all_true (mask : list bool) : bool := forallb (fun b => b) mask.

Definition isnull (col : list (option Q)) : list bool :=
  map (fun x => match x with None => true | Some _ => false end) col.

(** [(col < lo) | (col > hi)], [col < lo] and [col >= lo]: a comparison
    with NaN is false. *)
Definition outside (lo hi : Q) (col : list (option Q)) : list bool :=
  map (fun x => match x with
                | Some q => Qltb q lo || Qltb hi q
                | None => false
                end) col.

Definition below (lo : Q) (col : list (option Q)) : list bool :=
  map (fun x => match x with Some q => Qltb q lo | None => false end) col.

Definition at_least (lo : Q) (col : list (option Q)) : list bool :=
  map (fun x => match x with Some q => Qle_bool lo q | None => false end) col.

(** [Series.between(left, right)], both ends included. *)
Definition between (left right : Q) (col : list (option Q)) : list bool :=
  map (fun x => match x with
                | Some q => Qle_bool left q && Qle_bool q right
                | None => false
                end) col.

(** [df.loc[mask, col] = np.nan]. *)
Definition set_nan (mask : list bool) (col : list (option Q))
  : list (option Q) :=
  map (fun bx : bool * option Q => if fst bx then None else snd bx)
      (combine mask col).

(** [Series.clip(lower, upper)]: NaN stays NaN, a value below the lower
    bound becomes the bound, a value above the upper bound becomes that
    bound; two scalar bounds are put in order first, as pandas does. *)
Definition clip_value (lower upper : option Q) (x : Q) : Q :=
  let low := match lower with
             | Some lo => if Qltb x lo then lo else x
             | None => x
             end in
  match upper with
  | Some hi => if Qltb hi x then hi else low
  | None => low
  end.

Definition clip (lower upper : option Q) (col : list (option Q))
  : list (option Q) :=
  let bounds :=
    match lower, upper with
    | Some lo, Some hi =>
        if Qle_bool lo hi then (lower, upper) else (upper, lower)
    | _, _ => (lower, upper)
    end in
  map (option_map (clip_value (fst bounds) (snd bounds))) col.

(** [Series.ffill()] and [Series.bfill()]. *)
Fixpoint ffill_from (last : option Q) (col : list (option Q))
  : list (option Q) :=
  match col with
  | [] => []
  | Some q :: rest => Some q :: ffill_from (Some q) rest
  | None :: rest => last :: ffill_from last rest
  end.

Definition ffill (col : list (option Q)) : list (option Q) :=
  ffill_from None col.

Fixpoint bfill (col : list (option Q)) : list (option Q) :=
  match col with
  | [] => []
  | Some q :: rest => Some q :: bfill rest
  | None :: rest => hd None (bfill rest) :: bfill rest
  end.

(** ** clean.py

    Each cleaning step returns the frame and the number it prints. *)

Definition remove_duplicates (df : Climate) : Climate * Z :=
  let n_before := List.length (c_date df) in
  let df := select_rows (map negb (duplicated (c_date df))) df in
  let n_removed := Z.of_nat n_before - Z.of_nat (List.length (c_date df)) in
  (df, n_removed).

Definition fix_out_of_range (df : Climate) (clean_params : CleanParams)
  : Climate * (nat * nat * nat * nat) :=
  let temp_lo := fst (meantemp_range clean_params) in
  let temp_hi := snd (meantemp_range clean_params) in
  let hum_lo := fst (humidity_range clean_params) in
  let hum_hi := snd (humidity_range clean_params) in
  let ws_min := wind_speed_min clean_params in
  let pres_lo := fst (meanpressure_range clean_params) in
  let pres_hi := snd (meanpressure_range clean_params) in
  let mask_pressure := outside pres_lo pres_hi (c_meanpressure df) in
  let n_bad_pressure := count_true mask_pressure in
  let meanpressure := set_nan mask_pressure (c_meanpressure df) in
  let mask_temp := outside temp_lo temp_hi (c_meantemp df) in
  let n_bad_temp := count_true mask_temp in
  let meantemp := clip (Some temp_lo) (Some temp_hi) (c_meantemp df) in
  let mask_hum := outside hum_lo hum_hi (c_humidity df) in
  let n_bad_hum := count_true mask_hum in
  let humidity := clip (Some hum_lo) (Some hum_hi) (c_humidity df) in
  let mask_ws := below ws_min (c_wind_speed df) in
  let n_bad_ws := count_true mask_ws in
  let wind_speed := clip (Some ws_min) None (c_wind_speed df) in
  (mkClimate (c_date df) meantemp humidity wind_speed meanpressure,
   (n_bad_pressure, n_bad_temp, n_bad_hum, n_bad_ws)).

(** [df[numeric_cols].isnull().sum().sum()]; the date column of the model
    has no missing entries. *)
Definition null_count (df : Climate) : nat :=
  (count_true (isnull (c_meantemp df)) + count_true (isnull (c_humidity df))
   + count_true (isnull (c_wind_speed df))
   + count_true (isnull (c_meanpressure df)))%nat.

Definition handle_missing_values (df : Climate) : Climate * Z :=
  let n_missing_before := null_count df in
  let df := mkClimate (c_date df)
                      (bfill (ffill (c_meantemp df)))
                      (bfill (ffill (c_humidity df)))
                      (bfill (ffill (c_wind_speed df)))
                      (bfill (ffill (c_meanpressure df))) in
  let n_missing_after := null_count df in
  (df, Z.of_nat n_missing_before - Z.of_nat n_missing_after).

(** The three cleaning steps of [main], in their order. *)
Definition clean_steps (df : Climate) (clean_params : CleanParams) : Climate :=
  let df := fst (remove_duplicates df) in
  let df := fst (fix_out_of_range df clean_params) in
  fst (handle_missing_values df).

(** ** validate.py *)

Section ValidationResult.

(** Names and details of checks are formatted strings in the code; the
    class does not look at them. *)
Variables Name Detail : Type.

Definition Results : Type := list (Name * string * Detail).

Definition check (name : Name) (condition : bool) (detail : Detail)
    (results : Results) : Results :=
  let status := if condition then "PASS" else "FAIL" in
  (results ++ [(name, status, detail)])%list.

Definition all_passed (results : Results) : bool :=
  forallb (fun r => String.eqb (snd (fst r)) "PASS") results.

(** The two numbers of the summary "passed/total checks passed". *)
Definition summary (results : Results) : nat * nat :=
  let passed :=
    List.length
      (filter (fun r => String.eqb (snd (fst r)) "PASS") results) in
  let total := List.length results in
  (passed, total).

(** The end of [main]: [sys.exit(1)] unless all checks passed. *)
Definition validation_exit (results : Results) : result unit :=
  if negb (all_passed results) then Raise (SystemExit 1) else Ok tt.

(** A sequence of [check] calls on a new [ValidationResult]. *)
Definition run_checks (calls : list (Name * bool * Detail)) : Results :=
  fold_left (fun v c => check (fst (fst c)) (snd (fst c)) (snd c) v)
            calls [].

End ValidationResult.

(** The checks of the blocks "Completeness" and "Value range checks" of
    [validate_silver]. *)
Inductive SilverCheck : Type :=
  | NoMissingValues | NoDuplicateDates | MeantempInRange | HumidityInRange
  | WindSpeedAtLeast | MeanpressureInRange.

Definition silver_conditions (df : Climate) (clean_params : CleanParams)
  : list (SilverCheck * bool) :=
  let n_null := null_count df in
  let temp_lo := fst (meantemp_range clean_params) in
  let temp_hi := snd (meantemp_range clean_params) in
  let hum_lo := fst (humidity_range clean_params) in
  let hum_hi := snd (humidity_range clean_params) in
  let ws_min := wind_speed_min clean_params in
  let pres_lo := fst (meanpressure_range clean_params) in
  let pres_hi := snd (meanpressure_range clean_params) in
  [(NoMissingValues, Nat.eqb n_null 0);
   (NoDuplicateDates, Nat.eqb (count_true (duplicated (c_date df))) 0);
   (MeantempInRange, all_true (between temp_lo temp_hi (c_meantemp df)));
   (HumidityInRange, all_true (between hum_lo hum_hi (c_humidity df)));
   (WindSpeedAtLeast, all_true (at_least ws_min (c_wind_speed df)));
   (MeanpressureInRange,
    all_true (between pres_lo pres_hi (c_meanpressure df)))].

(** All columns have the length of the frame. *)
Definition well_formed (df : Climate) : Prop :=
  List.length (c_meantemp df) = List.length (c_date df)
  /\ List.length (c_humidity df) = List.length (c_date df)
  /\ List.length (c_wind_speed df) = List.length (c_date df)
  /\ List.length (c_meanpressure df) = List.length (c_date df).

(** The column has a value that is not NaN. *)
Definition has_value (col : list (option Q)) : Prop :=
  exists q, In (Some q) col.

Definition no_nan (col : list (option Q)) : Prop :=
  Forall (fun x => x <> None) col.

(** What [ffill().bfill()] did to a column. *)
Definition imputed (col col' : list (option Q)) : Prop :=
  List.length col' = List.length col
  /\ Forall2 (fun x y => x <> None -> y = x) col col'
  /\ Forall (fun y => y = None \/ In y col) col'
  /\ (has_value col -> no_nan col')
  /\ (~ has_value col -> col' = col).

(** Every entry is NaN or satisfies [P]. *)
Definition nan_or (P : Q -> Prop) (col : list (option Q)) : Prop :=
  Forall (fun x => match x with Some q => P q | None => True end) col.

Definition within (lo hi q : Q) : Prop := (lo <= q)%Q /\ (q <= hi)%Q.

(** ** Further worlds *)

Module MoreExamples.

(** Two new files of the same version. *)
Definition world_same_version : World :=
mkWorld (Examples.toy_params 2%Q 0.2%float Examples.lenient)
        [Examples.gold_v1; Examples.gold_v1_v2]
        [("data/gold/gold_v1.csv", Examples.days 10)] None [] [].

(** A tuning grid with an empty list of depths. *)
Definition world_empty_grid : World :=
mkWorld (mkParams [("gold_v1", "data/gold/gold_v1.csv")]
                  "gradient_boosting" (Examples.toy_model_params 2%Q)
                  0.2%float Examples.lenient
                  [("n_estimators", [50%Q; 100%Q]); ("max_depth", []);
                   ("learning_rate", [(1 # 10)%Q]);
                   ("min_samples_split", [2%Q])])
        [Examples.gold_v1]
        [("data/gold/gold_v1.csv", Examples.days 10)] None [] [].

(** Cleaning parameters and a bronze frame with a repeated date, values
  out of range and gaps. *)
Definition toy_clean_params : CleanParams :=
mkCleanParams ((-10)%Q, 50%Q) (0%Q, 100%Q) 0%Q (900%Q, 1100%Q).

Definition toy_bronze : Climate :=
mkClimate [1; 2; 2; 3]
          [None; Some 60%Q; Some 20%Q; None]
          [Some 50%Q; None; None; Some 130%Q]
          [Some (-2)%Q; Some 4%Q; None; None]
          [Some 7000%Q; None; Some 1000%Q; Some 1010%Q].

End MoreExamples.

(** * Properties *)

(** ** Python primitives *)

Lemma Qltb_lt (x y : Q) : Qltb x y = true <-> (x < y)%Q.
Proof.
  unfold Qltb. rewrite negb_true_iff. split.
  - intros H. apply Qnot_le_lt. intros Hle.
    apply Qle_bool_iff in Hle. congruence.
  - intros H. destruct (Qle_bool y x) eqn:E; [|reflexivity].
    apply Qle_bool_iff in E. exfalso. exact (Qlt_not_le _ _ H E).
Qed.

Lemma Qltb_ge (x y : Q) : Qltb x y = false <-> (y <= x)%Q.
Proof.
  unfold Qltb. rewrite negb_false_iff. apply Qle_bool_iff.
Qed.



(** [endswith s suffix] holds exactly when [s] ends with [suffix]. *)
Lemma endswith_spec (s suffix : string) :
  endswith s suffix = true <-> exists stem, s = String.append stem suffix.
Proof.
  induction s as [|c s IH]; cbn [endswith].
  - rewrite orb_false_r, String.eqb_eq. split.
    + intros <-. now exists EmptyString.
    + intros [[|b stem] H]; simpl in H; [now symmetry | discriminate].
  - rewrite orb_true_iff, IH, String.eqb_eq. split.
    + intros [<-|[stem ->]].
      * now exists EmptyString.
      * now exists (String c stem).
    + intros [[|b stem] H]; simpl in H.
      * now left.
      * right. injection H as _ H. eauto.
Qed.

Lemma dict_get_In {V} (d : dict V) (k : string) (v : V) :
  dict_get d k = Some v -> In (k, v) d.
Proof.
  induction d as [|[k' v'] d IH]; simpl; [discriminate|].
  destruct (String.eqb_spec k' k) as [->|Hk].
  - intros [= ->]. now left.
  - intros H. right. auto.
Qed.

Lemma dict_get_None {V} (d : dict V) (k : string) :
  dict_get d k = None <-> ~ In k (map fst d).
Proof.
  induction d as [|[k' v'] d IH]; simpl.
  - tauto.
  - destruct (String.eqb_spec k' k) as [->|Hk].
    + split; [discriminate | intros H; elim H; now left].
    + rewrite IH. tauto.
Qed.

Lemma dict_get_set {V} (d : dict V) (k k' : string) (v : V) :
  dict_get (dict_set d k v) k' =
  if String.eqb k k' then Some v else dict_get d k'.
Proof.
  induction d as [|[k0 v0] d IH]; simpl.
  - reflexivity.
  - destruct (String.eqb_spec k0 k) as [->|Hk0]; simpl.
    + destruct (String.eqb_spec k k'); reflexivity.
    + rewrite IH. destruct (String.eqb_spec k0 k') as [->|]; [|reflexivity].
      destruct (String.eqb_spec k k'); congruence.
Qed.

Lemma dict_set_keys_NoDup {V} (d : dict V) (k : string) (v : V) :
  NoDup (map fst d) -> NoDup (map fst (dict_set d k v)).
Proof.
  induction d as [|[k0 v0] d IH]; simpl; intros H.
  - constructor; [easy | constructor].
  - destruct (String.eqb_spec k0 k) as [->|Hk0]; simpl; [exact H|].
    inversion H as [|? ? Hn Hd]; subst. constructor; [|auto].
    intros Hin. apply Hn. clear - Hin Hk0.
    induction d as [|[k1 v1] d IH]; simpl in *.
    + destruct Hin as [->|[]]. congruence.
    + destruct (String.eqb_spec k1 k) as [->|]; simpl in *; tauto.
Qed.

Lemma dict_In_get {V} (d : dict V) (k : string) (v : V) :
  NoDup (map fst d) -> In (k, v) d -> dict_get d k = Some v.
Proof.
  induction d as [|[k' v'] d IH]; simpl; [easy|].
  intros Hnd [H|H]; inversion Hnd as [|? ? Hn Hd]; subst.
  - injection H as -> ->. now rewrite String.eqb_refl.
  - destruct (String.eqb_spec k' k) as [->|]; [|auto].
    elim Hn. change k with (fst (k, v)). now apply in_map.
Qed.

Lemma slice_to_from {A} (k : Z) (l : list A) :
  (slice_to k l ++ slice_from k l)%list = l.
Proof. apply firstn_skipn. Qed.

Lemma slice_bound_le (k : Z) (len : nat) : (slice_bound k len <= len)%nat.
Proof. unfold slice_bound. cbv zeta. destruct (Z.ltb_spec k 0); lia. Qed.

Lemma slice_bound_inside (k : Z) (len : nat) :
  0 <= k <= Z.of_nat len -> Z.of_nat (slice_bound k len) = k.
Proof.
  intros H. unfold slice_bound. cbv zeta.
  destruct (Z.ltb_spec k 0); lia.
Qed.

(** The chunks of [compute_file_hash] put together are the file. *)
Lemma read_chunks_concat (chunk fuel : nat) (data : list byte) :
  (0 < chunk)%nat -> (List.length data <= fuel)%nat ->
  List.concat (read_chunks fuel chunk data) = data.
Proof.
  intros Hc. revert data. induction fuel as [|fuel IH]; intros data Hlen.
  - destruct data; [reflexivity | simpl in Hlen; lia].
  - destruct data as [|b data]; [reflexivity|].
    cbn [read_chunks List.concat]. rewrite IH.
    + apply firstn_skipn.
    + rewrite length_skipn.
      change (List.length (b :: data)) with (S (List.length data)) in *. lia.
Qed.

Lemma compute_file_hash_md5 (md5_hexdigest : list byte -> string)
    (data : list byte) :
  compute_file_hash md5_hexdigest data = md5_hexdigest data.
Proof.
  unfold compute_file_hash. rewrite read_chunks_concat; [reflexivity| |lia].
  unfold chunk_size. lia.
Qed.

(** ** train.py: KPI check *)

(** C2.  The KPI status is PASS exactly when the test RMSE is below
    [rmse_acceptable] and the test R2 is above [r2_minimum]; [tune_model]
    applies the same check; replacing the MAE or its threshold by any
    other value leaves the status unchanged; and RMSE 1.0, MAE 100.0,
    R2 0.9 against thresholds 2.0, 1.0, 0.5 is PASS. *)
Theorem kpi_status_gate :
  forall (tm : Metrics) (th : Thresholds),
    (kpi_status tm th = PASS <->
       (rmse tm < rmse_acceptable th)%Q /\ (r2_minimum th < r2 tm)%Q)
    /\ (kpi_status tm th = FAIL <->
          ~ ((rmse tm < rmse_acceptable th)%Q /\ (r2_minimum th < r2 tm)%Q))
    /\ tune_kpi_status tm th = kpi_status tm th
    /\ (forall mae' mae_acceptable' : Q,
          kpi_status (mkMetrics (rmse tm) mae' (r2 tm))
                     (mkThresholds (rmse_acceptable th) mae_acceptable'
                                   (r2_minimum th))
          = kpi_status tm th)
    /\ kpi_status (mkMetrics 1 100 (9 # 10)) (mkThresholds 2 1 (1 # 2)) = PASS.
Proof.
  intros tm th.
  assert (Hpass : kpi_status tm th = PASS <->
            (rmse tm < rmse_acceptable th)%Q /\ (r2_minimum th < r2 tm)%Q).
  { unfold kpi_status. cbv zeta. rewrite <- !Qltb_lt.
    destruct (Qltb (rmse tm) (rmse_acceptable th)),
             (Qltb (r2_minimum th) (r2 tm)); simpl;
      intuition discriminate. }
  split; [exact Hpass|]. split; [|split; [|split]].
  - split.
    + intros Hf Hp. apply Hpass in Hp. congruence.
    + intros Hn. destruct (kpi_status tm th) eqn:E; [|reflexivity].
      elim Hn. now apply Hpass.
  - reflexivity.
  - reflexivity.
  - reflexivity.
Qed.

(** ** train.py: loading and temporal split *)

Lemma insert_by_date_perm (r : Row) (l : list Row) :
  Permutation (insert_by_date r l) (r :: l).
Proof.
  induction l as [|r' l IH]; simpl.
  - apply Permutation_refl.
  - destruct (date r <=? date r').
    + apply Permutation_refl.
    + eapply perm_trans; [apply perm_skip, IH | apply perm_swap].
Qed.

Lemma sort_values_date_perm (l : list Row) :
  Permutation (sort_values_date l) l.
Proof.
  induction l as [|r l IH]; simpl.
  - constructor.
  - eapply perm_trans; [apply insert_by_date_perm | now apply perm_skip].
Qed.

Lemma insert_by_date_sorted (r : Row) (l : list Row) :
  StronglySorted date_le l -> StronglySorted date_le (insert_by_date r l).
Proof.
  induction 1 as [|r' l Hs IH Hall]; simpl.
  - repeat constructor.
  - destruct (Z.leb_spec (date r) (date r')) as [Hle|Hgt].
    + constructor; [now constructor|].
      constructor; [exact Hle|].
      eapply Forall_impl; [|exact Hall].
      unfold date_le. intros; lia.
    + constructor; [exact IH|].
      eapply Permutation_Forall.
      * apply Permutation_sym, insert_by_date_perm.
      * constructor; [unfold date_le; lia | exact Hall].
Qed.

Lemma load_gold_data_sorted (csv_rows : list Row) :
  StronglySorted date_le (load_gold_data csv_rows).
Proof.
  unfold load_gold_data. induction csv_rows as [|r l IH]; simpl.
  - constructor.
  - now apply insert_by_date_sorted.
Qed.

Lemma load_gold_data_length (csv_rows : list Row) :
  List.length (load_gold_data csv_rows) = List.length csv_rows.
Proof. apply Permutation_length, sort_values_date_perm. Qed.

(** In a list in date order, a prefix lies before the rest. *)
Lemma sorted_cut (l : list Row) (n : nat) :
  StronglySorted date_le l -> dates_before (firstn n l) (skipn n l).
Proof.
  intros Hs. revert n. induction Hs as [|r l Hs IH Hall]; intros n.
  - destruct n; constructor.
  - destruct n as [|n]; simpl.
    + constructor.
    + constructor; [|apply IH].
      rewrite <- (firstn_skipn n l) in Hall.
      apply Forall_app in Hall. exact (proj2 Hall).
Qed.

Lemma split_idx_100 : split_idx 100 0.2%float = Ok 80.
Proof. vm_compute. reflexivity. Qed.

(** C5 (amended).  The split of the date-sorted rows at
    [k = int(n * (1 - test_size))], the product being the binary64 one:
    the train partition is the rows before the cut and the test partition
    the rows from it, together they are all the rows, a cut inside the
    data leaves exactly [k] train rows, every train timestamp is at most
    every test timestamp, and 100 rows with fraction 0.2 give 80 and 20. *)
Theorem temporal_split_cut :
  forall (csv_rows : list Row) (test_size : float) (train test : list Row),
    temporal_train_test_split (load_gold_data csv_rows) test_size
      = Ok (train, test) ->
    exists k : Z,
      split_idx (List.length csv_rows) test_size = Ok k
      /\ train = slice_to k (load_gold_data csv_rows)
      /\ test = slice_from k (load_gold_data csv_rows)
      /\ (train ++ test)%list = load_gold_data csv_rows
      /\ Permutation (train ++ test)%list csv_rows
      /\ (List.length train + List.length test = List.length csv_rows)%nat
      /\ (0 <= k <= Z.of_nat (List.length csv_rows) ->
          Z.of_nat (List.length train) = k
          /\ Z.of_nat (List.length test) = Z.of_nat (List.length csv_rows) - k)
      /\ dates_before train test
      /\ (List.length csv_rows = 100%nat -> test_size = 0.2%float ->
          List.length train = 80%nat /\ List.length test = 20%nat).
Proof.
  intros csv_rows test_size train test H.
  unfold temporal_train_test_split in H.
  rewrite load_gold_data_length in H.
  destruct (split_idx (List.length csv_rows) test_size) as [k|e] eqn:Hk;
    simpl in H; [|discriminate].
  injection H as <- <-.
  assert (Hlen : (List.length (slice_to k (load_gold_data csv_rows))
                  + List.length (slice_from k (load_gold_data csv_rows))
                  = List.length csv_rows)%nat).
  { rewrite <- length_app, slice_to_from. apply load_gold_data_length. }
  assert (Hin : 0 <= k <= Z.of_nat (List.length csv_rows) ->
                Z.of_nat (List.length (slice_to k (load_gold_data csv_rows)))
                = k).
  { intros Hr. unfold slice_to. rewrite length_firstn.
    rewrite load_gold_data_length.
    pose proof (slice_bound_le k (List.length csv_rows)).
    rewrite Nat.min_l by assumption. now apply slice_bound_inside. }
  exists k.
  split; [reflexivity|]. split; [reflexivity|]. split; [reflexivity|].
  split; [apply slice_to_from|].
  split; [rewrite slice_to_from; apply sort_values_date_perm|].
  split; [exact Hlen|].
  split; [intros Hr; specialize (Hin Hr); lia|].
  split; [apply sorted_cut, load_gold_data_sorted|].
  intros H100 Hf. rewrite H100, Hf, split_idx_100 in Hk. injection Hk as <-.
  assert (Hr : 0 <= 80 <= Z.of_nat (List.length csv_rows))
    by (rewrite H100; lia).
  specialize (Hin Hr). lia.
Qed.

Lemma temporal_split_cut_witness :
  exists train test,
    temporal_train_test_split (load_gold_data (Examples.days 100)) 0.2%float
      = Ok (train, test)
    /\ List.length train = 80%nat /\ List.length test = 20%nat
    /\ dates_before train test.
Proof.
  destruct (temporal_train_test_split (load_gold_data (Examples.days 100))
              0.2%float) as [[train test]|e] eqn:E;
    [|vm_compute in E; discriminate].
  exists train, test. split; [reflexivity|].
  destruct (@temporal_split_cut (Examples.days 100) 0.2%float train test E)
    as (k & _ & _ & _ & _ & _ & _ & _ & Hd & H100).
  destruct (H100 eq_refl eq_refl) as [H1 H2]. auto.
Defined.

(** C5, as stated, fails on binary64 arithmetic.  With ten rows and test
    fraction 0.8 the code computes [1 - 0.8 = 0.19999999999999996] and
    [int(1.9999999999999996) = 1]: one train row and nine test rows, where
    [floor(10 * (1 - 0.8))] is 2.  With a hundred rows and the test
    fraction [2^-54], which is a binary64 number strictly between 0 and 1,
    [1 - 2^-54] rounds to [1.0] and all hundred rows are train rows, where
    [floor(100 * (1 - 2^-54))] is 99. *)
Lemma temporal_split_not_floor :
  (exists train test,
     temporal_train_test_split (load_gold_data (Examples.days 10)) 0.8%float
       = Ok (train, test)
     /\ List.length train = 1%nat /\ List.length test = 9%nat)
  /\ floor_train_count 10 (8 # 10) = 2
  /\ (exists train test,
        temporal_train_test_split (load_gold_data (Examples.days 100))
          0x1p-54%float = Ok (train, test)
        /\ List.length train = 100%nat /\ List.length test = 0%nat)
  /\ (exists f : Q,
        float_value 0x1p-54%float = Some f /\ (0 < f)%Q /\ (f < 1)%Q
        /\ floor_train_count 100 f = 99).
Proof.
  split; [|split; [|split]].
  - eexists _, _. split; [vm_compute; reflexivity|]. split; reflexivity.
  - reflexivity.
  - eexists _, _. split; [vm_compute; reflexivity|]. split; reflexivity.
  - eexists. split; [vm_compute; reflexivity|].
    split; [reflexivity|]. split; [reflexivity|]. vm_compute. reflexivity.
Qed.

(** ** Runs of [train_model] *)

Ltac destruct_innermost_match_in H :=
  match type of H with
  | context [match ?x with _ => _ end] =>
      lazymatch x with
      | context [match ?y with _ => _ end] => fail
      | _ => destruct x eqn:?
      end
  end.

Ltac unfold_monad_in H :=
  unfold bind, ret, raise, lift, print, load_params, mlflow_start_run,
    mlflow_log, mlflow_get_run, path_exists, read_csv, set_registry,
    save_state, load_last_state, get_current_best_model in H;
  cbn beta iota zeta delta [fst snd registry stdout params gold_dir csv_files
                            state_file negb] in H.

Lemma extends_refl (w : World) : extends w w [] [].
Proof. unfold extends. destruct w; simpl. now rewrite app_nil_r. Qed.

Lemma extends_trans (w1 w2 w3 : World) rs1 out1 rs2 out2 :
  extends w1 w2 rs1 out1 -> extends w2 w3 rs2 out2 ->
  extends w1 w3 (rs2 ++ rs1) (out1 ++ out2).
Proof.
  unfold extends. intros -> ->. simpl. now rewrite !app_assoc.
Qed.

Ltac train_leaf_with tac :=
  tac; eexists;
  split;
  [ unfold extends;
    cbn [registry stdout params gold_dir csv_files state_file app];
    rewrite <- ?app_assoc; reflexivity |];
  split;
  [ repeat (apply Forall_app; split); try assumption;
    repeat constructor |];
  split;
  [ first [ left; reflexivity
          | right; eexists; split; reflexivity ] |];
  first [ eexists; split; [reflexivity|]; split; [reflexivity|];
          split; [reflexivity|]; split; [reflexivity|];
          eexists; split; reflexivity
        | repeat constructor ].

Ltac train_leaf :=
  first [ exists (@nil Run), (@nil Msg);
          split; [apply extends_refl|];
          split; [constructor|]; split; [left; reflexivity | constructor]
        | train_leaf_with ltac:(exists (@nil Run))
        | train_leaf_with ltac:(eexists [_]) ].

Lemma TimeSeriesSplit_too_few (n_splits n_samples : nat) :
  (n_samples < n_splits + 1)%nat ->
  TimeSeriesSplit_split n_splits n_samples = Raise ValueError.
Proof.
  intros H. unfold TimeSeriesSplit_split. cbv zeta.
  destruct (Nat.ltb_spec n_samples (n_splits + 1)); [reflexivity | lia].
Qed.

Lemma TimeSeriesSplit_enough (n_splits n_samples : nat) :
  (n_splits + 1 <= n_samples)%nat ->
  exists folds,
    TimeSeriesSplit_split n_splits n_samples = Ok folds
    /\ List.length folds = n_splits.
Proof.
  intros H. unfold TimeSeriesSplit_split. cbv zeta.
  destruct (Nat.ltb_spec n_samples (n_splits + 1)); [lia|].
  assert (Hq : (n_samples / (n_splits + 1) * n_splits < n_samples)%nat).
  { pose proof (Nat.Div0.mul_div_le n_samples (n_splits + 1)).
    assert (1 <= n_samples / (n_splits + 1))%nat
      by (apply Nat.div_le_lower_bound; lia).
    nia. }
  destruct (Z.leb_spec
              (Z.of_nat n_samples
               - Z.of_nat (n_samples / (n_splits + 1) * n_splits)) 0);
    [lia|].
  eexists. split; [reflexivity|]. now rewrite length_map, length_seq.
Qed.

Section TrainModel.

Variable fit_score :
  string -> HyperParams -> list Row -> list Row -> result Metrics.
Variables np_mean np_std : list Q -> Q.

Lemma select_model_cases mtype cp mp w w' r :
  select_model mtype cp mp w = (w', r) ->
  exists out, extends w w' [] out /\ Forall train_msg out.
Proof.
  unfold select_model. intros H.
  repeat (destruct_innermost_match_in H; unfold_monad_in H);
    injection H as <- <-;
    first [ exists []; split; [apply extends_refl | constructor]
          | eexists [_]; split; [reflexivity | repeat constructor] ].
Qed.

(** Cross-validation on fewer rows than folds raises. *)
Lemma cross_validate_too_few mtype hp rows n_splits :
  (List.length rows < n_splits + 1)%nat ->
  cross_validate_timeseries fit_score np_mean np_std mtype hp rows n_splits
  = Raise ValueError.
Proof.
  intros H. unfold cross_validate_timeseries.
  now rewrite TimeSeriesSplit_too_few.
Qed.

Lemma cross_validate_ok_rows mtype hp rows n_splits cv :
  cross_validate_timeseries fit_score np_mean np_std mtype hp rows n_splits
  = Ok cv ->
  (n_splits + 1 <= List.length rows)%nat.
Proof.
  intros H.
  destruct (Nat.le_gt_cases (n_splits + 1) (List.length rows)) as [|Hlt];
    [assumption|].
  rewrite cross_validate_too_few in H by lia. discriminate.
Qed.

(** What a call of [train_model] does to the world. *)
Lemma train_model_cases v mt cp w w' r :
  train_model fit_score np_mean np_std v mt cp w = (w', r) ->
  exists runs out,
    extends w w' runs out /\ Forall train_msg out
    /\ (runs = []
        \/ exists run, runs = [run] /\ run_id run = List.length (registry w))
    /\ match r with
       | Ok id => exists run, runs = [run] /\ run_id run = id
                              /\ trained_run (params w) v run
       | Raise _ => Forall (fun run => model_logged run = false
                                       /\ tag_kpi_status run = None) runs
       end.
Proof.
  unfold train_model. intros H. unfold_monad_in H.
  repeat (destruct_innermost_match_in H; unfold_monad_in H);
    try match goal with
        | Hs : select_model _ _ _ _ = _ |- _ =>
            apply select_model_cases in Hs;
            destruct Hs as (out_s & Hext & Hmsg);
            unfold extends in Hext; subst
        end;
    cbn [registry stdout params gold_dir csv_files state_file app] in H;
    injection H as <- <-;
    train_leaf.
Qed.

(** A call that returns has found the dataset, cut it in two non-empty
    partitions and cross-validated on the train partition. *)
Lemma train_model_ok_data v mt cp w w' id :
  train_model fit_score np_mean np_std v mt cp w = (w', Ok id) ->
  exists data_path csv_rows train test mtype hp cv,
    dict_get (p_data (params w)) (String.append "gold_" v) = Some data_path
    /\ dict_get (csv_files w) data_path = Some csv_rows
    /\ temporal_train_test_split (load_gold_data csv_rows)
         (p_test_size (params w)) = Ok (train, test)
    /\ train <> [] /\ test <> []
    /\ cross_validate_timeseries fit_score np_mean np_std mtype hp train 5
       = Ok cv.
Proof.
  unfold train_model. intros H. unfold_monad_in H.
  unfold dict_item in H.
  repeat (destruct_innermost_match_in H; unfold_monad_in H);
    try discriminate.
  match goal with
  | Hs : temporal_train_test_split _ _ = Ok ?p |- _ =>
      destruct p as [train test]
  end.
  cbn [fst snd] in *.
  do 7 eexists. repeat split; try eassumption.
  - destruct train; [discriminate | congruence].
  - destruct test; [discriminate | congruence].
Qed.

(** A missing dataset file: [sys.exit(1)] after the error line. *)
Lemma train_model_missing v mt cp w data_path :
  dict_get (p_data (params w)) (String.append "gold_" v) = Some data_path ->
  dict_get (csv_files w) data_path = None ->
  train_model fit_score np_mean np_std v mt cp w
  = (printed (MsgNotFound data_path) w, Raise (SystemExit 1)).
Proof.
  intros Hp Hc. unfold train_model, bind, load_params, lift, path_exists,
    dict_item, dict_mem, raise, printed.
  rewrite Hp. cbn beta iota. rewrite Hc. reflexivity.
Qed.

End TrainModel.

(** ** The retraining loop *)

Lemma extends_params w w' runs out : extends w w' runs out -> params w' = params w.
Proof. now intros ->. Qed.

Lemma extends_state_file w w' runs out :
  extends w w' runs out -> state_file w' = state_file w.
Proof. now intros ->. Qed.

Lemma extends_csv_files w w' runs out :
  extends w w' runs out -> csv_files w' = csv_files w.
Proof. now intros ->. Qed.

Lemma extends_registry w w' runs out :
  extends w w' runs out -> registry w' = (runs ++ registry w)%list.
Proof. now intros ->. Qed.

Lemma extends_stdout w w' runs out :
  extends w w' runs out -> stdout w' = (stdout w ++ out)%list.
Proof. now intros ->. Qed.

Lemma extends_printed (m : Msg) (w : World) : extends w (printed m w) [] [m].
Proof. reflexivity. Qed.

Lemma retrained_versions_app out1 out2 :
  retrained_versions (out1 ++ out2)
  = (retrained_versions out1 ++ retrained_versions out2)%list.
Proof. apply flat_map_app. Qed.

Lemma retrained_versions_cons m out :
  retrained_versions (m :: out)
  = (retrained_versions [m] ++ retrained_versions out)%list.
Proof. apply (retrained_versions_app [m] out). Qed.

Lemma decisions_app out1 out2 :
  decisions (out1 ++ out2) = (decisions out1 ++ decisions out2)%list.
Proof. apply flat_map_app. Qed.

Lemma train_msg_silent (out : list Msg) :
  Forall train_msg out -> retrained_versions out = [] /\ decisions out = [].
Proof.
  induction 1 as [|m out Hm _ [IH1 IH2]]; [easy|].
  destruct m; simpl in Hm; try contradiction; simpl; auto.
Qed.

Lemma for_each_ok {A} (body : A -> M unit) (l : list A) (w w' : World) :
  for_each l body w = (w', Ok tt) <-> runs_ok body l w w'.
Proof.
  split.
  - revert w. induction l as [|a l IH]; intros w; simpl.
    + unfold ret. intros [= <-]. constructor.
    + unfold bind. destruct (body a w) as [w1 [[]|e]] eqn:E; [|discriminate].
      intros H. econstructor; eauto.
  - induction 1 as [|a l w1 w2 w3 Ha _ IH]; simpl.
    + reflexivity.
    + unfold bind. now rewrite Ha.
Qed.

Lemma for_each_raise {A} (body : A -> M unit) (l : list A) (w w' : World) e :
  for_each l body w = (w', Raise e) <->
  exists l1 a l2 w1,
    l = (l1 ++ a :: l2)%list /\ runs_ok body l1 w w1
    /\ body a w1 = (w', Raise e).
Proof.
  split.
  - revert w. induction l as [|a l IH]; intros w; simpl.
    + unfold ret. discriminate.
    + unfold bind. destruct (body a w) as [w1 [[]|e1]] eqn:E.
      * intros H. destruct (IH _ H) as (l1 & b & l2 & w2 & -> & Hok & Hb).
        exists (a :: l1), b, l2, w2. repeat split; [|exact Hb].
        econstructor; eauto.
      * intros [= <- <-]. exists [], a, l, w. repeat split; [constructor|exact E].
  - intros (l1 & a & l2 & w1 & -> & Hok & Hb).
    induction Hok as [|b l w1 w2 w3 Hb1 _ IH]; simpl; unfold bind.
    + now rewrite Hb.
    + rewrite Hb1. auto.
Qed.

Section Retrain.

Variable fit_score :
  string -> HyperParams -> list Row -> list Row -> result Metrics.
Variables np_mean np_std : list Q -> Q.

Local Abbreviation train :=
  (train_model fit_score np_mean np_std)
  (only parsing).
Local Abbreviation retrain_body :=
  (retrain fit_score np_mean np_std)
  (only parsing).

Lemma retrain_unfold best v w :
  retrain_body best v w =
  match train v None None (printed (MsgRetraining v) w) with
  | (w1, Raise e) => (w1, Raise e)
  | (w1, Ok id) =>
      match best with
      | None => (w1, Ok tt)
      | Some b =>
          match find_run id (registry w1) with
          | None => (w1, Raise (KeyError "run_id"))
          | Some new_run =>
              match rmse_delta new_run b with
              | Raise e => (w1, Raise e)
              | Ok delta =>
                  (printed (MsgDecision (promotion_decision delta))
                     (printed (MsgDelta delta (Qltb delta 0)) w1), Ok tt)
              end
          end
      end
  end.
Proof.
  unfold retrain, bind, printed.
  destruct (print (MsgRetraining v) w) as [w0 r0] eqn:E0.
  unfold print in E0. injection E0 as <- <-. cbn [fst].
  destruct (train_model _ _ _ v None None _) as [w1 [id|e]]; [|reflexivity].
  destruct best as [b|]; [|reflexivity].
  unfold mlflow_get_run, ret.
  destruct (find_run id (registry w1)); [|reflexivity].
  unfold lift. destruct (rmse_delta r b); reflexivity.
Qed.

(** Whatever happens, a retraining only adds at most one run, and lines
    that announce this version only. *)
Lemma retrain_extends best v w w' r :
  retrain_body best v w = (w', r) ->
  exists runs out,
    extends w w' runs out /\ retrained_versions out = [v]
    /\ (List.length runs <= 1)%nat.
Proof.
  rewrite retrain_unfold.
  destruct (train v None None (printed (MsgRetraining v) w))
    as [w1 [id|e]] eqn:Et;
    destruct (train_model_cases _ _ _ _ _ _ _ Et)
      as (runs & out & Hext & Hmsg & Hruns & _);
    pose proof (extends_trans (extends_printed (MsgRetraining v) w) Hext)
      as Hext1;
    rewrite app_nil_r in Hext1;
    destruct (train_msg_silent Hmsg) as [Hs _];
    assert (Hlen : (List.length runs <= 1)%nat)
      by (destruct Hruns as [->|(run & -> & _)]; simpl; lia);
    assert (Hrv : retrained_versions ([MsgRetraining v] ++ out) = [v])
      by (rewrite retrained_versions_app, Hs; reflexivity).
  - destruct best as [b|]; [|intros [= <- <-]; eauto].
    destruct (find_run id (registry w1)); [|intros [= <- <-]; eauto].
    destruct (rmse_delta r0 b); intros [= <- <-]; [|eauto].
    pose proof (extends_trans Hext1
                  (extends_trans
                     (extends_printed (MsgDelta a (Qltb a 0)) w1)
                     (extends_printed
                        (MsgDecision (promotion_decision a)) _))) as Hfull.
    cbn [app] in Hfull.
    exists runs. eexists. split; [exact Hfull|]. split; [|exact Hlen].
    rewrite retrained_versions_cons, retrained_versions_app, Hs.
    reflexivity.
  - intros [= <- <-]. eauto.
Qed.

(** A retraining that returns has trained a run on the version and,
    when there is an incumbent, printed the decision on its delta. *)
Lemma retrain_ok_inv best v w w' :
  retrain_body best v w = (w', Ok tt) ->
  exists run out_t tail,
    extends w w' [run] (MsgRetraining v :: out_t ++ tail)
    /\ Forall train_msg out_t
    /\ run_id run = List.length (registry w)
    /\ trained_run (params w) v run
    /\ match best with
       | None => tail = []
       | Some b =>
           exists delta,
             rmse_delta run b = Ok delta
             /\ tail = [MsgDelta delta (Qltb delta 0);
                        MsgDecision (promotion_decision delta)]
       end.
Proof.
  rewrite retrain_unfold.
  destruct (train v None None (printed (MsgRetraining v) w))
    as [w1 [id|e]] eqn:Et; [|discriminate].
  destruct (train_model_cases _ _ _ _ _ _ _ Et)
    as (runs & out & Hext & Hmsg & Hruns & run & -> & Hid & Htr).
  pose proof (extends_trans (extends_printed (MsgRetraining v) w) Hext)
    as Hext1. cbn [app] in Hext1.
  assert (Hfind : find_run id (registry w1) = Some run).
  { rewrite (extends_registry Hext). unfold find_run. simpl.
    now rewrite Hid, Nat.eqb_refl. }
  assert (Hlen : run_id run = List.length (registry w)).
  { destruct Hruns as [Hnil|(run' & [= <-] & Hid')]; [discriminate|].
    exact Hid'. }
  destruct best as [b|].
  - rewrite Hfind. destruct (rmse_delta run b) as [delta|e] eqn:Ed;
      [|discriminate].
    intros [= <-].
    exists run, out, [MsgDelta delta (Qltb delta 0);
                      MsgDecision (promotion_decision delta)].
    split; [|split; [exact Hmsg|]; split; [exact Hlen|];
               split; [exact Htr|]; exists delta; split; [exact Ed|reflexivity]].
    unfold extends in *. rewrite Hext1. unfold printed, print. simpl.
    rewrite <- !app_assoc. reflexivity.
  - intros [= <-]. exists run, out, [].
    split; [|split; [exact Hmsg|]; split; [exact Hlen|];
               split; [exact Htr|reflexivity]].
    now rewrite app_nil_r.
Qed.

End Retrain.

Lemma search_best_pass_spec (rs : list Run) (b : Run) :
  search_best_pass rs = Some b ->
  In b rs /\ tag_kpi_status b = Some PASS
  /\ exists m, run_test_metrics b = Some m.
Proof.
  revert b. induction rs as [|r rs IH]; intros b; simpl; [discriminate|].
  destruct (tag_kpi_status r) as [[|]|] eqn:Et;
    try (intros H; destruct (IH _ H) as (? & ? & ?); now auto).
  destruct (run_test_metrics r) as [m|] eqn:Em;
    [|intros H; destruct (IH _ H) as (? & ? & ?); now auto].
  destruct (search_best_pass rs) as [b'|] eqn:Eb.
  - destruct (IH _ eq_refl) as (Hin & Hp & mb & Hmb). rewrite Hmb.
    destruct (Qle_bool (rmse m) (rmse mb)); intros [= <-]; eauto.
  - intros [= <-]. eauto.
Qed.

Section RetrainChain.

Variable fit_score :
  string -> HyperParams -> list Row -> list Row -> result Metrics.
Variables np_mean np_std : list Q -> Q.

Local Abbreviation retrain_body :=
  (retrain fit_score np_mean np_std)
  (only parsing).

Lemma retrain_chain best vs w w' :
  runs_ok (retrain_body best) vs w w' ->
  exists runs out,
    extends w w' runs out
    /\ Forall2 (trained_run (params w)) vs (rev runs)
    /\ retrained_versions out = vs
    /\ decided best (rev runs) (decisions out).
Proof.
  induction 1 as [w|v vs w1 w2 w3 Hv _ IH].
  - exists [], []. split; [apply extends_refl|].
    split; [constructor|]. split; [reflexivity|].
    destruct best; constructor.
  - destruct IH as (runs & out & Hext & Htr & Hvs & Hdec).
    apply retrain_ok_inv in Hv.
    destruct Hv as (run & out_t & tail & Hext1 & Hmsg & _ & Hrun & Htail).
    rewrite (extends_params Hext1) in Htr.
    destruct (train_msg_silent Hmsg) as [Hs1 Hs2].
    exists (runs ++ [run])%list, ((MsgRetraining v :: out_t ++ tail) ++ out)%list.
    split; [exact (extends_trans Hext1 Hext)|].
    rewrite rev_app_distr. cbn [rev app].
    split; [constructor; assumption|].
    split.
    + change (retrained_versions (MsgRetraining v :: (out_t ++ tail) ++ out))
        with (v :: retrained_versions ((out_t ++ tail) ++ out)).
      rewrite !retrained_versions_app, Hs1, Hvs.
      destruct best as [b|].
      * destruct Htail as (delta & _ & ->). reflexivity.
      * subst tail. reflexivity.
    + change (decisions (MsgRetraining v :: (out_t ++ tail) ++ out))
        with (decisions ((out_t ++ tail) ++ out)).
      rewrite !decisions_app, Hs2.
      destruct best as [b|]; cbn [decided] in *.
      * destruct Htail as (delta & Hd & ->). cbn.
        constructor; [eauto | exact Hdec].
      * subst tail. exact Hdec.
Qed.

End RetrainChain.

(** ** The update cycle *)

Section Pipeline.

Variable fit_score :
  string -> HyperParams -> list Row -> list Row -> result Metrics.
Variables np_mean np_std : list Q -> Q.
Variable md5_hexdigest : list byte -> string.

Local Abbreviation pipeline :=
  (update_pipeline fit_score np_mean np_std md5_hexdigest)
  (only parsing).
Local Abbreviation retrain_body :=
  (retrain fit_score np_mean np_std)
  (only parsing).

Lemma update_pipeline_unfold w :
  pipeline w =
  match new_files_of md5_hexdigest w, modified_files_of md5_hexdigest w with
  | [], [] => (printed MsgUpToDate w, Ok tt)
  | _, _ =>
      match versions_to_train md5_hexdigest w with
      | [] =>
          (printed MsgNoVersion
             (printed (MsgChanged (new_files_of md5_hexdigest w)
                                  (modified_files_of md5_hexdigest w)) w),
           Ok tt)
      | _ :: _ =>
          match for_each (versions_to_train md5_hexdigest w)
                  (retrain_body (incumbent w))
                  (before_training md5_hexdigest w) with
          | (w3, Ok _) => (committed md5_hexdigest w w3, Ok tt)
          | (w3, Raise e) => (w3, Raise e)
          end
      end
  end.
Proof.
  unfold update_pipeline, versions_to_train,
    before_training, incumbent, new_files_of, modified_files_of,
    current_state_of, last_state_of, committed.
  unfold bind at 1. unfold load_params.
  unfold bind at 1. unfold detect_new_data, get_data_state, load_last_state,
    bind, ret. cbn [fst snd].
  destruct (detect_loop _ _) as [new_files modified_files].
  cbn [fst snd].
  destruct new_files as [|f nf], modified_files as [|g mf];
    try reflexivity;
    (destruct (versions_of _) as [|v vs]; [reflexivity|];
     unfold get_current_best_model; cbn [printed print fst registry];
     destruct (search_best_pass (registry w)) as [best|] eqn:Eb;
     [ destruct (search_best_pass_spec _ Eb) as (_ & _ & m & Hm);
       unfold lift, metric_test_rmse; rewrite Hm; cbn [print] | ];
     destruct (for_each _ _ _) as [w3 [[]|e]]; reflexivity).
Qed.

End Pipeline.

Section PipelineCases.

Variable fit_score :
  string -> HyperParams -> list Row -> list Row -> result Metrics.
Variables np_mean np_std : list Q -> Q.
Variable md5_hexdigest : list byte -> string.

Local Abbreviation pipeline :=
  (update_pipeline fit_score np_mean np_std md5_hexdigest)
  (only parsing).
Local Abbreviation retrain_body :=
  (retrain fit_score np_mean np_std)
  (only parsing).
Local Abbreviation versions :=
  (versions_to_train md5_hexdigest)
  (only parsing).
Local Abbreviation start := (before_training md5_hexdigest) (only parsing).

Lemma versions_need_changes w :
  versions w <> [] ->
  (new_files_of md5_hexdigest w ++ modified_files_of md5_hexdigest w)%list
  <> [].
Proof.
  unfold versions_to_train. intros H E. rewrite E in H. now apply H.
Qed.

(** The four ways a cycle ends. *)
Lemma update_pipeline_cases w w' r :
  pipeline w = (w', r) ->
  (new_files_of md5_hexdigest w = [] /\ modified_files_of md5_hexdigest w = []
   /\ w' = printed MsgUpToDate w /\ r = Ok tt)
  \/ ((new_files_of md5_hexdigest w ++ modified_files_of md5_hexdigest w)%list
      <> []
      /\ versions w = []
      /\ w' = printed MsgNoVersion
                (printed (MsgChanged (new_files_of md5_hexdigest w)
                                     (modified_files_of md5_hexdigest w)) w)
      /\ r = Ok tt)
  \/ (versions w <> [] /\ r = Ok tt
      /\ exists w3,
           runs_ok (retrain_body (incumbent w)) (versions w) (start w) w3
           /\ w' = committed md5_hexdigest w w3)
  \/ (versions w <> []
      /\ exists e l1 v l2 w1,
           r = Raise e /\ versions w = (l1 ++ v :: l2)%list
           /\ runs_ok (retrain_body (incumbent w)) l1 (start w) w1
           /\ retrain_body (incumbent w) v w1 = (w', Raise e)).
Proof.
  rewrite update_pipeline_unfold.
  destruct (versions w) as [|v0 vs] eqn:Ev.
  - destruct (new_files_of md5_hexdigest w) as [|f nf] eqn:En;
      destruct (modified_files_of md5_hexdigest w) as [|g mf] eqn:Em;
      intros [= <- <-];
      [ left; auto | right; left .. ];
      (split; [discriminate | auto]).
  - assert (Hch : (new_files_of md5_hexdigest w
                   ++ modified_files_of md5_hexdigest w)%list <> []).
    { apply versions_need_changes. rewrite Ev. discriminate. }
    assert (Hgo :
      match for_each (v0 :: vs) (retrain fit_score np_mean np_std
                                   (incumbent w)) (start w) with
      | (w3, Ok _) => (committed md5_hexdigest w w3, Ok tt)
      | (w3, Raise e) => (w3, Raise e)
      end = (w', r) ->
      (v0 :: vs <> [] /\ r = Ok tt
       /\ exists w3,
            runs_ok (retrain_body (incumbent w)) (v0 :: vs) (start w) w3
            /\ w' = committed md5_hexdigest w w3)
      \/ (v0 :: vs <> []
          /\ exists e l1 v l2 w1,
               r = Raise e /\ v0 :: vs = (l1 ++ v :: l2)%list
               /\ runs_ok (retrain_body (incumbent w)) l1 (start w) w1
               /\ retrain_body (incumbent w) v w1 = (w', Raise e))).
    { destruct (for_each (v0 :: vs) _ (start w)) as [w3 [[]|e]] eqn:Ef;
        intros [= <- <-].
      + left. split; [discriminate|]. split; [reflexivity|].
        exists w3. split; [|reflexivity]. now apply for_each_ok.
      + right. split; [discriminate|].
        apply for_each_raise in Ef.
        destruct Ef as (l1 & a & l2 & w1 & El & Hok & Ha).
        exists e, l1, a, l2, w1. auto. }
    destruct (new_files_of md5_hexdigest w) as [|f nf];
      destruct (modified_files_of md5_hexdigest w) as [|g mf];
      [ now elim Hch | .. ]; intros H; right; right; exact (Hgo H).
Qed.

(** With a version to train, the cycle is the loop and then the commit. *)
Lemma update_pipeline_train w :
  versions w <> [] ->
  pipeline w =
  match for_each (versions w) (retrain_body (incumbent w)) (start w) with
  | (w3, Ok _) => (committed md5_hexdigest w w3, Ok tt)
  | (w3, Raise e) => (w3, Raise e)
  end.
Proof.
  intros Hv. pose proof (versions_need_changes w Hv) as Hch.
  rewrite update_pipeline_unfold.
  destruct (versions w) as [|v0 vs] eqn:Ev; [now elim Hv|].
  destruct (new_files_of md5_hexdigest w) as [|f nf];
    destruct (modified_files_of md5_hexdigest w) as [|g mf];
    [ now elim Hch | .. ]; reflexivity.
Qed.

Lemma before_training_extends w :
  exists out,
    extends w (start w) [] out
    /\ retrained_versions out = [] /\ decisions out = [].
Proof.
  unfold before_training.
  destruct (incumbent w) as [best|];
    [destruct (run_test_metrics best)|]; eexists;
    (split;
     [ first [ apply extends_printed
             | exact (extends_trans (extends_printed _ w)
                        (extends_printed _ _)) ]
     | split; reflexivity ]).
Qed.

(** The files of the cycle never change; runs and lines are added; the
    state file is written in the completed cycle only. *)
Lemma update_pipeline_summary w w' r :
  pipeline w = (w', r) ->
  exists runs out,
    registry w' = (runs ++ registry w)%list
    /\ stdout w' = (stdout w ++ out)%list
    /\ params w' = params w
    /\ ((r = Ok tt /\ versions w <> []
         /\ state_file w' = Some (current_state_of md5_hexdigest w)
         /\ Forall2 (trained_run (params w)) (versions w) (rev runs)
         /\ retrained_versions out = versions w
         /\ decided (incumbent w) (rev runs) (decisions out))
        \/ (r = Ok tt /\ versions w = [] /\ state_file w' = state_file w
            /\ runs = [] /\ retrained_versions out = [])
        \/ (exists e l1 v l2,
              r = Raise e /\ versions w = (l1 ++ v :: l2)%list
              /\ state_file w' = state_file w
              /\ retrained_versions out = (l1 ++ [v])%list
              /\ (List.length runs <= List.length l1 + 1)%nat)).
Proof.
  intros H. destruct (update_pipeline_cases _ H)
    as [(Hn & Hm & -> & ->)
       |[(Hch & Hv & -> & ->)
        |[(Hv & -> & w3 & Hok & ->)
         |(Hv & e & l1 & v & l2 & w1 & -> & El & Hok & Hv1)]]].
  - exists [], [MsgUpToDate]. repeat split. right. left.
    repeat split. unfold versions_to_train. now rewrite Hn, Hm.
  - eexists [], [_; _]. split; [reflexivity|]. split.
    + unfold printed, print. simpl. now rewrite <- app_assoc.
    + split; [reflexivity|]. right. left. auto.
  - destruct (before_training_extends w) as (out0 & Hext0 & Hr0 & Hd0).
    destruct (retrain_chain Hok) as (runs & out & Hext & Htr & Hrv & Hdec).
    pose proof (extends_trans Hext0 Hext) as Hfull.
    rewrite app_nil_r in Hfull.
    exists runs, ((out0 ++ out) ++ [MsgStateSaved])%list.
    rewrite (extends_params Hext0) in Htr.
    unfold committed, printed, print, save_state. cbn [fst registry stdout
      params state_file].
    rewrite (extends_registry Hfull), (extends_stdout Hfull),
      (extends_params Hfull).
    split; [reflexivity|]. split; [symmetry; apply app_assoc|].
    split; [reflexivity|]. left.
    split; [reflexivity|]. split; [exact Hv|]. split; [reflexivity|].
    split; [exact Htr|].
    rewrite !retrained_versions_app, !decisions_app, Hr0, Hd0, Hrv.
    cbn [app]. rewrite !app_nil_r. split; [reflexivity | exact Hdec].
  - destruct (before_training_extends w) as (out0 & Hext0 & Hr0 & Hd0).
    destruct (retrain_chain Hok) as (runs & out & Hext & Htr & Hrv & Hdec).
    destruct (retrain_extends _ _ _ _ _ _ Hv1)
      as (runs1 & out1 & Hext1 & Hrv1 & Hlen1).
    pose proof (extends_trans (extends_trans Hext0 Hext) Hext1) as Hfull.
    rewrite app_nil_r in Hfull.
    exists (runs1 ++ runs)%list, ((out0 ++ out) ++ out1)%list.
    split; [exact (extends_registry Hfull)|].
    split; [exact (extends_stdout Hfull)|].
    split; [exact (extends_params Hfull)|].
    right. right. exists e, l1, v, l2.
    split; [reflexivity|]. split; [exact El|].
    split; [exact (extends_state_file Hfull)|]. split.
    + rewrite !retrained_versions_app, Hr0, Hrv, Hrv1. reflexivity.
    + rewrite length_app.
      pose proof (Forall2_length Htr) as Hl. rewrite length_rev in Hl. lia.
Qed.

End PipelineCases.

(** ** Promotion *)

Lemma promotion_decision_promote (delta : Q) :
  promotion_decision delta = PROMOTE <-> (delta < 0)%Q.
Proof.
  unfold promotion_decision. rewrite <- Qltb_lt.
  destruct (Qltb delta 0); split; congruence.
Qed.

Lemma promotion_decision_hold (delta : Q) :
  promotion_decision delta = HOLD <-> (0 <= delta)%Q.
Proof.
  unfold promotion_decision. rewrite <- Qltb_ge.
  destruct (Qltb delta 0); split; congruence.
Qed.

(** C1 (amended).  When the retraining of a version returns and there is
    an incumbent, one decision is printed for the new run, on
    [delta = new test RMSE - incumbent test RMSE]: it is HOLD whenever
    [delta >= 0], whatever the KPI status of the new run, and for a new run
    with status PASS it is PROMOTE exactly when [delta < 0]. *)
Theorem promotion_needs_strict_improvement :
  forall (fit_score : string -> HyperParams -> list Row -> list Row
                      -> result Metrics)
         (np_mean np_std : list Q -> Q)
         (incumbent_run : Run) (version : string) (w w' : World),
    retrain fit_score np_mean np_std (Some incumbent_run) version w
      = (w', Ok tt) ->
    exists (candidate : Run) (mc mi : Metrics) (d : Decision) (out : list Msg),
      registry w' = candidate :: registry w
      /\ trained_run (params w) version candidate
      /\ run_test_metrics candidate = Some mc
      /\ run_test_metrics incumbent_run = Some mi
      /\ stdout w' = (stdout w ++ out)%list
      /\ decisions out = [d]
      /\ ((0 <= rmse mc - rmse mi)%Q -> d = HOLD)
      /\ (tag_kpi_status candidate = Some PASS ->
          (d = PROMOTE <-> (rmse mc - rmse mi < 0)%Q)).
Proof.
  intros fit_score np_mean np_std inc v w w' H.
  apply retrain_ok_inv in H.
  destruct H as (run & out_t & tail & Hext & Hmsg & _ & Htr & delta & Hd & ->).
  unfold rmse_delta, metric_test_rmse in Hd.
  destruct (run_test_metrics run) as [mc|] eqn:Emc; [|discriminate].
  destruct (run_test_metrics inc) as [mi|] eqn:Emi; [|discriminate].
  injection Hd as <-.
  destruct (train_msg_silent Hmsg) as [_ Hs].
  exists run, mc, mi, (promotion_decision (rmse mc - rmse mi)).
  eexists.
  split; [exact (extends_registry Hext)|].
  split; [exact Htr|]. split; [exact Emc|]. split; [reflexivity|].
  split; [exact (extends_stdout Hext)|].
  split.
  - change (decisions (MsgRetraining v :: out_t ++ _))
      with (decisions (out_t ++ [MsgDelta (rmse mc - rmse mi)
                                   (Qltb (rmse mc - rmse mi) 0);
                                 MsgDecision
                                   (promotion_decision (rmse mc - rmse mi))])).
    rewrite decisions_app, Hs. reflexivity.
  - split.
    + apply promotion_decision_hold.
    + intros _. apply promotion_decision_promote.
Qed.

Lemma promotion_needs_strict_improvement_witness :
  exists (candidate : Run) (d : Decision) (out : list Msg),
    registry (fst (toy_retrain (Some (Examples.past_run 0 (5 # 2) PASS))
                     "v1" Examples.world_two))
    = candidate :: registry Examples.world_two
    /\ tag_kpi_status candidate = Some PASS
    /\ decisions out = [d] /\ d = PROMOTE.
Proof.
  destruct (@promotion_needs_strict_improvement
              Examples.toy_fit_score Examples.toy_mean Examples.toy_std
              (Examples.past_run 0 (5 # 2) PASS) "v1" Examples.world_two
              (fst (toy_retrain (Some (Examples.past_run 0 (5 # 2) PASS))
                      "v1" Examples.world_two)))
    as (cand & mc & mi & d & out & Hreg & Htr & Hmc & Hmi & Hout & Hd & _ & Hp).
  { vm_compute. reflexivity. }
  exists cand, d, out.
  assert (Hc : cand = hd cand (registry (fst (toy_retrain
                 (Some (Examples.past_run 0 (5 # 2) PASS))
                 "v1" Examples.world_two)))) by (rewrite Hreg; reflexivity).
  assert (Hstatus : tag_kpi_status cand = Some PASS).
  { rewrite Hc. vm_compute. reflexivity. }
  split; [exact Hreg|]. split; [exact Hstatus|]. split; [exact Hd|].
  apply (Hp Hstatus).
  assert (Emc : mc = mkMetrics 2 100 (9 # 10)).
  { rewrite Hc in Hmc. vm_compute in Hmc. now injection Hmc. }
  assert (Emi : mi = mkMetrics (5 # 2) 100 (9 # 10)).
  { vm_compute in Hmi. now injection Hmi. }
  subst mc mi. reflexivity.
Defined.

(** C1, as stated, fails on a tie: the incumbent has test RMSE 2 and
    status PASS, the new run scores RMSE 2 and passes the KPI check, so
    [delta = 0 <= 0], and the decision printed is HOLD. *)
Lemma tie_is_not_promoted :
  incumbent Examples.world_tie = Some (Examples.past_run 0 2 PASS)
  /\ (exists candidate,
        registry (fst (toy_update Examples.world_tie))
        = [candidate; Examples.past_run 0 2 PASS]
        /\ tag_kpi_status candidate = Some PASS
        /\ rmse_delta candidate (Examples.past_run 0 2 PASS) = Ok 0%Q)
  /\ (0 <= 0)%Q
  /\ decisions (stdout (fst (toy_update Examples.world_tie))) = [HOLD]
  /\ stdout (fst (toy_update Examples.world_tie))
     = [MsgChanged ["gold_v1.csv"] []; MsgCurrentBest 0 2;
        MsgRetraining "v1"; MsgDataVersion "v1" 8 2; MsgKpi PASS;
        MsgDelta 0 false; MsgDecision HOLD; MsgStateSaved]
  /\ snd (toy_update Examples.world_tie) = Ok tt.
Proof.
  split; [vm_compute; reflexivity|].
  split; [eexists; vm_compute; repeat split|].
  split; [apply Qle_refl|].
  vm_compute. repeat split.
Qed.

(** The candidate's KPI status is not read by the comparison: a new run
    that fails the KPI check and beats the incumbent is announced as
    promoted. *)
Lemma failed_candidate_promoted :
  stdout (fst (toy_update Examples.world_fail_better))
  = [MsgChanged ["gold_v1.csv"] []; MsgCurrentBest 0 (5 # 2);
     MsgRetraining "v1"; MsgDataVersion "v1" 8 2; MsgKpi FAIL;
     MsgDelta (-1 # 2) true; MsgDecision PROMOTE; MsgStateSaved].
Proof. vm_compute. reflexivity. Qed.

(** ** Version resolution *)








(** ** State commit *)

(** C4 (amended).  The state file is written only by a cycle in which
    every resolved version was retrained without an exception: each has
    its run with the model, the test metrics and the KPI status, and, when
    there was an incumbent at the start of the cycle, its decision against
    the incumbent is printed; without an incumbent no decision is made.
    A cycle that ends in an exception leaves the state file as it was, and
    so does any failure of a version after others succeeded. *)
Theorem state_saved_only_after_all_versions :
  forall (fit_score : string -> HyperParams -> list Row -> list Row
                      -> result Metrics)
         (np_mean np_std : list Q -> Q) (md5_hexdigest : list byte -> string)
         (w w' : World) (r : result unit),
    update_pipeline fit_score np_mean np_std md5_hexdigest w = (w', r) ->
    let versions := versions_to_train md5_hexdigest w in
    (forall e, r = Raise e -> state_file w' = state_file w)
    /\ (state_file w' <> state_file w ->
        r = Ok tt
        /\ state_file w' = Some (current_state_of md5_hexdigest w)
        /\ exists runs out,
             registry w' = (runs ++ registry w)%list
             /\ stdout w' = (stdout w ++ out)%list
             /\ Forall2 (trained_run (params w)) versions (rev runs)
             /\ retrained_versions out = versions
             /\ decided (incumbent w) (rev runs) (decisions out))
    /\ (forall l1 v l2 w1 w2 e,
          versions = (l1 ++ v :: l2)%list ->
          runs_ok (retrain fit_score np_mean np_std (incumbent w)) l1
                  (before_training md5_hexdigest w) w1 ->
          retrain fit_score np_mean np_std (incumbent w) v w1
            = (w2, Raise e) ->
          w' = w2 /\ r = Raise e /\ state_file w' = state_file w)
    /\ (versions <> [] -> r = Ok tt ->
        state_file w' = Some (current_state_of md5_hexdigest w)).
Proof.
  intros fit_score np_mean np_std md5_hexdigest w w' r H versions.
  destruct (update_pipeline_summary _ _ _ _ _ H)
    as (runs & out & Hreg & Hout & _ & Hcases).
  fold versions in Hcases.
  assert (Hraise : forall e, r = Raise e -> state_file w' = state_file w).
  { intros e ->.
    destruct Hcases as [(Hr & _)|[(Hr & _)|(e' & l1 & v & l2 & _ & _ & Hs & _)]];
      [discriminate | discriminate | exact Hs]. }
  split; [exact Hraise|]. split; [|split].
  - intros Hneq.
    destruct Hcases as [(Hr & Hv & Hs & Htr & Hrv & Hdec)
                       |[(_ & _ & Hs & _)
                        |(e' & l1 & v & l2 & _ & _ & Hs & _)]];
      [|now elim Hneq|now elim Hneq].
    split; [exact Hr|]. split; [exact Hs|].
    exists runs, out. auto.
  - intros l1 v l2 w1 w2 e El Hok Hv.
    assert (Hne : versions <> []) by (rewrite El; now destruct l1).
    pose proof (update_pipeline_train fit_score np_mean np_std md5_hexdigest
                  w Hne) as Hrun.
    fold versions in Hrun.
    assert (Hfe : for_each versions
                    (retrain fit_score np_mean np_std (incumbent w))
                    (before_training md5_hexdigest w) = (w2, Raise e)).
    { apply for_each_raise. exists l1, v, l2, w1. auto. }
    rewrite Hfe, H in Hrun. injection Hrun as -> ->.
    repeat split. now apply (Hraise e).
  - intros Hne ->.
    destruct Hcases as [(_ & _ & Hs & _)
                       |[(_ & Hnil & _)
                        |(e' & l1 & v & l2 & Hr & _)]];
      [exact Hs | now elim Hne | discriminate].
Qed.

Lemma state_saved_only_after_all_versions_witness :
  snd (toy_update Examples.world_two) = Ok tt
  /\ state_file (fst (toy_update Examples.world_two))
     = Some (current_state_of Examples.toy_md5 Examples.world_two)
  /\ exists runs out,
       registry (fst (toy_update Examples.world_two))
       = (runs ++ registry Examples.world_two)%list
       /\ stdout (fst (toy_update Examples.world_two))
          = (stdout Examples.world_two ++ out)%list
       /\ Forall2 (trained_run (params Examples.world_two)) ["v1"; "v2"]
            (rev runs)
       /\ retrained_versions out = ["v1"; "v2"]
       /\ decided (incumbent Examples.world_two) (rev runs) (decisions out).
Proof.
  destruct (@state_saved_only_after_all_versions
              Examples.toy_fit_score Examples.toy_mean Examples.toy_std
              Examples.toy_md5 Examples.world_two _ _
              (surjective_pairing (toy_update Examples.world_two)))
    as (_ & Hsaved & _).
  apply Hsaved. vm_compute. discriminate.
Defined.

(** C4, as stated, fails.  In a first cycle there is no incumbent: the
    new version is retrained, no promotion decision is made or printed,
    and the state is saved all the same. *)
Lemma state_committed_without_decision :
  incumbent Examples.world_notes = None
  /\ state_file Examples.world_notes = None
  /\ snd (toy_update Examples.world_notes) = Ok tt
  /\ retrained_versions (stdout (fst (toy_update Examples.world_notes)))
     = ["v1"]
  /\ decisions (stdout (fst (toy_update Examples.world_notes))) = []
  /\ state_file (fst (toy_update Examples.world_notes))
     = Some (current_state_of Examples.toy_md5 Examples.world_notes).
Proof. vm_compute. repeat split. Qed.

(** ** Missing dataset *)

(** C7 (amended).  A dataset file that is missing when its version is
    retrained ends the whole cycle with exit status 1, right after the
    error line: the versions that come after it are not retrained, the
    versions before it keep their runs, and the state file is not
    written. *)
Theorem missing_dataset_ends_cycle :
  forall (fit_score : string -> HyperParams -> list Row -> list Row
                      -> result Metrics)
         (np_mean np_std : list Q -> Q) (md5_hexdigest : list byte -> string)
         (w w1 : World) (l1 l2 : list string) (v data_path : string),
    versions_to_train md5_hexdigest w = (l1 ++ v :: l2)%list ->
    runs_ok (retrain fit_score np_mean np_std (incumbent w)) l1
            (before_training md5_hexdigest w) w1 ->
    dict_get (p_data (params w)) (String.append "gold_" v) = Some data_path ->
    dict_get (csv_files w) data_path = None ->
    let w' := printed (MsgNotFound data_path) (printed (MsgRetraining v) w1) in
    update_pipeline fit_score np_mean np_std md5_hexdigest w
      = (w', Raise (SystemExit 1))
    /\ state_file w' = state_file w
    /\ exists runs out,
         registry w' = (runs ++ registry w)%list
         /\ Forall2 (trained_run (params w)) l1 (rev runs)
         /\ stdout w' = (stdout w ++ out)%list
         /\ retrained_versions out = (l1 ++ [v])%list.
Proof.
  intros fit_score np_mean np_std md5_hexdigest w w1 l1 l2 v data_path
         El Hok Hp Hc w'.
  destruct (before_training_extends md5_hexdigest w)
    as (out0 & Hext0 & Hr0 & _).
  destruct (retrain_chain Hok) as (runs & out & Hext & Htr & Hrv & _).
  pose proof (extends_trans Hext0 Hext) as Hfull.
  rewrite app_nil_r in Hfull.
  rewrite (extends_params Hext0) in Htr.
  assert (Hv : retrain fit_score np_mean np_std (incumbent w) v w1
               = (w', Raise (SystemExit 1))).
  { rewrite retrain_unfold.
    rewrite (train_model_missing fit_score np_mean np_std v None None
               (printed (MsgRetraining v) w1) (data_path := data_path)).
    - reflexivity.
    - cbn. now rewrite (extends_params Hfull).
    - cbn. now rewrite (extends_csv_files Hfull). }
  assert (Hne : versions_to_train md5_hexdigest w <> [])
    by (rewrite El; now destruct l1).
  split.
  - rewrite (update_pipeline_train fit_score np_mean np_std md5_hexdigest
               w Hne).
    assert (Hfe : for_each (versions_to_train md5_hexdigest w)
                    (retrain fit_score np_mean np_std (incumbent w))
                    (before_training md5_hexdigest w)
                  = (w', Raise (SystemExit 1))).
    { apply for_each_raise. exists l1, v, l2, w1. auto. }
    now rewrite Hfe.
  - split; [exact (extends_state_file Hfull)|].
    exists runs, ((out0 ++ out) ++ [MsgRetraining v; MsgNotFound data_path])%list.
    split; [exact (extends_registry Hfull)|]. split; [exact Htr|]. split.
    + unfold w', printed, print. cbn [fst stdout].
      rewrite (extends_stdout Hfull), <- !app_assoc. reflexivity.
    + rewrite !retrained_versions_app, Hr0, Hrv. reflexivity.
Qed.

Lemma missing_dataset_ends_cycle_witness :
  toy_update Examples.world_missing_v1
  = (printed (MsgNotFound "data/gold/gold_v1.csv")
       (printed (MsgRetraining "v1")
          (before_training Examples.toy_md5 Examples.world_missing_v1)),
     Raise (SystemExit 1)).
Proof.
  refine (proj1 (@missing_dataset_ends_cycle
                   Examples.toy_fit_score Examples.toy_mean Examples.toy_std
                   Examples.toy_md5 Examples.world_missing_v1
                   (before_training Examples.toy_md5 Examples.world_missing_v1)
                   [] ["v2"] "v1" "data/gold/gold_v1.csv" _ _ _ _)).
  - vm_compute. reflexivity.
  - constructor.
  - reflexivity.
  - reflexivity.
Defined.

(** C7, as stated, fails.  Both [gold_v1.csv] and [gold_v2.csv] are new
    and the dataset of v1 is missing while that of v2 is there: the cycle
    exits with status 1 at v1, v2 is never retrained, no run is recorded
    and no state is saved. *)
Lemma missing_dataset_stops_other_versions :
  versions_to_train Examples.toy_md5 Examples.world_missing_v1 = ["v1"; "v2"]
  /\ dict_mem (csv_files Examples.world_missing_v1) "data/gold/gold_v2.csv"
     = true
  /\ snd (toy_update Examples.world_missing_v1) = Raise (SystemExit 1)
  /\ stdout (fst (toy_update Examples.world_missing_v1))
     = [MsgChanged ["gold_v1.csv"; "gold_v2.csv"] []; MsgRetraining "v1";
        MsgNotFound "data/gold/gold_v1.csv"]
  /\ registry (fst (toy_update Examples.world_missing_v1)) = []
  /\ state_file (fst (toy_update Examples.world_missing_v1)) = None.
Proof. vm_compute. repeat split. Qed.

(** ** Cross-validation on small datasets *)

(** C9 (amended).  Cross-validation asks for [n_splits + 1] folds and
    raises [ValueError] on fewer rows; it is neither skipped nor run with
    fewer folds.  [train_model] always asks for 5 splits and does not
    catch the exception: with a train partition of fewer than 6 rows the
    call never returns a run, the exception leaves it, and the run it may
    have started has neither model artifact nor KPI status. *)
Theorem few_rows_abort_training :
  forall (fit_score : string -> HyperParams -> list Row -> list Row
                      -> result Metrics)
         (np_mean np_std : list Q -> Q)
         (version : string) (model_type : option string)
         (custom_params : option HyperParams) (w : World)
         (data_path : string) (csv_rows train test : list Row),
    dict_get (p_data (params w)) (String.append "gold_" version)
      = Some data_path ->
    dict_get (csv_files w) data_path = Some csv_rows ->
    temporal_train_test_split (load_gold_data csv_rows)
      (p_test_size (params w)) = Ok (train, test) ->
    (List.length train < 6)%nat ->
    (forall mtype hp,
       cross_validate_timeseries fit_score np_mean np_std mtype hp train 5
       = Raise ValueError)
    /\ exists w' e runs out,
         train_model fit_score np_mean np_std version model_type
           custom_params w = (w', Raise e)
         /\ extends w w' runs out
         /\ Forall (fun run => model_logged run = false
                               /\ tag_kpi_status run = None) runs.
Proof.
  intros fit_score np_mean np_std version model_type custom_params w
         data_path csv_rows train test Hp Hc Hs Hlen.
  split.
  - intros mtype hp. apply cross_validate_too_few. lia.
  - destruct (train_model fit_score np_mean np_std version model_type
                custom_params w) as [w' [id|e]] eqn:Et.
    + exfalso.
      destruct (train_model_ok_data _ _ _ _ _ _ _ Et)
        as (data_path' & csv' & train' & test' & mtype & hp & cv
            & Hp' & Hc' & Hs' & _ & _ & Hcv).
      rewrite Hp in Hp'. injection Hp' as <-.
      rewrite Hc in Hc'. injection Hc' as <-.
      rewrite Hs in Hs'. injection Hs' as <- <-.
      apply cross_validate_ok_rows in Hcv. lia.
    + destruct (train_model_cases _ _ _ _ _ _ _ Et)
        as (runs & out & Hext & _ & _ & Hruns).
      exists w', e, runs, out. auto.
Qed.

Lemma few_rows_abort_training_witness :
  exists w' e runs out,
    toy_train "v1" None None Examples.world_small = (w', Raise e)
    /\ extends Examples.world_small w' runs out
    /\ Forall (fun run => model_logged run = false
                          /\ tag_kpi_status run = None) runs.
Proof.
  refine (proj2 (@few_rows_abort_training
                   Examples.toy_fit_score Examples.toy_mean Examples.toy_std
                   "v1" None None Examples.world_small
                   "data/gold/gold_v1.csv" (Examples.days 6)
                   (firstn 4 (load_gold_data (Examples.days 6)))
                   (skipn 4 (load_gold_data (Examples.days 6)))
                   _ _ _ _)).
  - reflexivity.
  - reflexivity.
  - vm_compute. reflexivity.
  - vm_compute. lia.
Defined.

(** C9, as stated, fails.  Six rows with test fraction 0.2 leave four
    train rows: the model is fitted and scored, then cross-validation
    raises [ValueError] and [train_model] ends with it. *)
Lemma small_dataset_crashes_training :
  snd (toy_train "v1" None None Examples.world_small) = Raise ValueError
  /\ stdout (fst (toy_train "v1" None None Examples.world_small))
     = [MsgDataVersion "v1" 4 2]
  /\ map (fun r => (run_test_metrics r, model_logged r, tag_kpi_status r))
         (registry (fst (toy_train "v1" None None Examples.world_small)))
     = [(Some (mkMetrics 2 100 (9 # 10)), false, None)]
  /\ snd (toy_update Examples.world_small) = Raise ValueError
  /\ state_file (fst (toy_update Examples.world_small)) = None.
Proof. vm_compute. repeat split. Qed.

(** ** Change detection *)

Lemma detect_loop_new (items : list (string * FileInfo)) (last : DataState)
    (f : string) :
  In f (fst (detect_loop items last)) <->
  In f (map fst items) /\ dict_get last f = None.
Proof.
  induction items as [|[g info] items IH]; cbn [detect_loop map fst In].
  - tauto.
  - destruct (detect_loop items last) as [new_files modified_files].
    cbn [fst] in IH.
    destruct (dict_get last g) as [li|] eqn:Eg.
    + assert (Hrest : In f (fst (if negb (String.eqb (md5 li) (md5 info))
                                 then (new_files, g :: modified_files)
                                 else (new_files, modified_files)))
                      <-> In f new_files)
        by (destruct (negb _); reflexivity).
      rewrite Hrest, IH. split.
      * intros [H1 H2]. auto.
      * intros [[<-|H1] H2]; [congruence | auto].
    + cbn [fst In]. rewrite IH. split.
      * intros [<-|[H1 H2]]; auto.
      * intros [[<-|H1] H2]; auto.
Qed.

Lemma detect_loop_modified (items : list (string * FileInfo))
    (last : DataState) (f : string) :
  In f (snd (detect_loop items last)) <->
  exists info li,
    In (f, info) items /\ dict_get last f = Some li /\ md5 li <> md5 info.
Proof.
  induction items as [|[g info] items IH]; cbn [detect_loop In].
  - split; [intros [] | intros (? & ? & [] & _)].
  - destruct (detect_loop items last) as [new_files modified_files].
    cbn [snd] in IH.
    destruct (dict_get last g) as [li|] eqn:Eg.
    + destruct (String.eqb_spec (md5 li) (md5 info)) as [Heq|Hneq];
        cbn [negb snd In]; rewrite ?IH; split.
      * intros (i & l & Hin & Hl & Hd). eauto 6.
      * intros (i & l & [[= <- <-]|Hin] & Hl & Hd); [|eauto].
        rewrite Eg in Hl. injection Hl as <-. contradiction.
      * intros [<-|(i & l & Hin & Hl & Hd)]; eauto 7.
      * intros (i & l & [[= <- <-]|Hin] & Hl & Hd); [now left|].
        right. eauto.
    + cbn [snd]. rewrite IH. split.
      * intros (i & l & Hin & Hl & Hd). eauto 6.
      * intros (i & l & [[= <- <-]|Hin] & Hl & Hd); [congruence|eauto].
Qed.

Lemma insert_by_name_In (e x : DirEntry) (l : list DirEntry) :
  In x (insert_by_name e l) <-> x = e \/ In x l.
Proof.
  induction l as [|e' l IH]; simpl.
  - intuition congruence.
  - destruct (String.leb (fname e) (fname e')); simpl; [|rewrite IH];
      intuition congruence.
Qed.

Lemma sorted_listdir_In (x : DirEntry) (l : list DirEntry) :
  In x (sorted_listdir l) <-> In x l.
Proof.
  induction l as [|e l IH]; simpl; [tauto|].
  rewrite insert_by_name_In, IH. intuition congruence.
Qed.

Section DataState.

Variable md5_hexdigest : list byte -> string.

Local Abbreviation step := (track_entry md5_hexdigest) (only parsing).

Lemma fold_state_get (l : list DirEntry) (acc : DataState) f info :
  dict_get (fold_left step l acc) f = Some info ->
  dict_get acc f = Some info
  \/ (endswith f ".csv" = true
      /\ exists e, In e l /\ fname e = f
                   /\ info = file_info md5_hexdigest e).
Proof.
  revert acc. induction l as [|e l IH]; intros acc; cbn [fold_left].
  - auto.
  - intros H. destruct (IH _ H) as [Hacc|(Hcsv & e' & Hin & Hf & Hi)].
    + unfold track_entry in Hacc. destruct (endswith (fname e) ".csv") eqn:Ecsv;
        [|now left].
      rewrite dict_get_set in Hacc.
      destruct (String.eqb_spec (fname e) f) as [<-|]; [|now left].
      injection Hacc as <-. right. split; [exact Ecsv|].
      exists e. simpl. auto.
    + right. split; [exact Hcsv|]. exists e'. simpl. auto.
Qed.

Lemma fold_state_keeps (l : list DirEntry) (acc : DataState) f :
  dict_mem acc f = true -> dict_mem (fold_left step l acc) f = true.
Proof.
  revert acc. induction l as [|e l IH]; intros acc; cbn [fold_left]; [auto|].
  intros H. apply IH. unfold track_entry.
  destruct (endswith (fname e) ".csv"); [|exact H].
  unfold dict_mem in *. rewrite dict_get_set.
  destruct (String.eqb (fname e) f); [reflexivity | exact H].
Qed.

Lemma fold_state_tracks (l : list DirEntry) (acc : DataState) e :
  In e l -> endswith (fname e) ".csv" = true ->
  dict_mem (fold_left step l acc) (fname e) = true.
Proof.
  revert acc. induction l as [|e' l IH]; intros acc; cbn [fold_left];
    [intros []|].
  intros [->|Hin] Hcsv; [|now apply IH].
  apply fold_state_keeps. unfold track_entry. rewrite Hcsv.
  unfold dict_mem. now rewrite dict_get_set, String.eqb_refl.
Qed.

Lemma fold_state_NoDup (l : list DirEntry) (acc : DataState) :
  NoDup (map fst acc) -> NoDup (map fst (fold_left step l acc)).
Proof.
  revert acc. induction l as [|e l IH]; intros acc H; cbn [fold_left];
    [exact H|].
  apply IH. unfold track_entry. destruct (endswith (fname e) ".csv"); [|exact H].
  now apply dict_set_keys_NoDup.
Qed.

(** What [get_data_state] holds: entries of the directory whose name
    ends in ".csv", one per name. *)
Lemma get_data_state_get (entries : list DirEntry) f info :
  dict_get (get_data_state_of md5_hexdigest entries) f = Some info ->
  endswith f ".csv" = true
  /\ exists e, In e entries /\ fname e = f
               /\ info = file_info md5_hexdigest e.
Proof.
  intros H. apply fold_state_get in H.
  destruct H as [H|(Hcsv & e & Hin & Hf & Hi)]; [discriminate|].
  split; [exact Hcsv|]. exists e. rewrite <- sorted_listdir_In. auto.
Qed.

Lemma get_data_state_tracks (entries : list DirEntry) e :
  In e entries -> endswith (fname e) ".csv" = true ->
  dict_mem (get_data_state_of md5_hexdigest entries) (fname e) = true.
Proof.
  intros Hin Hcsv. apply fold_state_tracks; [|exact Hcsv].
  now apply sorted_listdir_In.
Qed.

Lemma get_data_state_NoDup (entries : list DirEntry) :
  NoDup (map fst (get_data_state_of md5_hexdigest entries)).
Proof. apply fold_state_NoDup. constructor. Qed.

End DataState.

(** C6.  For a file of the current snapshot: it is new exactly when its
    name is missing from the last state, and modified exactly when the
    last state has it with another MD5; with the same MD5 it is neither,
    whatever the stored time stamp and size; a name that is not in the
    current snapshot is not reported, also when the last state has it;
    and detection leaves the world as it is. *)
Theorem change_detection_by_hash :
  forall (md5_hexdigest : list byte -> string) (w : World)
         (name : string) (info : FileInfo),
    dict_get (current_state_of md5_hexdigest w) name = Some info ->
    let new_files := new_files_of md5_hexdigest w in
    let modified_files := modified_files_of md5_hexdigest w in
    (In name new_files <-> dict_get (last_state_of w) name = None)
    /\ (In name modified_files <->
        exists last_info,
          dict_get (last_state_of w) name = Some last_info
          /\ md5 last_info <> md5 info)
    /\ (forall last_info,
          dict_get (last_state_of w) name = Some last_info ->
          md5 last_info = md5 info ->
          ~ In name new_files /\ ~ In name modified_files)
    /\ (forall gone,
          dict_get (current_state_of md5_hexdigest w) gone = None ->
          ~ In gone new_files /\ ~ In gone modified_files)
    /\ detect_new_data md5_hexdigest w
       = (w, Ok (new_files, modified_files,
                 current_state_of md5_hexdigest w)).
Proof.
  intros md5_hexdigest w name info Hcur new_files modified_files.
  pose proof (get_data_state_NoDup md5_hexdigest (gold_dir w)) as Hnd.
  fold (current_state_of md5_hexdigest w) in Hnd.
  assert (Hnew : In name new_files <-> dict_get (last_state_of w) name = None).
  { unfold new_files, new_files_of. rewrite detect_loop_new. split.
    - now intros [_ H].
    - intros H. split; [|exact H].
      change name with (fst (name, info)). apply in_map.
      now apply dict_get_In. }
  assert (Hmod : In name modified_files <->
                 exists last_info,
                   dict_get (last_state_of w) name = Some last_info
                   /\ md5 last_info <> md5 info).
  { unfold modified_files, modified_files_of. rewrite detect_loop_modified.
    split.
    - intros (i & li & Hin & Hl & Hd).
      apply (dict_In_get _ _ _ Hnd) in Hin. rewrite Hcur in Hin.
      injection Hin as <-. eauto.
    - intros (li & Hl & Hd). exists info, li.
      split; [now apply dict_get_In | auto]. }
  split; [exact Hnew|]. split; [exact Hmod|]. split; [|split].
  - intros li Hl Hsame. split.
    + rewrite Hnew. congruence.
    + rewrite Hmod. intros (li' & Hl' & Hd). congruence.
  - intros gone Hgone. apply dict_get_None in Hgone. split.
    + unfold new_files, new_files_of. rewrite detect_loop_new. tauto.
    + unfold modified_files, modified_files_of. rewrite detect_loop_modified.
      intros (i & li & Hin & _). apply Hgone.
      change gone with (fst (gone, i)). now apply in_map.
  - unfold detect_new_data, bind, get_data_state, load_last_state, ret,
      new_files, modified_files, new_files_of, modified_files_of,
      current_state_of, last_state_of.
    now destruct (detect_loop _ _).
Qed.

Lemma change_detection_by_hash_witness :
  ~ In "gold_v1.csv" (new_files_of Examples.toy_md5 Examples.world_touched)
  /\ ~ In "gold_v1.csv"
       (modified_files_of Examples.toy_md5 Examples.world_touched).
Proof.
  destruct (@change_detection_by_hash Examples.toy_md5 Examples.world_touched
              "gold_v1.csv"
              (mkFileInfo "data/gold/gold_v1.csv" "ab" 10%Q 2) eq_refl)
    as (_ & _ & Hsame & _).
  apply (Hsame (mkFileInfo "data/gold/gold_v1.csv" "ab" 1%Q 7));
    reflexivity.
Defined.

(** C10.  A name that does not end in ".csv" has no snapshot in the
    computed data state, is never reported as new or modified, and is not
    in the state the cycle saves; an entry of the directory whose name ends
    in ".csv" is in the computed state. *)
Theorem only_csv_files_are_tracked :
  forall (md5_hexdigest : list byte -> string) (w : World) (name : string),
    ~ ends_with name ".csv" ->
    dict_get (current_state_of md5_hexdigest w) name = None
    /\ ~ In name (map fst (current_state_of md5_hexdigest w))
    /\ ~ In name (new_files_of md5_hexdigest w)
    /\ ~ In name (modified_files_of md5_hexdigest w)
    /\ (forall fit_score np_mean np_std w' r,
          update_pipeline fit_score np_mean np_std md5_hexdigest w = (w', r) ->
          state_file w' = state_file w
          \/ exists s, state_file w' = Some s /\ dict_get s name = None)
    /\ (forall e, In e (gold_dir w) -> ends_with (fname e) ".csv" ->
          dict_mem (current_state_of md5_hexdigest w) (fname e) = true).
Proof.
  intros md5_hexdigest w name Hn.
  assert (Hnone : dict_get (current_state_of md5_hexdigest w) name = None).
  { destruct (dict_get (current_state_of md5_hexdigest w) name) as [info|] eqn:E;
      [|reflexivity].
    apply get_data_state_get in E. destruct E as [Hcsv _].
    elim Hn. now apply endswith_spec. }
  assert (Hkeys : ~ In name (map fst (current_state_of md5_hexdigest w)))
    by now apply dict_get_None.
  split; [exact Hnone|]. split; [exact Hkeys|]. split; [|split; [|split]].
  - unfold new_files_of. rewrite detect_loop_new. tauto.
  - unfold modified_files_of. rewrite detect_loop_modified.
    intros (i & li & Hin & _). apply Hkeys.
    change name with (fst (name, i)). now apply in_map.
  - intros fit_score np_mean np_std w' r H.
    destruct (update_pipeline_summary _ _ _ _ _ H)
      as (runs & out & _ & _ & _
          & [(_ & _ & Hs & _)|[(_ & _ & Hs & _)|(e & l1 & v & l2 & _ & _ & Hs & _)]]).
    + right. eauto.
    + now left.
    + now left.
  - intros e Hin Hcsv. apply get_data_state_tracks; [exact Hin|].
    now apply endswith_spec.
Qed.

Lemma only_csv_files_are_tracked_witness :
  dict_get (current_state_of Examples.toy_md5 Examples.world_notes) "README.md"
  = None
  /\ In Examples.readme (gold_dir Examples.world_notes).
Proof.
  split; [|vm_compute; tauto].
  apply (@only_csv_files_are_tracked Examples.toy_md5 Examples.world_notes
           "README.md").
  unfold ends_with. rewrite <- endswith_spec. vm_compute. discriminate.
Defined.

(** ** tune.py: grid search *)

Lemma itertools_product_In {A} (pools : list (list A)) (values : list A) :
  In values (itertools_product pools) <->
  Forall2 (fun x pool => In x pool) values pools.
Proof.
  revert values. induction pools as [|pool pools IH]; intros values;
    cbn [itertools_product].
  - split.
    + intros [<-|[]]. constructor.
    + intros H. inversion H. now left.
  - rewrite in_flat_map. split.
    + intros (x & Hx & Hin). apply in_map_iff in Hin.
      destruct Hin as (rest & <- & Hrest). constructor; [exact Hx|].
      now apply IH.
    + intros H. inversion H as [|x pool' rest pools' Hx Hrest]; subst.
      exists x. split; [exact Hx|]. apply in_map. now apply IH.
Qed.

Lemma itertools_product_length {A} (pools : list (list A)) :
  List.length (itertools_product pools) = product_size pools.
Proof.
  induction pools as [|pool pools IH]; cbn [itertools_product product_size
                                            fold_right]; [reflexivity|].
  fold (product_size pools). rewrite <- IH.
  induction pool as [|x pool IHp]; cbn [flat_map List.length]; [reflexivity|].
  rewrite length_app, length_map, IHp. lia.
Qed.

Lemma new_best_app_one (before : list Run) (b r : Run) :
  first_minimum before b ->
  (new_best before r <-> (run_rmse r < run_rmse b)%Q).
Proof.
  intros (pre & post & -> & Hpre & Hpost). unfold new_best. split.
  - intros H. apply Forall_app in H. destruct H as [_ H].
    now inversion H.
  - intros Hlt. apply Forall_app. split.
    + eapply Forall_impl; [|exact Hpre]. intros r' Hr'.
      eapply Qlt_trans; eassumption.
    + constructor; [exact Hlt|].
      eapply Forall_impl; [|exact Hpost]. intros r' Hr'.
      eapply Qlt_le_trans; eassumption.
Qed.

Lemma logged_from_split (pre runs : list Run) :
  logged_from pre runs ->
  forall before r after,
    runs = (before ++ r :: after)%list ->
    (model_logged r = true <-> new_best (pre ++ before) r).
Proof.
  revert pre. induction runs as [|r0 rest IH]; intros pre H before r after E.
  - now destruct before.
  - destruct H as [H0 Hrest]. destruct before as [|b0 before].
    + injection E as <- _. now rewrite app_nil_r.
    + injection E as <- E.
      rewrite (IH _ Hrest before r after E).
      now rewrite <- app_assoc.
Qed.

Lemma tune_invariant_step (st : TuneState) (done : list Run) (r : Run)
    (m : Metrics) :
  tune_invariant st done ->
  run_test_metrics r = Some m ->
  let better := lt_bound (rmse m) (best_rmse st) in
  (better = true <-> new_best done r)
  /\ tune_invariant
       (if better
        then mkTuneState (Fin (rmse m)) (Some (run_id r)) (Some (run_params r))
        else st)
       (done ++ [r]).
Proof.
  intros Hinv Hm better.
  assert (Hr : run_rmse r = rmse m) by (unfold run_rmse; now rewrite Hm).
  unfold tune_invariant in *. subst better.
  destruct (best_rmse st) as [|q] eqn:Eb; cbn [lt_bound].
  - destruct Hinv as [-> Hid]. split.
    + split; [constructor | reflexivity].
    + cbn [best_rmse]. exists r. split; [|auto].
      exists [], []. repeat split; constructor.
  - destruct Hinv as (b & Hmin & -> & Hid & Hp).
    assert (Hiff : Qltb (rmse m) (run_rmse b) = true <-> new_best done r).
    { rewrite Qltb_lt, <- Hr. symmetry. now apply new_best_app_one. }
    split; [exact Hiff|].
    destruct (Qltb (rmse m) (run_rmse b)) eqn:El.
    + cbn [best_rmse]. exists r. split; [|auto].
      exists done, []. split; [reflexivity|]. split; [|constructor].
      now apply Hiff.
    + rewrite Eb. exists b. split; [|auto].
      destruct Hmin as (pre & post & -> & Hpre & Hpost).
      exists pre, (post ++ [r])%list. split; [now rewrite <- app_assoc|].
      split; [exact Hpre|]. apply Forall_app. split; [exact Hpost|].
      constructor; [|constructor]. rewrite Hr. now apply Qltb_ge.
Qed.

Section Tune.

Variable fit_score :
  string -> HyperParams -> list Row -> list Row -> result Metrics.
Variables np_mean np_std : list Q -> Q.

(** One configuration: one run, with its hyperparameters and test
    metrics, and the model artifact exactly when it beats the best RMSE
    so far. *)
Lemma tune_step_ok v p train test i values st w w' st' :
  tune_step fit_score np_mean np_std v p train test i values st w
    = (w', Ok st') ->
  exists run m out,
    extends w w' [run] out
    /\ tune_hyperparams p values = Ok (run_params run)
    /\ fit_score "gradient_boosting" (run_params run) train test = Ok m
    /\ run_test_metrics run = Some m
    /\ model_logged run = lt_bound (rmse m) (best_rmse st)
    /\ st' = (if lt_bound (rmse m) (best_rmse st)
              then mkTuneState (Fin (rmse m)) (Some (run_id run))
                               (Some (run_params run))
              else st).
Proof.
  unfold tune_step. intros H. unfold_monad_in H.
  repeat (destruct_innermost_match_in H; unfold_monad_in H);
    try discriminate;
    injection H as <- <-;
    do 3 eexists;
    (split;
     [ unfold extends;
       cbn [registry stdout params gold_dir csv_files state_file app];
       reflexivity |]);
    cbn [run_params run_test_metrics model_logged run_id log_model
         set_kpi_status log_test_metrics log_cv_metrics log_params
         set_run_type set_tags blank_run];
    (split; [reflexivity|]); (split; [eassumption|]);
    (split; [reflexivity|]);
    match goal with
    | Hb : lt_bound _ _ = _ |- _ => rewrite Hb
    end;
    split; reflexivity.
Qed.

Lemma tune_loop_ok v p train test combinations :
  forall i st w w' st' done,
    tune_loop fit_score np_mean np_std v p train test i combinations st w
      = (w', Ok st') ->
    tune_invariant st done ->
    exists runs out,
      extends w w' (rev runs) out
      /\ Forall2 (fun values run =>
                    tune_hyperparams p values = Ok (run_params run)
                    /\ exists m,
                         run_test_metrics run = Some m
                         /\ fit_score "gradient_boosting" (run_params run)
                              train test = Ok m)
                 combinations runs
      /\ logged_from done runs
      /\ tune_invariant st' (done ++ runs).
Proof.
  induction combinations as [|values rest IH];
    intros i st w w' st' done H Hinv; cbn [tune_loop] in H.
  - unfold ret in H. injection H as <- <-.
    exists [], []. split; [apply extends_refl|].
    split; [constructor|]. split; [exact I|]. now rewrite app_nil_r.
  - unfold bind in H.
    destruct (tune_step _ _ _ v p train test i values st w)
      as [w1 [st1|e]] eqn:Es; [|discriminate].
    destruct (tune_step_ok _ _ _ _ _ _ _ _ Es)
      as (run & m & out1 & Hext1 & Hhp & Hfit & Hm & Hlog & ->).
    destruct (@tune_invariant_step st done run m Hinv Hm) as [Hbetter Hinv1].
    cbv zeta in Hbetter, Hinv1.
    destruct (IH _ _ _ _ _ _ H Hinv1)
      as (runs & out & Hext & Hall & Hlogged & Hinv').
    exists (run :: runs), (out1 ++ out)%list.
    split.
    + pose proof (extends_trans Hext1 Hext) as Hfull.
      cbn [rev]. exact Hfull.
    + split; [constructor; eauto|].
      split.
      * cbn [logged_from]. split; [|exact Hlogged].
        rewrite Hlog. exact Hbetter.
      * now rewrite <- app_assoc in Hinv'.
Qed.

End Tune.

(** C8.  When [tune_model] returns: the configurations are the full
    cartesian product of the grid, each with one run, in the order of
    [itertools.product]; the run whose id is returned is the first of the
    runs with the lowest test RMSE, so a later configuration with the same
    RMSE does not replace it; and a run has the model artifact exactly
    when its RMSE is below that of every configuration before it. *)
Theorem grid_search_keeps_first_best :
  forall (fit_score : string -> HyperParams -> list Row -> list Row
                      -> result Metrics)
         (np_mean np_std : list Q -> Q)
         (version : string) (w w' : World) (best_id : nat),
    tune_model fit_score np_mean np_std version w = (w', Ok best_id) ->
    exists (grid : dict (list Q)) (train test : list Row)
           (runs : list Run) (best : Run),
      pick_items (p_tuning (params w)) grid_keys = Ok grid
      /\ (forall values,
            In values (itertools_product (map snd grid)) <->
            Forall2 (fun x pool => In x pool) values (map snd grid))
      /\ List.length (itertools_product (map snd grid))
         = product_size (map snd grid)
      /\ registry w' = (rev runs ++ registry w)%list
      /\ Forall2 (fun values run =>
                    tune_hyperparams (params w) values = Ok (run_params run)
                    /\ exists m,
                         run_test_metrics run = Some m
                         /\ fit_score "gradient_boosting" (run_params run)
                              train test = Ok m)
                 (itertools_product (map snd grid)) runs
      /\ first_minimum runs best
      /\ run_id best = best_id
      /\ (forall before r after,
            runs = (before ++ r :: after)%list ->
            (model_logged r = true <-> new_best before r)).
Proof.
  intros fit_score np_mean np_std version w w' best_id H.
  unfold tune_model in H. unfold_monad_in H.
  assert (Hinv0 : tune_invariant (mkTuneState Inf None None) [])
    by (split; reflexivity).
  repeat (destruct_innermost_match_in H; unfold_monad_in H);
    try discriminate;
    injection H as <- <-;
    match goal with
    | Hl : tune_loop _ _ _ _ _ _ _ _ _ _ _ = (?w1, Ok ?st) |- _ =>
        destruct (@tune_loop_ok _ _ _ _ _ _ _ _ _ _ _ _ _ [] Hl Hinv0)
          as (runs & out & Hext & Hall & Hlogged & Hinv)
    end;
    unfold tune_invariant in Hinv;
    match goal with
    | Hq : best_rmse _ = _ |- _ => rewrite Hq in Hinv
    end;
    [ destruct Hinv as [_ Hnone]; congruence | ].
  destruct Hinv as (b & Hmin & _ & Hid & _).
  match goal with
  | Hi : best_run_id _ = Some _ |- _ =>
      rewrite Hi in Hid; injection Hid as ->
  end.
  match goal with
  | Hs : temporal_train_test_split _ _ = Ok ?parts,
    Hg : pick_items _ grid_keys = Ok ?grid |- _ =>
      exists grid, (fst parts), (snd parts), runs, b
  end.
  split; [first [assumption | reflexivity]|].
  split; [apply itertools_product_In|].
  split; [apply itertools_product_length|].
  split; [cbn [registry]; exact (extends_registry Hext)|].
  split; [exact Hall|]. split; [exact Hmin|]. split; [reflexivity|].
  exact (@logged_from_split [] runs Hlogged).
Qed.

Lemma grid_search_keeps_first_best_witness :
  exists (runs : list Run) (best : Run),
    registry (fst (toy_tune "v1" Examples.world_two))
    = (rev runs ++ registry Examples.world_two)%list
    /\ first_minimum runs best
    /\ run_id best = 2%nat
    /\ (forall before r after,
          runs = (before ++ r :: after)%list ->
          (model_logged r = true <-> new_best before r)).
Proof.
  destruct (@grid_search_keeps_first_best
              Examples.toy_fit_score Examples.toy_mean Examples.toy_std
              "v1" Examples.world_two
              (fst (toy_tune "v1" Examples.world_two)) 2%nat)
    as (grid & train & test & runs & best & _ & _ & _ & Hreg & _ & Hmin
        & Hid & Hlog).
  { vm_compute. reflexivity. }
  exists runs, best. auto.
Defined.

(** The grid of the example has two configurations that tie on the lowest
    RMSE: the second and the third of six.  The second is reported, and
    only the first and the second carry a model artifact. *)
Lemma grid_search_tie_example :
  snd (toy_tune "v1" Examples.world_two) = Ok 2%nat
  /\ map (fun r => (run_id r, run_rmse r, model_logged r))
         (rev (firstn 6 (registry (fst (toy_tune "v1" Examples.world_two)))))
     = [(1%nat, 3%Q, true); (2%nat, 2%Q, true); (3%nat, 2%Q, false);
        (4%nat, 3%Q, false); (5%nat, 2%Q, false); (6%nat, 2%Q, false)].
Proof. vm_compute. split; reflexivity. Qed.

(** * Further properties of the update cycle *)

Lemma extends_gold_dir w w' runs out :
  extends w w' runs out -> gold_dir w' = gold_dir w.
Proof. now intros ->. Qed.

Lemma runs_ok_retrain_extends fit_score np_mean np_std best vs w w' :
  runs_ok (retrain fit_score np_mean np_std best) vs w w' ->
  exists runs out, extends w w' runs out /\ List.length runs = List.length vs.
Proof.
  intros H. destruct (retrain_chain H) as (runs & out & Hext & Htr & _).
  exists runs, out. split; [exact Hext|].
  apply Forall2_length in Htr. now rewrite length_rev in Htr.
Qed.

(** Whatever the outcome of a cycle, the files it reads are untouched,
    the runs that existed stay as they were, behind the new ones, and
    lines are only added. *)
Lemma update_pipeline_frame fit_score np_mean np_std md5_hexdigest w w' r :
  update_pipeline fit_score np_mean np_std md5_hexdigest w = (w', r) ->
  params w' = params w /\ gold_dir w' = gold_dir w
  /\ csv_files w' = csv_files w
  /\ exists runs out,
       registry w' = (runs ++ registry w)%list
       /\ stdout w' = (stdout w ++ out)%list
       /\ (List.length runs
           <= List.length (versions_to_train md5_hexdigest w))%nat.
Proof.
  intros H.
  destruct (update_pipeline_cases _ _ _ _ _ H)
    as [(Hn & Hm & -> & ->)
       |[(Hch & Hv & -> & ->)
        |[(Hv & -> & w3 & Hok & ->)
         |(Hv & e & l1 & v & l2 & w1 & -> & El & Hok & Hv1)]]].
  - repeat split. exists [], [MsgUpToDate]. repeat split. simpl. lia.
  - repeat split. eexists [], [_; _]. split; [reflexivity|]. split.
    + unfold printed, print. simpl. now rewrite <- app_assoc.
    + simpl. lia.
  - destruct (before_training_extends md5_hexdigest w)
      as (out0 & Hext0 & _).
    destruct (runs_ok_retrain_extends Hok) as (runs & out & Hext & Hlen).
    pose proof (extends_trans Hext0 Hext) as Hfull.
    rewrite app_nil_r in Hfull.
    unfold committed, printed, print, save_state.
    cbn [fst params gold_dir csv_files registry stdout].
    split; [exact (extends_params Hfull)|].
    split; [exact (extends_gold_dir Hfull)|].
    split; [exact (extends_csv_files Hfull)|].
    exists runs, ((out0 ++ out) ++ [MsgStateSaved])%list.
    split; [exact (extends_registry Hfull)|]. split.
    + rewrite (extends_stdout Hfull). now rewrite <- !app_assoc.
    + lia.
  - destruct (before_training_extends md5_hexdigest w)
      as (out0 & Hext0 & _).
    destruct (runs_ok_retrain_extends Hok) as (runs & out & Hext & Hlen).
    destruct (retrain_extends _ _ _ _ _ _ Hv1)
      as (runs1 & out1 & Hext1 & _ & Hlen1).
    pose proof (extends_trans (extends_trans Hext0 Hext) Hext1) as Hfull.
    rewrite app_nil_r in Hfull.
    split; [exact (extends_params Hfull)|].
    split; [exact (extends_gold_dir Hfull)|].
    split; [exact (extends_csv_files Hfull)|].
    exists (runs1 ++ runs)%list, ((out0 ++ out) ++ out1)%list.
    split; [exact (extends_registry Hfull)|].
    split; [exact (extends_stdout Hfull)|].
    rewrite El, !length_app. simpl. lia.
Qed.

Lemma detect_loop_self (state : DataState) :
  NoDup (map fst state) -> detect_loop state state = ([], []).
Proof.
  intros Hnd.
  destruct (detect_loop state state) as [new_files modified_files] eqn:E.
  assert (Hn : forall f, ~ In f new_files).
  { intros f Hf.
    pose proof (proj1 (detect_loop_new state state f)) as H.
    rewrite E in H. destruct (H Hf) as [Hin Hnone].
    apply dict_get_None in Hnone. contradiction. }
  assert (Hm : forall f, ~ In f modified_files).
  { intros f Hf.
    pose proof (proj1 (detect_loop_modified state state f)) as H.
    rewrite E in H. destruct (H Hf) as (info & li & Hin & Hl & Hd).
    apply (dict_In_get _ _ _ Hnd) in Hin. congruence. }
  destruct new_files as [|f ?]; [|elim (Hn f); now left].
  destruct modified_files as [|f ?]; [|elim (Hm f); now left].
  reflexivity.
Qed.

(** X1.  After a cycle that retrained its versions and returned, the
    saved state is the state of the directory: the next detection finds
    nothing new and nothing modified, and the next cycle only prints that
    the pipeline is up to date. *)
Theorem completed_cycle_is_acknowledged :
  forall (fit_score : string -> HyperParams -> list Row -> list Row
                      -> result Metrics)
         (np_mean np_std : list Q -> Q) (md5_hexdigest : list byte -> string)
         (w w' : World),
    update_pipeline fit_score np_mean np_std md5_hexdigest w = (w', Ok tt) ->
    versions_to_train md5_hexdigest w <> [] ->
    new_files_of md5_hexdigest w' = []
    /\ modified_files_of md5_hexdigest w' = []
    /\ update_pipeline fit_score np_mean np_std md5_hexdigest w'
       = (printed MsgUpToDate w', Ok tt).
Proof.
  intros fit_score np_mean np_std md5_hexdigest w w' H Hv.
  destruct (update_pipeline_frame _ _ _ _ _ H) as (_ & Hdir & _).
  destruct (update_pipeline_summary _ _ _ _ _ H)
    as (runs & out & _ & _ & _
        & [(_ & _ & Hs & _)|[(_ & Hnil & _)|(e & l1 & v & l2 & Hr & _)]]);
    [|contradiction|discriminate].
  assert (Hd : detect_loop (current_state_of md5_hexdigest w')
                 (last_state_of w') = ([], [])).
  { unfold last_state_of, current_state_of. rewrite Hs, Hdir.
    apply detect_loop_self, get_data_state_NoDup. }
  assert (Hn : new_files_of md5_hexdigest w' = [])
    by (unfold new_files_of; now rewrite Hd).
  assert (Hm : modified_files_of md5_hexdigest w' = [])
    by (unfold modified_files_of; now rewrite Hd).
  split; [exact Hn|]. split; [exact Hm|].
  rewrite update_pipeline_unfold, Hn, Hm. reflexivity.
Qed.

Lemma completed_cycle_is_acknowledged_witness :
  toy_update (fst (toy_update Examples.world_two))
  = (printed MsgUpToDate (fst (toy_update Examples.world_two)), Ok tt).
Proof.
  refine (proj2 (proj2 (@completed_cycle_is_acknowledged
                          Examples.toy_fit_score Examples.toy_mean
                          Examples.toy_std Examples.toy_md5
                          Examples.world_two
                          (fst (toy_update Examples.world_two)) _ _))).
  - vm_compute. reflexivity.
  - vm_compute. discriminate.
Defined.

(** X2.  A cycle that ends in an exception, or that finds changed files
    but no version, leaves the changes unacknowledged: the same files are
    new and modified for the next cycle and the same versions are due. *)
Theorem unfinished_cycle_is_detected_again :
  forall (fit_score : string -> HyperParams -> list Row -> list Row
                      -> result Metrics)
         (np_mean np_std : list Q -> Q) (md5_hexdigest : list byte -> string)
         (w w' : World) (r : result unit),
    update_pipeline fit_score np_mean np_std md5_hexdigest w = (w', r) ->
    (exists e, r = Raise e) \/ versions_to_train md5_hexdigest w = [] ->
    new_files_of md5_hexdigest w' = new_files_of md5_hexdigest w
    /\ modified_files_of md5_hexdigest w' = modified_files_of md5_hexdigest w
    /\ versions_to_train md5_hexdigest w' = versions_to_train md5_hexdigest w.
Proof.
  intros fit_score np_mean np_std md5_hexdigest w w' r H Hcase.
  destruct (update_pipeline_frame _ _ _ _ _ H) as (_ & Hdir & _).
  assert (Hs : state_file w' = state_file w).
  { destruct (update_pipeline_summary _ _ _ _ _ H)
      as (runs & out & _ & _ & _
          & [(Hr & Hv & _)|[(_ & _ & Hs & _)|(e & l1 & v & l2 & _ & _ & Hs & _)]]);
      [|exact Hs|exact Hs].
    destruct Hcase as [[e ->]|Hnil]; [discriminate | contradiction]. }
  unfold versions_to_train, new_files_of, modified_files_of,
    current_state_of, last_state_of.
  rewrite Hs, Hdir. auto.
Qed.

Lemma unfinished_cycle_is_detected_again_witness :
  versions_to_train Examples.toy_md5
    (fst (toy_update Examples.world_missing_v1))
  = versions_to_train Examples.toy_md5 Examples.world_missing_v1.
Proof.
  refine (proj2 (proj2 (@unfinished_cycle_is_detected_again
                          Examples.toy_fit_score Examples.toy_mean
                          Examples.toy_std Examples.toy_md5
                          Examples.world_missing_v1
                          (fst (toy_update Examples.world_missing_v1))
                          (Raise (SystemExit 1)) _ _))).
  - vm_compute. reflexivity.
  - left. eexists. reflexivity.
Defined.

(** ** Incumbent *)

Lemma eligible_rmse (r : Run) (m : Metrics) :
  run_test_metrics r = Some m -> run_rmse r = rmse m.
Proof. unfold run_rmse. now intros ->. Qed.

Lemma search_best_pass_min (rs : list Run) (b : Run) :
  search_best_pass rs = Some b ->
  forall r, In r rs -> eligible r -> (run_rmse b <= run_rmse r)%Q.
Proof.
  revert b. induction rs as [|r0 rs IH]; intros b; simpl; [discriminate|].
  assert (Hskip : ~ eligible r0 -> search_best_pass rs = Some b ->
                  forall r, r0 = r \/ In r rs -> eligible r ->
                            (run_rmse b <= run_rmse r)%Q).
  { intros Hne Hb r [<-|Hin] He; [contradiction | eauto]. }
  destruct (tag_kpi_status r0) as [[|]|] eqn:Et;
    try (apply Hskip; intros [Hp _]; congruence).
  destruct (run_test_metrics r0) as [m|] eqn:Em;
    [|apply Hskip; intros [_ [m Hm]]; congruence].
  destruct (search_best_pass rs) as [b'|] eqn:Eb.
  - destruct (search_best_pass_spec _ Eb) as (_ & _ & mb & Hmb).
    rewrite Hmb. destruct (Qle_bool (rmse m) (rmse mb)) eqn:El.
    + apply Qle_bool_iff in El. intros [= <-] r [<-|Hin] He.
      * apply Qle_refl.
      * rewrite (eligible_rmse _ Em).
        eapply Qle_trans; [exact El|].
        rewrite <- (eligible_rmse _ Hmb). now apply (IH b').
    + intros [= <-] r [<-|Hin] He; [|now apply (IH b')].
      rewrite (eligible_rmse _ Em), (eligible_rmse _ Hmb).
      apply Qlt_le_weak, Qnot_le_lt. intros Hle.
      apply Qle_bool_iff in Hle. congruence.
  - intros [= <-] r [<-|Hin] He; [apply Qle_refl|].
    exfalso. clear IH. revert Hin He Eb. clear.
    induction rs as [|r1 rs IH]; simpl; [intros []|].
    intros [<-|Hin] [Hp [m Hm]].
    + rewrite Hp, Hm. destruct (search_best_pass rs) as [b|];
        [destruct (run_test_metrics b);
         [destruct (Qle_bool _ _)|]|]; discriminate.
    + destruct (tag_kpi_status r1) as [[|]|];
        try (intros H; exact (IH Hin (conj Hp (ex_intro _ m Hm)) H)).
      destruct (run_test_metrics r1);
        [|intros H; exact (IH Hin (conj Hp (ex_intro _ m Hm)) H)].
      destruct (search_best_pass rs) as [b|];
        [destruct (run_test_metrics b);
         [destruct (Qle_bool _ _)|]|]; discriminate.
Qed.

Lemma search_best_pass_none (rs : list Run) :
  search_best_pass rs = None -> forall r, In r rs -> ~ eligible r.
Proof.
  induction rs as [|r1 rs IH]; simpl; [intros _ r []|].
  intros H r [<-|Hin] [Hp [m Hm]].
  - rewrite Hp, Hm in H. destruct (search_best_pass rs) as [b|];
      [destruct (run_test_metrics b);
       [destruct (Qle_bool _ _)|]|]; discriminate.
  - destruct (tag_kpi_status r1) as [[|]|];
      try (exact (IH H r Hin (conj Hp (ex_intro _ m Hm)))).
    destruct (run_test_metrics r1);
      [|exact (IH H r Hin (conj Hp (ex_intro _ m Hm)))].
    destruct (search_best_pass rs) as [b|];
      [destruct (run_test_metrics b);
       [destruct (Qle_bool _ _)|]|]; discriminate.
Qed.

(** X3.  [get_current_best_model] leaves the world alone and returns a
    run of the registry with status PASS whose test RMSE is the lowest of
    all PASS runs; runs with status FAIL or without status are never
    returned, and [None] means that no PASS run with a test RMSE exists. *)
Theorem current_best_is_lowest_pass_run :
  forall (p : Params) (w : World),
    get_current_best_model p w = (w, Ok (incumbent w))
    /\ match incumbent w with
       | Some best =>
           In best (registry w) /\ eligible best
           /\ forall r, In r (registry w) -> eligible r ->
                        (run_rmse best <= run_rmse r)%Q
       | None => forall r, In r (registry w) -> ~ eligible r
       end.
Proof.
  intros p w. split; [reflexivity|]. unfold incumbent.
  destruct (search_best_pass (registry w)) as [best|] eqn:E.
  - destruct (search_best_pass_spec _ E) as (Hin & Hp & Hm).
    split; [exact Hin|]. split; [split; assumption|].
    now apply search_best_pass_min.
  - now apply search_best_pass_none.
Qed.

(** ** Detection *)

Lemma detect_loop_NoDup (items : list (string * FileInfo)) (last : DataState) :
  NoDup (map fst items) ->
  NoDup (fst (detect_loop items last) ++ snd (detect_loop items last)).
Proof.
  induction items as [|[f info] items IH]; intros Hnd;
    cbn [detect_loop map fst] in *.
  - constructor.
  - inversion Hnd as [|? ? Hf Hrest]; subst. specialize (IH Hrest).
    assert (Hnew : ~ In f (fst (detect_loop items last))).
    { intros H. apply detect_loop_new in H. tauto. }
    assert (Hmod : ~ In f (snd (detect_loop items last))).
    { intros H. apply detect_loop_modified in H.
      destruct H as (i & li & Hin & _). apply Hf.
      change f with (fst (f, i)). now apply in_map. }
    destruct (detect_loop items last) as [new_files modified_files].
    cbn [fst snd] in *.
    assert (Hadd : NoDup (f :: new_files ++ modified_files)).
    { constructor; [|exact IH]. rewrite in_app_iff. tauto. }
    destruct (dict_get last f) as [li|]; [|exact Hadd].
    destruct (negb (String.eqb (md5 li) (md5 info))); [|exact IH].
    cbn [fst snd].
    eapply Permutation_NoDup; [apply Permutation_middle | exact Hadd].
Qed.

(** X4.  No file is reported twice by a detection, in particular none is
    both new and modified, and every reported name is the name of an
    entry of the directory that ends in ".csv". *)
Theorem detection_reports_each_file_once :
  forall (md5_hexdigest : list byte -> string) (w : World),
    NoDup (new_files_of md5_hexdigest w ++ modified_files_of md5_hexdigest w)
    /\ forall name,
         In name (new_files_of md5_hexdigest w
                  ++ modified_files_of md5_hexdigest w) ->
         ends_with name ".csv"
         /\ exists e, In e (gold_dir w) /\ fname e = name.
Proof.
  intros md5_hexdigest w. split.
  - apply detect_loop_NoDup, get_data_state_NoDup.
  - intros name Hin.
    assert (Hkey : In name (map fst (current_state_of md5_hexdigest w))).
    { apply in_app_iff in Hin. destruct Hin as [H|H].
      - apply detect_loop_new in H. tauto.
      - apply detect_loop_modified in H. destruct H as (i & li & H & _).
        change name with (fst (name, i)). now apply in_map. }
    destruct (dict_get (current_state_of md5_hexdigest w) name)
      as [info|] eqn:E.
    + apply get_data_state_get in E. destruct E as (Hcsv & e & He & Hf & _).
      split; [now apply endswith_spec | eauto].
    + apply dict_get_None in E. contradiction.
Qed.

Lemma chunk_size_pos : (0 < chunk_size)%nat.
Proof. unfold chunk_size. lia. Qed.

Lemma read_chunks_bounds (chunk fuel : nat) (data : list byte) :
  (0 < chunk)%nat ->
  Forall (fun c => (0 < List.length c <= chunk)%nat)
         (read_chunks fuel chunk data).
Proof.
  intros Hc. revert data. induction fuel as [|fuel IH]; intros data.
  - destruct data; constructor.
  - destruct data as [|b data]; [constructor|].
    cbn [read_chunks]. constructor; [|apply IH].
    rewrite length_firstn.
    change (List.length (b :: data)) with (S (List.length data)). lia.
Qed.

(** X5.  [compute_file_hash] feeds the hash object the whole file: the
    chunks it reads are non-empty, of at most 8192 bytes, and put together
    they are the content, so the digest is that of the content whatever
    its length. *)
Theorem file_hash_covers_whole_file :
  forall (md5_hexdigest : list byte -> string) (data : list byte),
    let chunks := read_chunks (List.length data) chunk_size data in
    List.concat chunks = data
    /\ Forall (fun c => (0 < List.length c <= chunk_size)%nat) chunks
    /\ (data = [] -> chunks = [])
    /\ compute_file_hash md5_hexdigest data = md5_hexdigest data.
Proof.
  intros md5_hexdigest data chunks.
  split; [apply read_chunks_concat; [apply chunk_size_pos | lia]|].
  split; [apply read_chunks_bounds, chunk_size_pos|].
  split; [intros ->; reflexivity|].
  apply compute_file_hash_md5.
Qed.

(** ** Runs of a cycle *)

Lemma versions_of_length (names : list string) :
  List.length (versions_of names) = List.length (filter has_marker names).
Proof.
  induction names as [|f names IH]; cbn [versions_of filter]; [reflexivity|].
  unfold has_marker at 1.
  destruct (contains "v1" f); [cbn; now rewrite IH|].
  destruct (contains "v2" f); cbn; now rewrite IH.
Qed.

(** X6.  A cycle that returns has added one run for every changed file
    whose name carries a version marker, and all of them together: the
    versions are not deduplicated, so a version with two changed files is
    retrained twice. *)
Theorem one_run_per_marked_file :
  forall (fit_score : string -> HyperParams -> list Row -> list Row
                      -> result Metrics)
         (np_mean np_std : list Q -> Q) (md5_hexdigest : list byte -> string)
         (w w' : World),
    update_pipeline fit_score np_mean np_std md5_hexdigest w = (w', Ok tt) ->
    exists runs,
      registry w' = (runs ++ registry w)%list
      /\ List.length runs
         = List.length (filter has_marker
                          (new_files_of md5_hexdigest w
                           ++ modified_files_of md5_hexdigest w))
      /\ map tag_data_version (rev runs) = versions_to_train md5_hexdigest w.
Proof.
  intros fit_score np_mean np_std md5_hexdigest w w' H.
  destruct (update_pipeline_summary _ _ _ _ _ H)
    as (runs & out & Hreg & _ & _
        & [(_ & _ & _ & Htr & _)|[(_ & Hnil & _ & -> & _)|(e & l1 & v & l2 & Hr & _)]]);
    [| |discriminate].
  - exists runs. split; [exact Hreg|].
    assert (Hmap : map tag_data_version (rev runs)
                   = versions_to_train md5_hexdigest w).
    { clear - Htr. induction Htr as [|v run vs rs [Hv _] _ IH];
        [reflexivity|]. cbn. now rewrite Hv, IH. }
    split; [|exact Hmap].
    rewrite <- versions_of_length. fold (versions_to_train md5_hexdigest w).
    rewrite <- Hmap, length_map, length_rev. reflexivity.
  - exists []. split; [exact Hreg|].
    rewrite <- versions_of_length. fold (versions_to_train md5_hexdigest w).
    rewrite Hnil. auto.
Qed.

Lemma one_run_per_marked_file_witness :
  exists runs,
    registry (fst (toy_update MoreExamples.world_same_version))
    = (runs ++ registry MoreExamples.world_same_version)%list
    /\ List.length runs = 2%nat
    /\ map tag_data_version (rev runs) = ["v1"; "v1"].
Proof.
  destruct (@one_run_per_marked_file
              Examples.toy_fit_score Examples.toy_mean Examples.toy_std
              Examples.toy_md5 MoreExamples.world_same_version
              (fst (toy_update MoreExamples.world_same_version)))
    as (runs & Hreg & Hlen & Hv).
  { vm_compute. reflexivity. }
  exists runs. split; [exact Hreg|]. split.
  - rewrite Hlen. vm_compute. reflexivity.
  - rewrite Hv. vm_compute. reflexivity.
Defined.

(** X7.  Whatever its outcome, a cycle leaves the parameters, the
    directory and the dataset files as they are, keeps every run that
    existed unchanged behind the runs it adds, adds at most one run per
    version to train, and only appends to what was printed. *)
Theorem cycle_only_adds_runs :
  forall (fit_score : string -> HyperParams -> list Row -> list Row
                      -> result Metrics)
         (np_mean np_std : list Q -> Q) (md5_hexdigest : list byte -> string)
         (w w' : World) (r : result unit),
    update_pipeline fit_score np_mean np_std md5_hexdigest w = (w', r) ->
    params w' = params w /\ gold_dir w' = gold_dir w
    /\ csv_files w' = csv_files w
    /\ exists runs out,
         registry w' = (runs ++ registry w)%list
         /\ stdout w' = (stdout w ++ out)%list
         /\ (List.length runs
             <= List.length (versions_to_train md5_hexdigest w))%nat.
Proof.
  intros fit_score np_mean np_std md5_hexdigest w w' r H.
  exact (update_pipeline_frame _ _ _ _ _ H).
Qed.

Lemma cycle_only_adds_runs_witness :
  gold_dir (fst (toy_update Examples.world_small))
  = gold_dir Examples.world_small.
Proof.
  refine (proj1 (proj2 (@cycle_only_adds_runs
                          Examples.toy_fit_score Examples.toy_mean
                          Examples.toy_std Examples.toy_md5
                          Examples.world_small
                          (fst (toy_update Examples.world_small))
                          (snd (toy_update Examples.world_small)) _))).
  apply surjective_pairing.
Defined.

(** * Further properties of train.py *)

(** X8.  The id [train_model] returns identifies the run it logged: it
    is the id of the one run the call added, [mlflow.get_run] on it gives
    that run, which was trained on the version and carries the model, the
    test metrics and their KPI status; the runs that existed are
    unchanged, and the state file is not touched. *)
Theorem returned_id_finds_trained_run :
  forall (fit_score : string -> HyperParams -> list Row -> list Row
                      -> result Metrics)
         (np_mean np_std : list Q -> Q)
         (version : string) (model_type : option string)
         (custom_params : option HyperParams) (w w' : World) (id : nat),
    train_model fit_score np_mean np_std version model_type custom_params w
      = (w', Ok id) ->
    exists run,
      registry w' = run :: registry w
      /\ run_id run = id
      /\ mlflow_get_run id w' = (w', Ok run)
      /\ trained_run (params w) version run
      /\ state_file w' = state_file w.
Proof.
  intros fit_score np_mean np_std version model_type custom_params w w' id H.
  destruct (train_model_cases _ _ _ _ _ _ _ H)
    as (runs & out & Hext & _ & _ & run & -> & Hid & Htr).
  exists run. pose proof (extends_registry Hext) as Hreg. cbn [app] in Hreg.
  split; [exact Hreg|]. split; [exact Hid|]. split.
  - unfold mlflow_get_run, find_run. rewrite Hreg. cbn [find].
    now rewrite Hid, Nat.eqb_refl.
  - split; [exact Htr | exact (extends_state_file Hext)].
Qed.

Lemma returned_id_finds_trained_run_witness :
  exists run,
    registry (fst (toy_train "v1" None None Examples.world_two))
    = run :: registry Examples.world_two
    /\ trained_run (params Examples.world_two) "v1" run.
Proof.
  destruct (@returned_id_finds_trained_run
              Examples.toy_fit_score Examples.toy_mean Examples.toy_std
              "v1" None None Examples.world_two
              (fst (toy_train "v1" None None Examples.world_two)) 1%nat)
    as (run & Hreg & _ & _ & Htr & _).
  { vm_compute. reflexivity. }
  exists run. auto.
Defined.

(** X9.  A model type that is none of "gradient_boosting",
    "random_forest" and "linear_regression" ends [train_model] with exit
    status 1 after the dataset was loaded and split: the type is printed,
    no run is started, and the registry is as it was. *)
Theorem unknown_model_type_exits :
  forall (fit_score : string -> HyperParams -> list Row -> list Row
                      -> result Metrics)
         (np_mean np_std : list Q -> Q)
         (version : string) (model_type : option string)
         (custom_params : option HyperParams) (w : World)
         (data_path : string) (csv_rows train test : list Row),
    dict_get (p_data (params w)) (String.append "gold_" version)
      = Some data_path ->
    dict_get (csv_files w) data_path = Some csv_rows ->
    temporal_train_test_split (load_gold_data csv_rows)
      (p_test_size (params w)) = Ok (train, test) ->
    train <> [] -> test <> [] ->
    let mtype := or_else_string model_type (p_model_type (params w)) in
    mtype <> "gradient_boosting" -> mtype <> "random_forest" ->
    mtype <> "linear_regression" ->
    let w' := printed (MsgUnknownModel mtype)
                (printed (MsgDataVersion version (List.length train)
                            (List.length test)) w) in
    train_model fit_score np_mean np_std version model_type custom_params w
      = (w', Raise (SystemExit 1))
    /\ registry w' = registry w.
Proof.
  intros fit_score np_mean np_std version model_type custom_params w
         data_path csv_rows train test Hp Hc Hs Htrain Htest mtype
         Hgb Hrf Hlr w'.
  split; [|reflexivity].
  unfold train_model, bind, load_params, lift, path_exists, read_csv,
    dict_item, dict_mem.
  cbn beta iota zeta delta [params csv_files].
  rewrite Hp. cbn beta iota. rewrite Hc. cbn beta iota zeta delta [negb].
  rewrite Hc. cbn beta iota. rewrite Hs. cbn beta iota delta [fst snd].
  destruct train as [|r1 train]; [now elim Htrain|].
  destruct test as [|r2 test]; [now elim Htest|].
  cbn beta iota delta [date_range print].
  unfold select_model. fold mtype.
  apply String.eqb_neq in Hgb, Hrf, Hlr. rewrite Hgb, Hrf, Hlr.
  reflexivity.
Qed.

Lemma unknown_model_type_exits_witness :
  snd (toy_train "v1" (Some "svm") None Examples.world_two)
  = Raise (SystemExit 1).
Proof.
  rewrite (proj1 (@unknown_model_type_exits
                    Examples.toy_fit_score Examples.toy_mean Examples.toy_std
                    "v1" (Some "svm") None Examples.world_two
                    "data/gold/gold_v1.csv" (Examples.days 10)
                    (firstn 8 (load_gold_data (Examples.days 10)))
                    (skipn 8 (load_gold_data (Examples.days 10)))
                    eq_refl eq_refl eq_refl
                    ltac:(vm_compute; discriminate)
                    ltac:(vm_compute; discriminate)
                    ltac:(vm_compute; discriminate)
                    ltac:(vm_compute; discriminate)
                    ltac:(vm_compute; discriminate))).
  reflexivity.
Defined.

(** ** Walk-forward folds *)

Lemma TimeSeriesSplit_folds (n_splits n_samples : nat) (folds : list Fold) :
  TimeSeriesSplit_split n_splits n_samples = Ok folds ->
  List.length folds = n_splits
  /\ Forall (fun f => (0 < train_end f)%nat /\ val_start f = train_end f
                      /\ (0 < val_len f)%nat
                      /\ (val_start f + val_len f <= n_samples)%nat) folds.
Proof.
  unfold TimeSeriesSplit_split. cbv zeta.
  destruct (Nat.ltb_spec n_samples (n_splits + 1)) as [|Hn]; [discriminate|].
  set (ts := (n_samples / (n_splits + 1))%nat).
  destruct (Z.leb_spec (Z.of_nat n_samples - Z.of_nat (ts * n_splits)) 0)
    as [|Hpos]; [discriminate|].
  intros [= <-]. split; [now rewrite length_map, length_seq|].
  assert (Hts : (1 <= ts)%nat)
    by (apply Nat.div_le_lower_bound; lia).
  assert (Hmul : (ts * (n_splits + 1) <= n_samples)%nat).
  { unfold ts. rewrite Nat.mul_comm. apply Nat.Div0.mul_div_le. }
  apply Forall_forall. intros f Hf. apply in_map_iff in Hf.
  destruct Hf as (i & <- & Hi). apply in_seq in Hi. cbn [train_end val_start
    val_len]. nia.
Qed.

Section WalkForward.

Variable fit_score :
  string -> HyperParams -> list Row -> list Row -> result Metrics.

(** The scores of the folds are those of the backend fitted on the
    train rows of each fold and evaluated on its validation rows. *)
Lemma score_folds_calls mtype hp rows folds :
  forall fold_metrics,
    score_folds fit_score mtype hp rows folds = Ok fold_metrics ->
    Forall2 (fun f m =>
               fit_score mtype hp (fold_train f rows) (fold_val f rows)
               = Ok m) folds fold_metrics.
Proof.
  induction folds as [|f folds IH]; intros fold_metrics;
    cbn [score_folds].
  - intros [= <-]. constructor.
  - destruct (fit_score mtype hp (fold_train f rows) (fold_val f rows))
      as [m|e] eqn:Ef; cbn [rbind]; [|discriminate].
    destruct (score_folds fit_score mtype hp rows folds) as [ms|e];
      cbn [rbind]; [|discriminate].
    intros [= <-]. constructor; [exact Ef | now apply IH].
Qed.

End WalkForward.

(** X10.  The cross-validation of [train_model] never looks ahead.  On
    rows in date order, each of the [n_splits] scores that enter the
    means and deviations it returns is the score of the model fitted on a
    non-empty prefix of the rows and evaluated on the non-empty block of
    rows right after that prefix, so every date the model was fitted on
    is at most every date it is evaluated on; the result is made of these
    scores and of nothing else. *)
Theorem cross_validation_folds_walk_forward :
  forall (fit_score : string -> HyperParams -> list Row -> list Row
                      -> result Metrics)
         (np_mean np_std : list Q -> Q)
         (mtype : string) (hp : HyperParams) (rows : list Row)
         (n_splits : nat) (cv : dict Q),
    StronglySorted date_le rows ->
    cross_validate_timeseries fit_score np_mean np_std mtype hp rows n_splits
      = Ok cv ->
    exists (cuts : list (nat * nat)) (fold_metrics : list Metrics),
      List.length cuts = n_splits
      /\ Forall2 (fun cut m =>
                    let train := firstn (fst cut) rows in
                    let val := firstn (snd cut) (skipn (fst cut) rows) in
                    train <> [] /\ val <> []
                    /\ fit_score mtype hp train val = Ok m
                    /\ dates_before train val)
                 cuts fold_metrics
      /\ cv = [("cv_rmse_mean", np_mean (map rmse fold_metrics));
               ("cv_rmse_std", np_std (map rmse fold_metrics));
               ("cv_mae_mean", np_mean (map mae fold_metrics));
               ("cv_mae_std", np_std (map mae fold_metrics));
               ("cv_r2_mean", np_mean (map r2 fold_metrics));
               ("cv_r2_std", np_std (map r2 fold_metrics))].
Proof.
  intros fit_score np_mean np_std mtype hp rows n_splits cv Hsorted H.
  unfold cross_validate_timeseries in H.
  destruct (TimeSeriesSplit_split n_splits (List.length rows))
    as [folds|e] eqn:Es; cbn [rbind] in H; [|discriminate].
  destruct (score_folds fit_score mtype hp rows folds) as [ms|e] eqn:Ef;
    cbn [rbind] in H; [|discriminate].
  destruct (TimeSeriesSplit_folds _ _ Es) as [Hlen Hall].
  pose proof (score_folds_calls _ _ _ _ _ Ef) as Hcalls.
  exists (map (fun f => (train_end f, val_len f)) folds), ms.
  split; [now rewrite length_map|]. split.
  - clear H Es Ef Hlen. induction Hcalls as [|f m folds ms Hfm _ IH];
      cbn [map]; constructor.
    + inversion Hall as [|? ? (Ht & Hv & Hl & Hb) _]; subst.
      cbv zeta. cbn [fst snd].
      unfold fold_train, fold_val in Hfm. rewrite Hv in Hfm, Hb.
      split; [|split; [|split; [exact Hfm|]]].
      * intros E. apply (f_equal (@List.length Row)) in E.
        rewrite length_firstn in E. cbn [List.length] in E. lia.
      * intros E. apply (f_equal (@List.length Row)) in E.
        rewrite length_firstn, length_skipn in E. cbn [List.length] in E.
        lia.
      * pose proof (sorted_cut (train_end f) Hsorted) as Hd.
        unfold dates_before in *. eapply Forall_impl; [|exact Hd].
        intros r Hr.
        rewrite <- (firstn_skipn (val_len f) (skipn _ rows)) in Hr.
        apply Forall_app in Hr. exact (proj1 Hr).
    + apply IH. now inversion Hall.
  - destruct ms as [|m ms]; [discriminate|]. now injection H as <-.
Qed.

Lemma cross_validation_folds_walk_forward_witness :
  exists (cv : dict Q) (cuts : list (nat * nat)) (fold_metrics : list Metrics),
    cross_validate_timeseries Examples.toy_fit_score Examples.toy_mean
      Examples.toy_std "gradient_boosting" [("max_depth", 3%Q)]
      (load_gold_data (Examples.days 8)) 5
    = Ok cv
    /\ List.length cuts = 5%nat
    /\ List.length fold_metrics = 5%nat.
Proof.
  destruct (cross_validate_timeseries Examples.toy_fit_score
              Examples.toy_mean Examples.toy_std "gradient_boosting"
              [("max_depth", 3%Q)] (load_gold_data (Examples.days 8)) 5)
    as [cv|e] eqn:E; [|vm_compute in E; discriminate].
  destruct (@cross_validation_folds_walk_forward
              Examples.toy_fit_score Examples.toy_mean Examples.toy_std
              "gradient_boosting" [("max_depth", 3%Q)]
              (load_gold_data (Examples.days 8)) 5 cv
              (load_gold_data_sorted (Examples.days 8)) E)
    as (cuts & fold_metrics & Hlen & Hall & _).
  exists cv, cuts, fold_metrics. split; [reflexivity|].
  split; [exact Hlen|].
  apply Forall2_length in Hall. congruence.
Defined.
(** * Further properties of tune.py *)

Lemma itertools_product_empty {A} (pools : list (list A)) :
  In [] pools -> itertools_product pools = [].
Proof.
  induction pools as [|pool pools IH]; intros H; [destruct H|].
  cbn [itertools_product]. destruct H as [->|H]; [reflexivity|].
  rewrite (IH H). clear. induction pool as [|x pool IHp]; [reflexivity|].
  exact IHp.
Qed.

Lemma le_bound_after_update (x : Q) (b : Bound) :
  le_bound x (if lt_bound x b then Fin x else b) = le_bound x b.
Proof.
  destruct b as [|q]; cbn [lt_bound le_bound];
    [apply (proj2 (Qle_bool_iff x x)), Qle_refl|].
  destruct (Qltb x q) eqn:E; [|reflexivity]. cbn [le_bound].
  apply Qltb_lt in E. apply Qlt_le_weak in E.
  apply Qle_bool_iff in E. rewrite E.
  apply (proj2 (Qle_bool_iff x x)), Qle_refl.
Qed.

Lemma le_bound_invariant (x : Q) (st : TuneState) (done : list Run) :
  tune_invariant st done ->
  (le_bound x (best_rmse st) = true <-> at_most_all x done).
Proof.
  unfold tune_invariant, at_most_all.
  destruct (best_rmse st) as [|q]; cbn [le_bound].
  - intros [-> _]. split; [constructor | reflexivity].
  - intros (b & (pre & post & -> & Hpre & Hpost) & -> & _).
    rewrite Qle_bool_iff. split.
    + intros Hx. apply Forall_app. split.
      * eapply Forall_impl; [|exact Hpre]. intros r Hr.
        eapply Qle_trans; [exact Hx | now apply Qlt_le_weak].
      * constructor; [exact Hx|].
        eapply Forall_impl; [|exact Hpost]. intros r Hr.
        eapply Qle_trans; eassumption.
    + intros H. apply Forall_app in H. destruct H as [_ H].
      now inversion H.
Qed.

Section TuneLog.

Variable fit_score :
  string -> HyperParams -> list Row -> list Row -> result Metrics.
Variables np_mean np_std : list Q -> Q.

(** One configuration in full: the run it leaves and the line it
    prints. *)
Lemma tune_step_run v p train test i values st w w' st' :
  tune_step fit_score np_mean np_std v p train test i values st w
    = (w', Ok st') ->
  exists run m,
    extends w w' [run]
      [MsgTuneConfig (i + 1) (rmse m) (le_bound (rmse m) (best_rmse st))]
    /\ run_test_metrics run = Some m
    /\ model_logged run = lt_bound (rmse m) (best_rmse st)
    /\ st' = (if lt_bound (rmse m) (best_rmse st)
              then mkTuneState (Fin (rmse m)) (Some (run_id run))
                               (Some (run_params run))
              else st)
    /\ tuning_run p v i run.
Proof.
  unfold tune_step. intros H. unfold_monad_in H.
  repeat (destruct_innermost_match_in H; unfold_monad_in H);
    try discriminate;
    injection H as <- <-;
    match goal with
    | Hb : lt_bound ?x ?b = _ |- _ =>
        pose proof (le_bound_after_update x b) as Hle; rewrite Hb in Hle;
        cbv iota in Hle; cbn [le_bound] in Hle; cbn [best_rmse];
        try rewrite Hle
    end;
    do 2 eexists;
    (split;
     [ unfold extends;
       cbn [registry stdout params gold_dir csv_files state_file app];
       reflexivity |]);
    match goal with
    | Hb : lt_bound _ _ = _ |- _ => rewrite Hb
    end;
    unfold tuning_run;
    cbn [run_id run_name tag_data_version tag_model_type tag_run_type
         run_train_metrics run_test_metrics tag_kpi_status model_logged
         run_params log_model
         set_kpi_status log_test_metrics log_cv_metrics log_params
         set_run_type set_tags blank_run];
    repeat (split; [reflexivity|]);
    eexists; split; reflexivity.
Qed.

Lemma tune_loop_log v p train test combinations :
  forall i st w w' st' done,
    tune_loop fit_score np_mean np_std v p train test i combinations st w
      = (w', Ok st') ->
    tune_invariant st done ->
    exists runs out,
      extends w w' (rev runs) out
      /\ List.length runs = List.length combinations
      /\ List.length out = List.length runs
      /\ tune_invariant st' (done ++ runs)
      /\ logged_from done runs
      /\ forall k r,
           nth_error runs k = Some r ->
           tuning_run p v (i + k) r
           /\ exists flag,
                nth_error out k
                = Some (MsgTuneConfig (i + k + 1) (run_rmse r) flag)
                /\ (flag = true
                    <-> at_most_all (run_rmse r) (done ++ firstn k runs)).
Proof.
  induction combinations as [|values rest IH];
    intros i st w w' st' done H Hinv; cbn [tune_loop] in H.
  - unfold ret in H. injection H as <- <-.
    exists [], []. split; [apply extends_refl|].
    split; [reflexivity|]. split; [reflexivity|].
    split; [now rewrite app_nil_r|]. split; [exact I|].
    intros [|k] r Hk; discriminate.
  - unfold bind in H.
    destruct (tune_step _ _ _ v p train test i values st w)
      as [w1 [st1|e]] eqn:Es; [|discriminate].
    destruct (tune_step_run _ _ _ _ _ _ _ _ Es)
      as (run & m & Hext1 & Hm & Hlog & -> & Htr).
    destruct (@tune_invariant_step st done run m Hinv Hm) as [Hbetter Hinv1].
    cbv zeta in Hbetter, Hinv1.
    destruct (IH _ _ _ _ _ _ H Hinv1)
      as (runs & out & Hext & Hlen & Hout & Hinv' & Hlogged & Hall).
    exists (run :: runs), (MsgTuneConfig (i + 1) (rmse m)
                             (le_bound (rmse m) (best_rmse st)) :: out).
    split.
    { pose proof (extends_trans Hext1 Hext) as Hfull.
      cbn [rev app] in *. exact Hfull. }
    split; [cbn [List.length]; now rewrite Hlen|].
    split; [cbn [List.length]; now rewrite Hout|].
    split; [now rewrite <- app_assoc in Hinv'|].
    split.
    { cbn [logged_from]. split; [|exact Hlogged].
      rewrite Hlog. exact Hbetter. }
    intros [|k] r Hk; cbn [nth_error firstn] in *.
    + injection Hk as <-. rewrite !Nat.add_0_r, app_nil_r.
      split; [exact Htr|].
      rewrite (eligible_rmse _ Hm). eexists. split; [reflexivity|].
      now apply le_bound_invariant.
    + destruct (Hall k r Hk) as [Htr' (flag & Hline & Hflag)].
      replace (i + S k)%nat with (S i + k)%nat by lia.
      split; [exact Htr'|].
      exists flag. split; [exact Hline|].
      rewrite Hflag, <- app_assoc. reflexivity.
Qed.

(** The part of [tune_model] before and after the loop. *)
Lemma tune_model_ok version w w' best_id :
  tune_model fit_score np_mean np_std version w = (w', Ok best_id) ->
  exists runs lines b,
    registry w' = (rev runs ++ registry w)%list
    /\ stdout w'
       = (stdout w ++ lines ++ [MsgBestConfiguration best_id (run_rmse b)])%list
    /\ List.length lines = List.length runs
    /\ first_minimum runs b /\ run_id b = best_id
    /\ logged_from [] runs
    /\ forall k r,
         nth_error runs k = Some r ->
         tuning_run (params w) version k r
         /\ exists flag,
              nth_error lines k
              = Some (MsgTuneConfig (k + 1) (run_rmse r) flag)
              /\ (flag = true <-> at_most_all (run_rmse r) (firstn k runs)).
Proof.
  intros H. unfold tune_model in H. unfold_monad_in H.
  assert (Hinv0 : tune_invariant (mkTuneState Inf None None) [])
    by (split; reflexivity).
  repeat (destruct_innermost_match_in H; unfold_monad_in H);
    try discriminate;
    injection H as <- <-;
    match goal with
    | Hl : tune_loop _ _ _ _ _ _ _ _ _ _ _ = (?w1, Ok ?st) |- _ =>
        destruct (@tune_loop_log _ _ _ _ _ _ _ _ _ _ [] Hl Hinv0)
          as (runs & out & Hext & _ & Hout & Hinv & Hlogged & Hall)
    end;
    unfold tune_invariant in Hinv;
    match goal with
    | Hq : best_rmse _ = _ |- _ => rewrite Hq in Hinv
    end;
    [ destruct Hinv as [_ Hnone]; congruence | ].
  destruct Hinv as (b & Hmin & -> & Hid & _).
  match goal with
  | Hi : best_run_id _ = Some _ |- _ =>
      rewrite Hi in Hid; injection Hid as ->
  end.
  exists runs, out, b.
  cbn [registry stdout].
  split; [exact (extends_registry Hext)|].
  split; [rewrite (extends_stdout Hext); now rewrite app_assoc|].
  split; [exact Hout|]. split; [exact Hmin|]. split; [reflexivity|].
  split; [exact Hlogged|].
  exact Hall.
Qed.

End TuneLog.

Lemma nth_error_firstn_split {A} (l : list A) (k : nat) (a : A) :
  nth_error l k = Some a -> l = (firstn k l ++ a :: skipn (S k) l)%list.
Proof.
  revert k. induction l as [|x l IH]; intros [|k] H; try discriminate.
  - now injection H as <-.
  - cbn [firstn skipn app]. f_equal. now apply IH.
Qed.

Lemma first_minimum_at_most (runs : list Run) (b : Run) :
  first_minimum runs b -> In b runs /\ at_most_all (run_rmse b) runs.
Proof.
  intros (pre & post & -> & Hpre & Hpost). split.
  - apply in_or_app. right. now left.
  - apply Forall_app. split.
    + eapply Forall_impl; [|exact Hpre]. intros r. apply Qlt_le_weak.
    + constructor; [apply Qle_refl | exact Hpost].
Qed.

(** X11.  An empty list in the tuning grid makes the cartesian product
    empty: the loop body never runs, no run is started, and the report of
    the best configuration fails on [best_run_id[:8]] with [best_run_id]
    still [None], a [TypeError]. *)
Theorem empty_grid_ends_in_type_error :
  forall (fit_score : string -> HyperParams -> list Row -> list Row
                      -> result Metrics)
         (np_mean np_std : list Q -> Q)
         (version : string) (w : World) (data_path : string)
         (csv_rows : list Row) (parts : list Row * list Row)
         (grid : dict (list Q)),
    dict_get (p_data (params w)) (String.append "gold_" version)
      = Some data_path ->
    dict_get (csv_files w) data_path = Some csv_rows ->
    temporal_train_test_split (load_gold_data csv_rows)
      (p_test_size (params w)) = Ok parts ->
    pick_items (p_tuning (params w)) grid_keys = Ok grid ->
    In [] (map snd grid) ->
    itertools_product (map snd grid) = []
    /\ exists w',
         tune_model fit_score np_mean np_std version w = (w', Raise TypeError)
         /\ registry w' = registry w.
Proof.
  intros fit_score np_mean np_std version w data_path csv_rows parts grid
         Hp Hc Hs Hg Hin.
  pose proof (itertools_product_empty _ Hin) as Hprod.
  split; [exact Hprod|]. exists w. split; [|reflexivity].
  unfold tune_model, bind, load_params, lift, read_csv, dict_item.
  cbn beta iota zeta delta [params csv_files].
  rewrite Hp. cbn beta iota. rewrite Hc. cbn beta iota zeta.
  rewrite Hs. cbn beta iota. rewrite Hg. cbn beta iota. rewrite Hprod.
  reflexivity.
Qed.

Lemma empty_grid_ends_in_type_error_witness :
  snd (toy_tune "v1" MoreExamples.world_empty_grid) = Raise TypeError.
Proof.
  destruct (@empty_grid_ends_in_type_error
              Examples.toy_fit_score Examples.toy_mean Examples.toy_std
              "v1" MoreExamples.world_empty_grid "data/gold/gold_v1.csv"
              (Examples.days 10)
              (firstn 8 (load_gold_data (Examples.days 10)),
               skipn 8 (load_gold_data (Examples.days 10)))
              (p_tuning (params MoreExamples.world_empty_grid))
              eq_refl eq_refl eq_refl eq_refl
              ltac:(vm_compute; tauto))
    as [_ (w' & -> & _)].
  reflexivity.
Defined.

(** X12.  The two scripts treat a missing dataset file differently:
    [tune_model] has no existence check, so [pd.read_csv] raises
    [FileNotFoundError] before anything is printed or logged, whereas
    [train_model] prints the path and exits with status 1. *)
Theorem tuning_missing_dataset_raises :
  forall (fit_score : string -> HyperParams -> list Row -> list Row
                      -> result Metrics)
         (np_mean np_std : list Q -> Q)
         (version : string) (model_type : option string)
         (custom_params : option HyperParams) (w : World)
         (data_path : string),
    dict_get (p_data (params w)) (String.append "gold_" version)
      = Some data_path ->
    dict_get (csv_files w) data_path = None ->
    tune_model fit_score np_mean np_std version w
      = (w, Raise (FileNotFoundError data_path))
    /\ train_model fit_score np_mean np_std version model_type custom_params w
       = (printed (MsgNotFound data_path) w, Raise (SystemExit 1)).
Proof.
  intros fit_score np_mean np_std version model_type custom_params w
         data_path Hp Hc.
  split; [|now apply train_model_missing].
  unfold tune_model, bind, load_params, lift, read_csv, dict_item.
  cbn beta iota zeta delta [params csv_files].
  rewrite Hp. cbn beta iota. rewrite Hc. reflexivity.
Qed.

Lemma tuning_missing_dataset_raises_witness :
  toy_tune "v1" Examples.world_missing_v1
  = (Examples.world_missing_v1,
     Raise (FileNotFoundError "data/gold/gold_v1.csv")).
Proof.
  exact (proj1 (@tuning_missing_dataset_raises
                  Examples.toy_fit_score Examples.toy_mean Examples.toy_std
                  "v1" None None Examples.world_missing_v1
                  "data/gold/gold_v1.csv" eq_refl eq_refl)).
Defined.

(** X13.  The label "*BEST*" of a configuration line uses [<=] where the
    update of the best run uses [<]: a configuration is labelled exactly
    when its test RMSE is at most that of every configuration before it,
    and it gets the model artifact exactly when it is strictly below all
    of them.  So a configuration that ties with the best so far is
    labelled, though it is neither stored nor returned; the run that is
    returned has the lowest RMSE of the search, which the last line
    prints. *)
Theorem best_label_marks_ties :
  forall (fit_score : string -> HyperParams -> list Row -> list Row
                      -> result Metrics)
         (np_mean np_std : list Q -> Q)
         (version : string) (w w' : World) (best_id : nat),
    tune_model fit_score np_mean np_std version w = (w', Ok best_id) ->
    exists (runs : list Run) (lines : list Msg) (best : Run),
      registry w' = (rev runs ++ registry w)%list
      /\ stdout w'
         = (stdout w ++ lines
            ++ [MsgBestConfiguration best_id (run_rmse best)])%list
      /\ List.length lines = List.length runs
      /\ In best runs /\ run_id best = best_id
      /\ at_most_all (run_rmse best) runs
      /\ forall k r,
           nth_error runs k = Some r ->
           exists flag,
             nth_error lines k
             = Some (MsgTuneConfig (k + 1) (run_rmse r) flag)
             /\ (flag = true <-> at_most_all (run_rmse r) (firstn k runs))
             /\ (model_logged r = true <-> new_best (firstn k runs) r)
             /\ (model_logged r = true -> flag = true).
Proof.
  intros fit_score np_mean np_std version w w' best_id H.
  destruct (tune_model_ok _ _ _ _ _ H)
    as (runs & lines & b & Hreg & Hout & Hlen & Hmin & Hid & Hlogged & Hall).
  destruct (first_minimum_at_most Hmin) as [Hin Hle].
  exists runs, lines, b.
  split; [exact Hreg|]. split; [exact Hout|]. split; [exact Hlen|].
  split; [exact Hin|]. split; [exact Hid|]. split; [exact Hle|].
  intros k r Hk. destruct (Hall k r Hk) as [_ (flag & Hline & Hflag)].
  pose proof (@logged_from_split [] runs Hlogged _ _ _
                (nth_error_firstn_split _ _ Hk)) as Hlog.
  cbn [app] in Hlog.
  exists flag. split; [exact Hline|]. split; [exact Hflag|].
  split; [exact Hlog|].
  intros Hm. apply Hflag. apply Hlog in Hm.
  eapply Forall_impl; [|exact Hm]. intros r'. apply Qlt_le_weak.
Qed.

Lemma best_label_marks_ties_witness :
  exists (runs : list Run) (lines : list Msg),
    registry (fst (toy_tune "v1" Examples.world_two))
    = (rev runs ++ registry Examples.world_two)%list
    /\ List.length lines = List.length runs.
Proof.
  destruct (@best_label_marks_ties
              Examples.toy_fit_score Examples.toy_mean Examples.toy_std
              "v1" Examples.world_two
              (fst (toy_tune "v1" Examples.world_two)) 2%nat)
    as (runs & lines & best & Hreg & _ & Hlen & _).
  { vm_compute. reflexivity. }
  exists runs, lines. auto.
Defined.

(** In the example grid the third configuration ties with the second:
    its line carries the label, its run has no model. *)
Lemma tie_is_labelled_example :
  nth_error (stdout (fst (toy_tune "v1" Examples.world_two))) 2
  = Some (MsgTuneConfig 3 2%Q true)
  /\ option_map model_logged
       (nth_error (rev (registry (fst (toy_tune "v1" Examples.world_two)))) 3)
     = Some false.
Proof. vm_compute. split; reflexivity. Qed.

(** X14.  Every run of a grid search that returned is marked as a tuning
    run: the run of configuration number [k + 1] has the name "tune_"
    followed by the number in three digits and the version, the tags of
    the version, of "gradient_boosting" and of the run type "tuning", no
    train metrics, and the KPI status of its test metrics. *)
Theorem tuning_runs_are_tagged :
  forall (fit_score : string -> HyperParams -> list Row -> list Row
                      -> result Metrics)
         (np_mean np_std : list Q -> Q)
         (version : string) (w w' : World) (best_id : nat),
    tune_model fit_score np_mean np_std version w = (w', Ok best_id) ->
    exists runs : list Run,
      registry w' = (rev runs ++ registry w)%list
      /\ forall k r,
           nth_error runs k = Some r ->
           tuning_run (params w) version k r.
Proof.
  intros fit_score np_mean np_std version w w' best_id H.
  destruct (tune_model_ok _ _ _ _ _ H)
    as (runs & lines & b & Hreg & _ & _ & _ & _ & _ & Hall).
  exists runs. split; [exact Hreg|].
  intros k r Hk. exact (proj1 (Hall k r Hk)).
Qed.

Lemma tuning_runs_are_tagged_witness :
  exists runs : list Run,
    registry (fst (toy_tune "v1" Examples.world_two))
    = (rev runs ++ registry Examples.world_two)%list
    /\ forall k r, nth_error runs k = Some r ->
                   tag_run_type r = Some "tuning".
Proof.
  destruct (@tuning_runs_are_tagged
              Examples.toy_fit_score Examples.toy_mean Examples.toy_std
              "v1" Examples.world_two
              (fst (toy_tune "v1" Examples.world_two)) 2%nat)
    as (runs & Hreg & Hall).
  { vm_compute. reflexivity. }
  exists runs. split; [exact Hreg|].
  intros k r Hk. exact (proj1 (proj2 (proj2 (proj2 (Hall k r Hk))))).
Defined.

(** X15.  [get_current_best_model] filters on the KPI status only, not on
    the run type: after a grid search every tuning run that passed the
    thresholds is a candidate for the incumbent of the next update cycle,
    so the incumbent then exists and its test RMSE is at most that of
    every such tuning run. *)
Theorem passing_tuning_run_competes_as_incumbent :
  forall (fit_score : string -> HyperParams -> list Row -> list Row
                      -> result Metrics)
         (np_mean np_std : list Q -> Q)
         (version : string) (w w' : World) (best_id : nat),
    tune_model fit_score np_mean np_std version w = (w', Ok best_id) ->
    exists runs : list Run,
      registry w' = (rev runs ++ registry w)%list
      /\ forall r m,
           In r runs -> run_test_metrics r = Some m ->
           tune_passes m (p_thresholds (params w)) = true ->
           eligible r
           /\ exists b,
                get_current_best_model (params w') w' = (w', Ok (Some b))
                /\ (run_rmse b <= rmse m)%Q.
Proof.
  intros fit_score np_mean np_std version w w' best_id H.
  destruct (tune_model_ok _ _ _ _ _ H)
    as (runs & lines & b & Hreg & _ & _ & _ & _ & _ & Hall).
  exists runs. split; [exact Hreg|].
  intros r m Hin Hm Hpass.
  destruct (In_nth_error _ _ Hin) as [k Hk].
  destruct (Hall k r Hk) as [(_ & _ & _ & _ & _ & m' & Hm' & Hst) _].
  assert (Hel : eligible r).
  { split; [|now exists m]. rewrite Hst. rewrite Hm in Hm'.
    injection Hm' as <-. unfold tune_kpi_status. now rewrite Hpass. }
  split; [exact Hel|].
  assert (Hreg' : In r (registry w')).
  { rewrite Hreg. apply in_or_app. left. now apply in_rev in Hin. }
  unfold get_current_best_model.
  destruct (search_best_pass (registry w')) as [best|] eqn:E.
  - exists best. split; [reflexivity|].
    rewrite <- (eligible_rmse _ Hm).
    exact (@search_best_pass_min (registry w') best E r Hreg' Hel).
  - now destruct (@search_best_pass_none (registry w') E r Hreg').
Qed.

Lemma passing_tuning_run_competes_as_incumbent_witness :
  exists runs : list Run,
    registry (fst (toy_tune "v1" Examples.world_two))
    = (rev runs ++ registry Examples.world_two)%list
    /\ List.length runs = 6%nat.
Proof.
  destruct (@passing_tuning_run_competes_as_incumbent
              Examples.toy_fit_score Examples.toy_mean Examples.toy_std
              "v1" Examples.world_two
              (fst (toy_tune "v1" Examples.world_two)) 2%nat)
    as (runs & Hreg & _).
  { vm_compute. reflexivity. }
  exists runs. split; [exact Hreg|].
  assert (Hn : List.length (registry (fst (toy_tune "v1" Examples.world_two)))
               = 7%nat) by (vm_compute; reflexivity).
  rewrite Hreg, length_app, length_rev in Hn. cbn in Hn. lia.
Defined.

(** After the example grid search the incumbent is a tuning run, not the
    training run that was there before. *)
Lemma tuning_run_becomes_incumbent_example :
  option_map (fun r => (tag_run_type r, run_rmse r))
    (incumbent (fst (toy_tune "v1" Examples.world_two)))
  = Some (Some "tuning", 2%Q).
Proof. vm_compute. reflexivity. Qed.
(** * evaluate.py *)

Lemma Qdelta_neg (a b : Q) : (a - b < 0)%Q <-> (a < b)%Q.
Proof.
  rewrite <- (Qplus_lt_l (a - b) 0 b).
  setoid_replace (a - b + b)%Q with a by ring.
  setoid_replace (0 + b)%Q with b by ring. reflexivity.
Qed.

Lemma Qdelta_nonpos (a b : Q) : (a - b <= 0)%Q <-> (a <= b)%Q.
Proof.
  rewrite <- (Qplus_le_l (a - b) 0 b).
  setoid_replace (a - b + b)%Q with a by ring.
  setoid_replace (0 + b)%Q with b by ring. reflexivity.
Qed.

Lemma kpi_status_passes (m : Metrics) (th : Thresholds) :
  kpi_status m th = PASS
  <-> Qltb (rmse m) (rmse_acceptable th) && Qltb (r2_minimum th) (r2 m)
      = true.
Proof.
  unfold kpi_status. cbv zeta.
  destruct (Qltb (rmse m) (rmse_acceptable th)
            && Qltb (r2_minimum th) (r2 m)); split; congruence.
Qed.

Lemma kpi_status_fails (m : Metrics) (th : Thresholds) :
  kpi_status m th = FAIL
  <-> Qltb (rmse m) (rmse_acceptable th) && Qltb (r2_minimum th) (r2 m)
      = false.
Proof.
  unfold kpi_status. cbv zeta.
  destruct (Qltb (rmse m) (rmse_acceptable th)
            && Qltb (r2_minimum th) (r2 m)); split; congruence.
Qed.

Lemma recommendation_cases (v1 v2 : Metrics) (th : Thresholds) :
  match recommendation (compare_versions v1 v2 th) with
  | PromoteImproved =>
      kpi_status v2 th = PASS /\ (rmse v2 <= rmse v1)%Q
  | PromoteDespiteRegression =>
      kpi_status v2 th = PASS /\ (rmse v1 < rmse v2)%Q
  | KeepV1 => kpi_status v2 th = FAIL
  end.
Proof.
  unfold compare_versions. cbv zeta. cbn [recommendation].
  destruct (Qltb (rmse v2) (rmse_acceptable th)
            && Qltb (r2_minimum th) (r2 v2)) eqn:Ep; cbn [andb].
  - destruct (Qle_bool (rmse v2 - rmse v1) 0) eqn:Ed.
    + split; [now apply kpi_status_passes|].
      now apply Qdelta_nonpos, Qle_bool_iff.
    + split; [now apply kpi_status_passes|].
      apply Qnot_le_lt. intros Hle.
      apply Qdelta_nonpos, Qle_bool_iff in Hle. congruence.
  - now apply kpi_status_fails.
Qed.

(** X16.  The recommendation of [compare_models] is decided by the KPI
    status of the v2 run alone: it keeps v1 exactly when the v2 metrics
    fail the check that [train_model] tags runs with, and promotes v2
    otherwise, whatever the v1 metrics are.  The v1 run only selects the
    wording: "improved" when the v2 RMSE is at most the v1 RMSE, "despite
    slight regression" when it is higher, by any amount. *)
Theorem recommendation_follows_v2_kpi :
  forall (v1 v2 : Metrics) (th : Thresholds),
    let c := compare_versions v1 v2 th in
    (recommendation c = KeepV1 <-> kpi_status v2 th = FAIL)
    /\ (recommendation c = PromoteImproved
        <-> kpi_status v2 th = PASS /\ (rmse v2 <= rmse v1)%Q)
    /\ (recommendation c = PromoteDespiteRegression
        <-> kpi_status v2 th = PASS /\ (rmse v1 < rmse v2)%Q)
    /\ (forall v1' : Metrics,
          recommendation (compare_versions v1' v2 th) = KeepV1
          <-> recommendation c = KeepV1)
    /\ kpi_status v2 th = tune_kpi_status v2 th.
Proof.
  intros v1 v2 th c.
  assert (Hkeep : forall u, recommendation (compare_versions u v2 th) = KeepV1
                            <-> kpi_status v2 th = FAIL).
  { intros u. pose proof (recommendation_cases u v2 th) as H.
    destruct (recommendation (compare_versions u v2 th));
      split; intros E; try discriminate; try reflexivity; try exact H;
      destruct H as [H _]; congruence. }
  pose proof (recommendation_cases v1 v2 th) as H. fold c in H.
  split; [apply Hkeep|].
  split; [|split; [|split]].
  - destruct (recommendation c); split; intros E; try discriminate;
      try reflexivity; try exact H.
    + destruct H as [_ H], E as [_ E]. now apply Qlt_not_le in H.
    + destruct E; congruence.
  - destruct (recommendation c); split; intros E; try discriminate;
      try reflexivity; try exact H.
    + destruct H as [_ H], E as [_ E]. now apply Qlt_not_le in E.
    + destruct E; congruence.
  - intros v1'. rewrite (Hkeep v1'). symmetry. apply Hkeep.
  - reflexivity.
Qed.

(** X17.  [compare_models] and [update_pipeline] judge the same pair of
    runs by different rules.  The delta is labelled the same way, and
    [update_pipeline] promotes exactly when the label is "improved"; but
    the evaluation promotes a passing v2 run that [update_pipeline] holds
    (RMSE not lower than before), and keeps v1 where [update_pipeline]
    promotes a failing run with a lower RMSE.  On a tie the evaluation's
    delta line says "degraded" while its recommendation says
    "improved". *)
Theorem evaluation_and_update_rules_differ :
  forall (v1 v2 : Metrics) (th : Thresholds),
    let c := compare_versions v1 v2 th in
    let decision := promotion_decision (rmse v2 - rmse v1) in
    (decision = PROMOTE <-> trend_rmse c = Improved)
    /\ (decision = HOLD /\ recommendation c <> KeepV1
        <-> kpi_status v2 th = PASS /\ (rmse v1 <= rmse v2)%Q)
    /\ (decision = PROMOTE /\ recommendation c = KeepV1
        <-> kpi_status v2 th = FAIL /\ (rmse v2 < rmse v1)%Q)
    /\ (trend_rmse c = Degraded /\ recommendation c = PromoteImproved
        <-> kpi_status v2 th = PASS /\ (rmse v2 == rmse v1)%Q).
Proof.
  intros v1 v2 th c decision.
  pose proof (recommendation_cases v1 v2 th) as H. fold c in H.
  assert (Ht : trend_rmse c = Improved <-> (rmse v2 < rmse v1)%Q).
  { unfold c, compare_versions. cbv zeta. cbn [trend_rmse].
    rewrite <- Qdelta_neg, <- Qltb_lt.
    destruct (Qltb (rmse v2 - rmse v1) 0); split; congruence. }
  assert (Hd : trend_rmse c = Degraded <-> (rmse v1 <= rmse v2)%Q).
  { split.
    - intros E. apply Qnot_lt_le. intros Hlt. apply Ht in Hlt. congruence.
    - intros Hle. destruct (trend_rmse c); [|reflexivity].
      apply Qle_not_lt in Hle. elim Hle. now apply Ht. }
  assert (Hp : decision = PROMOTE <-> (rmse v2 < rmse v1)%Q).
  { unfold decision. rewrite promotion_decision_promote. apply Qdelta_neg. }
  assert (Hh : decision = HOLD <-> (rmse v1 <= rmse v2)%Q).
  { unfold decision. rewrite promotion_decision_hold.
    rewrite <- (Qplus_le_l 0 (rmse v2 - rmse v1) (rmse v1)).
    setoid_replace (rmse v2 - rmse v1 + rmse v1)%Q with (rmse v2) by ring.
    setoid_replace (0 + rmse v1)%Q with (rmse v1) by ring. reflexivity. }
  split; [now rewrite Hp, Ht|].
  split; [|split].
  - rewrite Hh. split.
    + intros [Hle Hr]. split; [|exact Hle].
      destruct (recommendation c); try (now destruct H); now elim Hr.
    + intros [Hpass Hle]. split; [exact Hle|].
      intros E. rewrite E in H. congruence.
  - rewrite Hp. split.
    + intros [Hlt E]. rewrite E in H. now split.
    + intros [Hf Hlt]. split; [exact Hlt|].
      destruct (recommendation c); try reflexivity; destruct H; congruence.
  - rewrite Hd. split.
    + intros [Hle E]. rewrite E in H. destruct H as [Hpass Hle'].
      split; [exact Hpass|]. now apply Qle_antisym.
    + intros [Hpass Heq]. split; [rewrite Heq; apply Qle_refl|].
      destruct (recommendation c); try reflexivity.
      * destruct H as [_ H]. rewrite Heq in H. now apply Qlt_irrefl in H.
      * congruence.
Qed.

(** A tie of two passing runs: [update_pipeline] holds, the evaluation
    recommends v2 as improved next to a delta labelled degraded. *)
Lemma tie_is_promoted_by_evaluation_example :
  let m := mkMetrics 2 1 (9 # 10) in
  let c := compare_versions m m Examples.lenient in
  (trend_rmse c, recommendation c, promotion_decision (rmse m - rmse m))
  = (Degraded, PromoteImproved, HOLD).
Proof. vm_compute. reflexivity. Qed.
(** * predict.py and prepare_test.py: feature alignment *)

Lemma frame_len_set_scalar {A} (zero : A) (df : Frame A) (col : string) :
  frame_len (set_scalar zero df col) = frame_len df.
Proof.
  unfold set_scalar. destruct df as [|[k v] df].
  - reflexivity.
  - cbn [dict_set frame_len].
    destruct (String.eqb k col); cbn [frame_len]; [|reflexivity].
    now rewrite repeat_length.
Qed.

Lemma fill_columns_get {A} (zero : A) (cols : list string) :
  forall (df : Frame A) (c : string),
    frame_len (fold_left (set_scalar zero) cols df) = frame_len df
    /\ dict_get (fold_left (set_scalar zero) cols df) c
       = (if existsb (String.eqb c) cols
          then Some (repeat zero (frame_len df))
          else dict_get df c).
Proof.
  induction cols as [|k cols IH]; intros df c; cbn [fold_left existsb].
  - split; reflexivity.
  - destruct (IH (set_scalar zero df k) c) as [Hlen Hget].
    rewrite Hlen, Hget, frame_len_set_scalar. split; [reflexivity|].
    unfold set_scalar at 1. rewrite dict_get_set, (String.eqb_sym c k).
    destruct (existsb (String.eqb c) cols), (String.eqb k c); reflexivity.
Qed.

Lemma add_missing_features_get {A} (zero : A) (cols : list string) :
  forall (df : Frame A) (c : string),
    frame_len (add_missing_features zero cols df) = frame_len df
    /\ dict_get (add_missing_features zero cols df) c
       = match dict_get df c with
         | Some v => Some v
         | None => if existsb (String.eqb c) cols
                   then Some (repeat zero (frame_len df))
                   else None
         end.
Proof.
  unfold add_missing_features.
  induction cols as [|k cols IH]; intros df c; cbn [fold_left existsb].
  - split; [reflexivity | now destruct (dict_get df c)].
  - match goal with
    | |- context [fold_left ?f cols ?d] => destruct (IH d c) as [Hlen Hget]
    end.
    rewrite Hlen, Hget. clear Hlen Hget IH. unfold dict_mem.
    destruct (dict_get df k) as [vk|] eqn:Ek; cbn [negb].
    + split; [reflexivity|].
      destruct (dict_get df c) as [v|] eqn:Ec; [reflexivity|].
      rewrite (String.eqb_sym c k).
      destruct (String.eqb_spec k c) as [->|_]; [congruence | reflexivity].
    + rewrite frame_len_set_scalar. split; [reflexivity|].
      unfold set_scalar. rewrite dict_get_set, (String.eqb_sym c k).
      destruct (String.eqb_spec k c) as [->|_]; cbn [orb].
      * now rewrite Ek.
      * now destruct (dict_get df c).
Qed.

Lemma pick_items_values {V} (d : dict V) (keys : list string)
    (f : string -> V) :
  (forall k, In k keys -> dict_get d k = Some (f k)) ->
  pick_items d keys = Ok (map (fun k => (k, f k)) keys).
Proof.
  induction keys as [|k keys IH]; intros H; cbn [pick_items map];
    [reflexivity|].
  unfold dict_item. rewrite (H k (or_introl eq_refl)). cbn [rbind].
  rewrite IH; [reflexivity|]. intros k' Hk'. apply H. now right.
Qed.

Lemma missing_cols_existsb {A} (feature_cols : list string) (df : Frame A)
    (c : string) :
  In c feature_cols ->
  existsb (String.eqb c) (missing_cols feature_cols df)
  = negb (dict_mem df c).
Proof.
  intros Hin. unfold missing_cols.
  destruct (dict_mem df c) eqn:E; cbn [negb].
  - apply not_true_is_false. intros H. apply existsb_exists in H.
    destruct H as (x & Hx & Heq). apply String.eqb_eq in Heq. subst x.
    apply filter_In in Hx. destruct Hx as [_ Hx]. now rewrite E in Hx.
  - apply existsb_exists. exists c. split; [|apply String.eqb_refl].
    apply filter_In. split; [exact Hin|]. now rewrite E.
Qed.

Lemma align_features_spec {A} (zero : A) (feature_cols : list string)
    (test_df : Frame A) :
  align_features zero feature_cols test_df
  = Ok (map (fun c => (c, aligned_column zero test_df c)) feature_cols).
Proof.
  unfold align_features, select_columns. cbv zeta.
  set (missing := missing_cols feature_cols test_df).
  assert (E : match missing with
              | [] => test_df
              | _ => fold_left (set_scalar zero) missing test_df
              end = fold_left (set_scalar zero) missing test_df)
    by now destruct missing.
  rewrite E. apply pick_items_values. intros c Hc.
  destruct (fill_columns_get zero missing test_df c) as [_ ->].
  unfold missing. rewrite (missing_cols_existsb _ _ _ Hc).
  unfold dict_mem, aligned_column.
  now destruct (dict_get test_df c).
Qed.

(** X18.  The alignment of [predict] cannot fail: for every feature list
    and every test frame the selection [test_df[feature_cols]] finds all
    its labels, and the result has exactly the training features as
    columns, in their order; a feature that is a column of the test frame
    keeps its values, every other feature is a column of [len(test_df)]
    zeros, and columns of the test frame that are no feature are left
    out. *)
Theorem feature_alignment_never_fails :
  forall (A : Type) (zero : A) (feature_cols : list string)
         (test_df : Frame A),
    exists X : Frame A,
      align_features zero feature_cols test_df = Ok X
      /\ map fst X = feature_cols
      /\ (forall c col,
            In (c, col) X ->
            match dict_get test_df c with
            | Some v => col = v
            | None => col = repeat zero (frame_len test_df)
            end)
      /\ (forall c, In c feature_cols -> exists col, In (c, col) X).
Proof.
  intros A zero feature_cols test_df.
  exists (map (fun c => (c, aligned_column zero test_df c)) feature_cols).
  split; [apply align_features_spec|]. split.
  - rewrite map_map. cbn [fst]. apply map_id.
  - split.
    + intros c col Hin. apply in_map_iff in Hin.
      destruct Hin as (c' & [= <- <-] & _). unfold aligned_column.
      now destruct (dict_get test_df c').
    + intros c Hc. eexists. apply in_map_iff. exists c. split; eauto.
Qed.

(** X19.  After the alignment loop of [prepare_test_data] no feature of
    the gold data is missing from the processed test frame, so [predict]
    with the same feature list has nothing to fill; the loop keeps the
    number of rows and every column that was there, adds a column of
    zeros for each absent feature, and [predict] selects the same
    [X_test] from the processed frame as it would from the frame before
    the loop. *)
Theorem prepared_test_frame_has_all_features :
  forall (A : Type) (zero : A) (gold_features : list string)
         (test_processed : Frame A),
    let df := add_missing_features zero gold_features test_processed in
    missing_cols gold_features df = []
    /\ frame_len df = frame_len test_processed
    /\ (forall c v, dict_get test_processed c = Some v ->
                    dict_get df c = Some v)
    /\ (forall c, dict_get test_processed c = None ->
                  dict_get df c
                  = if existsb (String.eqb c) gold_features
                    then Some (repeat zero (frame_len test_processed))
                    else None)
    /\ align_features zero gold_features df
       = align_features zero gold_features test_processed.
Proof.
  intros A zero gold_features test_processed df.
  assert (Hget := fun c => proj2 (add_missing_features_get
                                    zero gold_features test_processed c)).
  assert (Hlen := proj1 (add_missing_features_get
                           zero gold_features test_processed EmptyString)).
  fold df in Hget, Hlen.
  assert (Hcol : forall c, In c gold_features ->
                   dict_get df c
                   = Some (aligned_column zero test_processed c)).
  { intros c Hc. rewrite Hget. unfold aligned_column.
    destruct (dict_get test_processed c); [reflexivity|].
    replace (existsb (String.eqb c) gold_features) with true; [reflexivity|].
    symmetry. apply existsb_exists. exists c.
    split; [exact Hc | apply String.eqb_refl]. }
  split.
  { unfold missing_cols.
    assert (H : forall l, incl l gold_features ->
                 filter (fun c => negb (dict_mem df c)) l = []).
    { induction l as [|x l IH]; intros Hl; [reflexivity|].
      cbn [filter]. unfold dict_mem at 1.
      rewrite (Hcol x (Hl x (or_introl eq_refl))). cbn [negb].
      apply IH. intros y Hy. apply Hl. now right. }
    apply H, incl_refl. }
  split; [exact Hlen|].
  split; [intros c v Hc; now rewrite Hget, Hc|].
  split; [intros c Hc; now rewrite Hget, Hc|].
  rewrite !align_features_spec. f_equal.
  apply map_ext_in. intros c Hc. f_equal.
  unfold aligned_column at 1. now rewrite (Hcol c Hc).
Qed.

(** A test frame without the one-hot column of a season that the training
    data had: the column is added as zeros, the extra column is dropped. *)
Lemma feature_alignment_example :
  align_features 0%Q ["meantemp"; "season_winter"]
    [("date", [1%Q; 2%Q]); ("meantemp", [(31 # 2)%Q; 16%Q])]
  = Ok [("meantemp", [(31 # 2)%Q; 16%Q]); ("season_winter", [0%Q; 0%Q])].
Proof. reflexivity. Qed.
(** * Assignment 3: clean.py and validate.py *)

(** ** Boolean indexing *)

Lemma select_In {A} (mask : list bool) (col : list A) (x : A) :
  In x (select mask col) -> In x col.
Proof.
  revert col. induction mask as [|b mask IH]; intros [|y col] H;
    cbn [select] in H; try contradiction.
  destruct b; [destruct H as [<-|H]; [now left|]|]; right; auto.
Qed.

Lemma select_Forall {A} (P : A -> Prop) (mask : list bool) (col : list A) :
  Forall P col -> Forall P (select mask col).
Proof.
  intros H. apply Forall_forall. intros x Hx.
  apply select_In in Hx. revert x Hx. now apply Forall_forall.
Qed.

Lemma select_NoDup {A} (mask : list bool) (col : list A) :
  NoDup col -> NoDup (select mask col).
Proof.
  revert col. induction mask as [|b mask IH]; intros [|y col] H;
    cbn [select]; try constructor.
  inversion H as [|? ? Hn Hd]; subst. destruct b; [|auto].
  constructor; [|auto]. intros Hin. apply Hn. eapply select_In, Hin.
Qed.




Lemma count_true_zero (mask : list bool) :
  count_true mask = 0%nat <-> Forall (fun b => b = false) mask.
Proof.
  unfold count_true. induction mask as [|b mask IH]; cbn [filter].
  - split; [constructor | reflexivity].
  - destruct b; cbn [List.length]; split.
    + discriminate.
    + intros H. inversion H. discriminate.
    + intros H. constructor; [reflexivity | now apply IH].
    + intros H. inversion H. now apply IH.
Qed.

Lemma all_true_Forall (mask : list bool) :
  all_true mask = true <-> Forall (fun b => b = true) mask.
Proof.
  unfold all_true. rewrite forallb_forall, Forall_forall. reflexivity.
Qed.

(** ** Duplicated dates *)

Lemma existsb_eqb_In (d : Z) (l : list Z) :
  existsb (Z.eqb d) l = true <-> In d l.
Proof.
  rewrite existsb_exists. split.
  - intros (x & Hx & E). apply Z.eqb_eq in E. now subst.
  - intros H. exists d. split; [exact H | apply Z.eqb_refl].
Qed.


(** The rows that are kept: no date twice, none that was seen before, and
    every date that was not seen before. *)
Lemma duplicated_from_kept (dates : list Z) :
  forall seen,
    let kept := select (map negb (duplicated_from seen dates)) dates in
    NoDup kept
    /\ (forall d, In d kept -> ~ In d seen)
    /\ (forall d, In d dates -> In d seen \/ In d kept).
Proof.
  induction dates as [|d0 rest IH]; intros seen; cbv zeta.
  - cbn. split; [constructor|]. split; [intros d []| intros d []].
  - cbn [duplicated_from]. cbv zeta. cbn [map select].
    destruct (existsb (Z.eqb d0) seen) eqn:E; cbn [negb].
    + destruct (IH seen) as (Hnd & Hnot & Hall). cbv zeta in *.
      split; [exact Hnd|]. split; [exact Hnot|].
      intros d [<-|Hd]; [left; now apply existsb_eqb_In | auto].
    + destruct (IH (d0 :: seen)) as (Hnd & Hnot & Hall). cbv zeta in *.
      assert (Hd0 : ~ In d0 seen).
      { intros H. apply existsb_eqb_In in H. congruence. }
      split; [|split].
      * constructor; [|exact Hnd]. intros H. apply (Hnot d0 H). now left.
      * intros d [<-|Hd]; [exact Hd0|].
        intros H. apply (Hnot d Hd). now right.
      * intros d [<-|Hd]; [right; now left|].
        destruct (Hall d Hd) as [[<-|H]|H]; auto.
        -- right. now left.
        -- right. now right.
Qed.


Lemma duplicated_from_NoDup (dates : list Z) :
  forall seen,
    NoDup dates -> (forall d, In d dates -> ~ In d seen) ->
    Forall (fun b => b = false) (duplicated_from seen dates).
Proof.
  induction dates as [|d0 rest IH]; intros seen Hnd Hseen;
    cbn [duplicated_from]; [constructor|].
  cbv zeta. inversion Hnd as [|? ? Hn Hd]; subst.
  assert (E : existsb (Z.eqb d0) seen = false).
  { apply not_true_is_false. intros H. apply existsb_eqb_In in H.
    exact (Hseen d0 (or_introl eq_refl) H). }
  rewrite E. constructor; [reflexivity|].
  apply IH; [exact Hd|].
  intros d Hin [<-|H]; [exact (Hn Hin)|].
  exact (Hseen d (or_intror Hin) H).
Qed.




(** ** Out-of-range values *)

Lemma clip_value_within (lo hi x : Q) :
  (lo <= hi)%Q -> within lo hi (clip_value (Some lo) (Some hi) x).
Proof.
  intros Hle. unfold clip_value, within.
  destruct (Qltb hi x) eqn:Eh.
  - split; [exact Hle | apply Qle_refl].
  - apply Qltb_ge in Eh. destruct (Qltb x lo) eqn:El.
    + split; [apply Qle_refl | exact Hle].
    + apply Qltb_ge in El. split; assumption.
Qed.

Lemma clip_value_inside (lo hi x : Q) :
  within lo hi x -> clip_value (Some lo) (Some hi) x = x.
Proof.
  intros [Hl Hh]. unfold clip_value.
  apply Qltb_ge in Hl, Hh. now rewrite Hl, Hh.
Qed.

Lemma clip_value_floor (lo x : Q) :
  (lo <= clip_value (Some lo) None x)%Q
  /\ ((lo <= x)%Q -> clip_value (Some lo) None x = x).
Proof.
  unfold clip_value. destruct (Qltb x lo) eqn:El.
  - split; [apply Qle_refl|]. intros H. apply Qltb_ge in H. congruence.
  - split; [now apply Qltb_ge | reflexivity].
Qed.

Lemma clip_ordered (lo hi : Q) (col : list (option Q)) :
  (lo <= hi)%Q ->
  clip (Some lo) (Some hi) col
  = map (option_map (clip_value (Some lo) (Some hi))) col.
Proof.
  intros H. unfold clip. apply Qle_bool_iff in H. now rewrite H.
Qed.

Lemma clip_range (lo hi : Q) (col : list (option Q)) :
  (lo <= hi)%Q -> nan_or (within lo hi) (clip (Some lo) (Some hi) col).
Proof.
  intros H. rewrite (clip_ordered _ H). unfold nan_or.
  apply Forall_forall. intros y Hy. apply in_map_iff in Hy.
  destruct Hy as ([x|] & <- & _); cbn [option_map]; [|exact I].
  now apply clip_value_within.
Qed.

Lemma clip_floor (lo : Q) (col : list (option Q)) :
  nan_or (Qle lo) (clip (Some lo) None col).
Proof.
  unfold clip, nan_or. cbn [fst snd].
  apply Forall_forall. intros y Hy. apply in_map_iff in Hy.
  destruct Hy as ([x|] & <- & _); cbn [option_map]; [|exact I].
  apply clip_value_floor.
Qed.

Lemma clip_isnull (lower upper : option Q) (col : list (option Q)) :
  isnull (clip lower upper col) = isnull col.
Proof.
  unfold clip, isnull. rewrite map_map. apply map_ext.
  now intros [x|].
Qed.

Lemma clip_length (lower upper : option Q) (col : list (option Q)) :
  List.length (clip lower upper col) = List.length col.
Proof. unfold clip. apply length_map. Qed.

Lemma clip_has_value (lower upper : option Q) (col : list (option Q)) :
  has_value col -> has_value (clip lower upper col).
Proof.
  intros [q Hq]. unfold clip. eexists.
  apply in_map_iff. exists (Some q). split; [reflexivity | exact Hq].
Qed.

Lemma clip_fixed (lo hi : Q) (col : list (option Q)) :
  (lo <= hi)%Q -> nan_or (within lo hi) col ->
  clip (Some lo) (Some hi) col = col.
Proof.
  intros H Hcol. rewrite (clip_ordered _ H).
  rewrite <- (map_id col) at 2. apply map_ext_in. intros [x|] Hx;
    [|reflexivity].
  unfold nan_or in Hcol. rewrite Forall_forall in Hcol.
  cbn [option_map]. f_equal. apply clip_value_inside. exact (Hcol _ Hx).
Qed.

Lemma clip_floor_fixed (lo : Q) (col : list (option Q)) :
  nan_or (Qle lo) col -> clip (Some lo) None col = col.
Proof.
  intros Hcol. unfold clip. cbn [fst snd].
  rewrite <- (map_id col) at 2. apply map_ext_in. intros [x|] Hx;
    [|reflexivity].
  unfold nan_or in Hcol. rewrite Forall_forall in Hcol.
  cbn [option_map]. f_equal. apply clip_value_floor. exact (Hcol _ Hx).
Qed.

(** Nullifying by the mask of the same column. *)
Lemma set_nan_outside (lo hi : Q) (col : list (option Q)) :
  set_nan (outside lo hi col) col
  = map (fun x => match x with
                  | Some q => if Qltb q lo || Qltb hi q then None else Some q
                  | None => None
                  end) col.
Proof.
  unfold set_nan, outside.
  induction col as [|[q|] col IH]; cbn [map combine fst snd];
    [reflexivity| |]; now rewrite IH.
Qed.

Lemma outside_false_within (lo hi q : Q) :
  Qltb q lo || Qltb hi q = false <-> within lo hi q.
Proof.
  unfold within. rewrite orb_false_iff, !Qltb_ge. reflexivity.
Qed.

Lemma set_nan_range (lo hi : Q) (col : list (option Q)) :
  nan_or (within lo hi) (set_nan (outside lo hi col) col).
Proof.
  rewrite set_nan_outside. unfold nan_or.
  apply Forall_forall. intros y Hy. apply in_map_iff in Hy.
  destruct Hy as ([x|] & <- & _); [|exact I].
  destruct (Qltb x lo || Qltb hi x) eqn:E; [exact I|].
  now apply outside_false_within.
Qed.

Lemma set_nan_keeps (lo hi q : Q) (col : list (option Q)) :
  In (Some q) (set_nan (outside lo hi col) col)
  <-> In (Some q) col /\ within lo hi q.
Proof.
  rewrite set_nan_outside, in_map_iff. split.
  - intros ([x|] & E & Hx); [|discriminate].
    destruct (Qltb x lo || Qltb hi x) eqn:Eo; [discriminate|].
    injection E as ->. split; [exact Hx|]. now apply outside_false_within.
  - intros [Hq Hw]. exists (Some q). split; [|exact Hq].
    apply outside_false_within in Hw. now rewrite Hw.
Qed.

Lemma outside_count_zero (lo hi : Q) (col : list (option Q)) :
  nan_or (within lo hi) col -> count_true (outside lo hi col) = 0%nat.
Proof.
  intros H. apply count_true_zero. unfold outside.
  apply Forall_forall. intros b Hb. apply in_map_iff in Hb.
  destruct Hb as ([x|] & <- & Hx); [|reflexivity].
  unfold nan_or in H. rewrite Forall_forall in H.
  apply outside_false_within. exact (H _ Hx).
Qed.

Lemma below_count_zero (lo : Q) (col : list (option Q)) :
  nan_or (Qle lo) col -> count_true (below lo col) = 0%nat.
Proof.
  intros H. apply count_true_zero. unfold below.
  apply Forall_forall. intros b Hb. apply in_map_iff in Hb.
  destruct Hb as ([x|] & <- & Hx); [|reflexivity].
  unfold nan_or in H. rewrite Forall_forall in H.
  apply Qltb_ge. exact (H _ Hx).
Qed.

Lemma set_nan_fixed (lo hi : Q) (col : list (option Q)) :
  nan_or (within lo hi) col -> set_nan (outside lo hi col) col = col.
Proof.
  intros H. rewrite set_nan_outside.
  rewrite <- (map_id col) at 2. apply map_ext_in. intros [x|] Hx;
    [|reflexivity].
  unfold nan_or in H. rewrite Forall_forall in H.
  specialize (H _ Hx). apply outside_false_within in H. now rewrite H.
Qed.

Lemma set_nan_length (lo hi : Q) (col : list (option Q)) :
  List.length (set_nan (outside lo hi col) col) = List.length col.
Proof. rewrite set_nan_outside. apply length_map. Qed.

(** The frame after [fix_out_of_range], column by column. *)
Lemma fix_out_of_range_columns (df : Climate) (p : CleanParams) :
  let df' := fst (fix_out_of_range df p) in
  c_date df' = c_date df
  /\ c_meantemp df'
     = clip (Some (fst (meantemp_range p))) (Some (snd (meantemp_range p)))
         (c_meantemp df)
  /\ c_humidity df'
     = clip (Some (fst (humidity_range p))) (Some (snd (humidity_range p)))
         (c_humidity df)
  /\ c_wind_speed df' = clip (Some (wind_speed_min p)) None (c_wind_speed df)
  /\ c_meanpressure df'
     = set_nan (outside (fst (meanpressure_range p))
                  (snd (meanpressure_range p)) (c_meanpressure df))
         (c_meanpressure df).
Proof. repeat split. Qed.

(** X21.  After [fix_out_of_range], with each configured range given as
    lower bound then upper bound: every temperature and every humidity is
    NaN or inside its range, every wind speed is NaN or at least the
    minimum, and every pressure is NaN or inside its range (for the
    pressure whatever the order of the bounds).  Clipping neither creates
    nor removes NaN, the dates and the number of rows are untouched, and
    on the result the function changes nothing and reports four
    zeros. *)
Theorem fix_out_of_range_enforces_ranges :
  forall (df : Climate) (p : CleanParams),
    (fst (meantemp_range p) <= snd (meantemp_range p))%Q ->
    (fst (humidity_range p) <= snd (humidity_range p))%Q ->
    let df' := fst (fix_out_of_range df p) in
    nan_or (within (fst (meantemp_range p)) (snd (meantemp_range p)))
           (c_meantemp df')
    /\ nan_or (within (fst (humidity_range p)) (snd (humidity_range p)))
              (c_humidity df')
    /\ nan_or (Qle (wind_speed_min p)) (c_wind_speed df')
    /\ nan_or (within (fst (meanpressure_range p))
                 (snd (meanpressure_range p))) (c_meanpressure df')
    /\ isnull (c_meantemp df') = isnull (c_meantemp df)
    /\ isnull (c_humidity df') = isnull (c_humidity df)
    /\ isnull (c_wind_speed df') = isnull (c_wind_speed df)
    /\ c_date df' = c_date df
    /\ (well_formed df -> well_formed df')
    /\ fix_out_of_range df' p = (df', (0, 0, 0, 0)%nat).
Proof.
  intros df p Ht Hh df'.
  destruct (fix_out_of_range_columns df p) as (Hd & Et & Eh & Ew & Ep).
  fold df' in Hd, Et, Eh, Ew, Ep.
  assert (Rt := clip_range (c_meantemp df) Ht).
  assert (Rh := clip_range (c_humidity df) Hh).
  assert (Rw := clip_floor (wind_speed_min p) (c_wind_speed df)).
  assert (Rp := set_nan_range (fst (meanpressure_range p))
                  (snd (meanpressure_range p)) (c_meanpressure df)).
  rewrite <- Et in Rt. rewrite <- Eh in Rh. rewrite <- Ew in Rw.
  rewrite <- Ep in Rp.
  split; [exact Rt|]. split; [exact Rh|]. split; [exact Rw|].
  split; [exact Rp|].
  split; [rewrite Et; apply clip_isnull|].
  split; [rewrite Eh; apply clip_isnull|].
  split; [rewrite Ew; apply clip_isnull|].
  split; [exact Hd|]. split.
  - intros (H1 & H2 & H3 & H4). unfold well_formed.
    rewrite Hd, Et, Eh, Ew, Ep, !clip_length, set_nan_length. auto.
  - unfold fix_out_of_range at 1. cbv zeta.
    rewrite (outside_count_zero Rt), (outside_count_zero Rh),
      (outside_count_zero Rp), (below_count_zero Rw),
      (clip_fixed Ht Rt), (clip_fixed Hh Rh), (clip_floor_fixed Rw),
      (set_nan_fixed Rp).
    now destruct df'.
Qed.

Lemma fix_out_of_range_enforces_ranges_witness :
  fst (fix_out_of_range
         (mkClimate [1; 2; 3]
                    [Some (-20)%Q; Some 25%Q; None]
                    [Some 120%Q; None; Some 40%Q]
                    [Some (-1)%Q; Some 3%Q; None]
                    [Some 7000%Q; Some 1010%Q; None])
         (mkCleanParams ((-10)%Q, 50%Q) (0%Q, 100%Q) 0%Q (900%Q, 1100%Q)))
  = mkClimate [1; 2; 3]
              [Some (-10)%Q; Some 25%Q; None]
              [Some 100%Q; None; Some 40%Q]
              [Some 0%Q; Some 3%Q; None]
              [None; Some 1010%Q; None]
  /\ nan_or (within (-10)%Q 50%Q) [Some (-10)%Q; Some 25%Q; None].
Proof.
  split; [reflexivity|].
  exact (proj1 (@fix_out_of_range_enforces_ranges
                  (mkClimate [1; 2; 3]
                     [Some (-20)%Q; Some 25%Q; None]
                     [Some 120%Q; None; Some 40%Q]
                     [Some (-1)%Q; Some 3%Q; None]
                     [Some 7000%Q; Some 1010%Q; None])
                  (mkCleanParams ((-10)%Q, 50%Q) (0%Q, 100%Q) 0%Q
                     (900%Q, 1100%Q))
                  ltac:(vm_compute; discriminate)
                  ltac:(vm_compute; discriminate))).
Defined.

(** ** Imputation *)

Lemma ffill_from_length (col : list (option Q)) :
  forall last, List.length (ffill_from last col) = List.length col.
Proof.
  induction col as [|[q|] col IH]; intros last; cbn [ffill_from List.length];
    [reflexivity| |]; now rewrite IH.
Qed.

Lemma bfill_length (col : list (option Q)) :
  List.length (bfill col) = List.length col.
Proof.
  induction col as [|[q|] col IH]; cbn [bfill List.length];
    [reflexivity| |]; now rewrite IH.
Qed.

Lemma ffill_from_keeps (col : list (option Q)) :
  forall last,
    Forall2 (fun x y => x <> None -> y = x) col (ffill_from last col).
Proof.
  induction col as [|[q|] col IH]; intros last; cbn [ffill_from];
    constructor; auto. now intros H.
Qed.

Lemma bfill_keeps (col : list (option Q)) :
  Forall2 (fun x y => x <> None -> y = x) col (bfill col).
Proof.
  induction col as [|[q|] col IH]; cbn [bfill]; constructor; auto.
  now intros H.
Qed.

Lemma ffill_from_values (col : list (option Q)) :
  forall last,
    Forall (fun y => y = last \/ y = None \/ In y col) (ffill_from last col).
Proof.
  induction col as [|[q|] col IH]; intros last; cbn [ffill_from];
    constructor.
  - right. right. now left.
  - eapply Forall_impl; [|apply (IH (Some q))].
    intros y [->|[->|H]];
      [right; right; now left | right; now left | right; right; now right].
  - now left.
  - eapply Forall_impl; [|apply (IH last)].
    intros y [->|[->|H]]; [now left | right; now left |].
    right. right. now right.
Qed.

Lemma bfill_values (col : list (option Q)) :
  Forall (fun y => y = None \/ In y col) (bfill col).
Proof.
  induction col as [|[q|] col IH]; cbn [bfill]; constructor.
  - right. now left.
  - eapply Forall_impl; [|exact IH]. intros y [->|H]; [now left|].
    right. now right.
  - destruct (bfill col) as [|y r] eqn:E; cbn [hd]; [now left|].
    inversion IH as [|? ? [->|Hy] _]; subst; [now left|].
    right. now right.
  - eapply Forall_impl; [|exact IH]. intros y [->|H]; [now left|].
    right. now right.
Qed.

Lemma ffill_from_some (col : list (option Q)) :
  forall q, no_nan (ffill_from (Some q) col).
Proof.
  unfold no_nan. induction col as [|[x|] col IH]; intros q; cbn [ffill_from];
    constructor; try discriminate; apply IH.
Qed.

Lemma no_nan_ffill (col : list (option Q)) :
  no_nan col -> forall last, ffill_from last col = col.
Proof.
  unfold no_nan. induction col as [|[x|] col IH]; intros H last;
    cbn [ffill_from]; [reflexivity| |].
  - f_equal. apply IH. now inversion H.
  - inversion H. congruence.
Qed.

Lemma no_nan_bfill (col : list (option Q)) : no_nan col -> bfill col = col.
Proof.
  unfold no_nan. induction col as [|[x|] col IH]; intros H; cbn [bfill];
    [reflexivity| |].
  - f_equal. apply IH. now inversion H.
  - inversion H. congruence.
Qed.

(** Forward filling leaves NaN only at the start of the column. *)
Lemma ffill_shape (col : list (option Q)) :
  exists n rest,
    ffill col = (repeat None n ++ rest)%list
    /\ no_nan rest
    /\ (has_value col -> rest <> [])
    /\ (~ has_value col -> rest = [] /\ col = repeat None n).
Proof.
  unfold ffill. induction col as [|[q|] col IH]; cbn [ffill_from].
  - exists 0%nat, []. split; [reflexivity|]. split; [constructor|].
    split; [intros [q []] | now intros _].
  - exists 0%nat, (Some q :: ffill_from (Some q) col).
    split; [reflexivity|]. split.
    + constructor; [discriminate | apply ffill_from_some].
    + split; [discriminate|]. intros H. elim H. exists q. now left.
  - destruct IH as (n & rest & E & Hn & Hv & Hnv).
    exists (S n), rest. rewrite E. split; [reflexivity|].
    split; [exact Hn|]. split.
    + intros [q [Hq|Hq]]; [discriminate|]. apply Hv. now exists q.
    + intros H. destruct Hnv as [-> ->].
      { intros [q Hq]. apply H. exists q. now right. }
      split; reflexivity.
Qed.

Lemma bfill_leading (n : nat) (rest : list (option Q)) :
  no_nan rest -> rest <> [] -> no_nan (bfill (repeat None n ++ rest)).
Proof.
  intros Hn Hne. induction n as [|n IH]; cbn [repeat app].
  - now rewrite no_nan_bfill.
  - cbn [bfill]. unfold no_nan in *.
    destruct (bfill (repeat None n ++ rest)) as [|y r] eqn:E.
    + apply (f_equal (@List.length _)) in E.
      rewrite bfill_length, length_app in E. destruct rest; [easy|].
      cbn in E. lia.
    + cbn [hd]. constructor; [now inversion IH | exact IH].
Qed.

Lemma bfill_all_nan (n : nat) : bfill (repeat None n) = repeat None n.
Proof.
  induction n as [|n IH]; cbn [repeat bfill]; [reflexivity|].
  rewrite IH. now destruct n.
Qed.

Lemma Forall2_keeps_trans (c1 c2 c3 : list (option Q)) :
  Forall2 (fun x y => x <> None -> y = x) c1 c2 ->
  Forall2 (fun x y => x <> None -> y = x) c2 c3 ->
  Forall2 (fun x y => x <> None -> y = x) c1 c3.
Proof.
  intros H. revert c3. induction H as [|x y c1 c2 Hxy _ IH]; intros c3 H23;
    inversion H23 as [|? z ? c3' Hyz H23']; subst; constructor; [|auto].
  intros Hx. pose proof (Hxy Hx) as Ey. subst y. exact (Hyz Hx).
Qed.

Lemma impute_imputed (col : list (option Q)) :
  imputed col (bfill (ffill col)).
Proof.
  unfold imputed.
  split; [unfold ffill; now rewrite bfill_length, ffill_from_length|].
  split.
  { eapply Forall2_keeps_trans; [apply ffill_from_keeps | apply bfill_keeps]. }
  split.
  { pose proof (bfill_values (ffill col)) as Hb.
    pose proof (ffill_from_values col None) as Hf. fold (ffill col) in Hf.
    rewrite Forall_forall in Hb, Hf. apply Forall_forall. intros y Hy.
    destruct (Hb y Hy) as [->|Hin]; [now left|].
    destruct (Hf y Hin) as [->|[->|H]]; auto. }
  destruct (ffill_shape col) as (n & rest & E & Hn & Hv & Hnv).
  split.
  - intros H. rewrite E. apply bfill_leading; auto.
  - intros H. destruct (Hnv H) as [-> Hcol].
    rewrite E, app_nil_r, bfill_all_nan. now symmetry.
Qed.

Lemma imputed_idempotent (col : list (option Q)) :
  bfill (ffill (bfill (ffill col))) = bfill (ffill col).
Proof.
  destruct (impute_imputed col) as (_ & _ & _ & Hv & Hnv).
  destruct (ffill_shape col) as (n & rest & E & Hn & Hv' & Hnv').
  destruct rest as [|x rest].
  - rewrite app_nil_r in E. rewrite E, bfill_all_nan.
    assert (Ef : ffill (repeat None n) = repeat None n).
    { unfold ffill. clear. induction n as [|n IH]; cbn [repeat ffill_from];
        [reflexivity | now rewrite IH]. }
    now rewrite Ef, bfill_all_nan.
  - assert (Hno : no_nan (bfill (ffill col))).
    { rewrite E. apply bfill_leading; [exact Hn | discriminate]. }
    unfold ffill at 1. rewrite (no_nan_ffill Hno), (no_nan_bfill Hno).
    reflexivity.
Qed.

Lemma keeps_null_count (col col' : list (option Q)) :
  Forall2 (fun x y => x <> None -> y = x) col col' ->
  (count_true (isnull col') <= count_true (isnull col))%nat.
Proof.
  unfold count_true, isnull.
  induction 1 as [|x y col col' Hxy _ IH]; cbn [map filter]; [lia|].
  destruct x as [q|].
  - rewrite Hxy by discriminate. exact IH.
  - destruct y; cbn [List.length]; lia.
Qed.

(** X22.  [handle_missing_values] treats the four measurement columns
    alike: values that are present stay as they are, every value filled
    in is a value of the same column, a column with at least one value
    has no NaN afterwards, and a column without any value stays all NaN.
    The number printed is the number of entries filled and is not
    negative; the dates are untouched and a second call fills nothing. *)
Theorem imputation_fills_from_the_same_column :
  forall df : Climate,
    let df' := fst (handle_missing_values df) in
    let n_imputed := snd (handle_missing_values df) in
    c_date df' = c_date df
    /\ imputed (c_meantemp df) (c_meantemp df')
    /\ imputed (c_humidity df) (c_humidity df')
    /\ imputed (c_wind_speed df) (c_wind_speed df')
    /\ imputed (c_meanpressure df) (c_meanpressure df')
    /\ n_imputed = Z.of_nat (null_count df) - Z.of_nat (null_count df')
    /\ 0 <= n_imputed
    /\ handle_missing_values df' = (df', 0).
Proof.
  intros df df' n_imputed.
  pose proof (impute_imputed (c_meantemp df)) as Ht.
  pose proof (impute_imputed (c_humidity df)) as Hh.
  pose proof (impute_imputed (c_wind_speed df)) as Hw.
  pose proof (impute_imputed (c_meanpressure df)) as Hp.
  split; [reflexivity|]. split; [exact Ht|]. split; [exact Hh|].
  split; [exact Hw|]. split; [exact Hp|]. split; [reflexivity|].
  split.
  - change n_imputed
      with (Z.of_nat (null_count df) - Z.of_nat (null_count df')).
    unfold null_count.
    change (c_meantemp df') with (bfill (ffill (c_meantemp df))).
    change (c_humidity df') with (bfill (ffill (c_humidity df))).
    change (c_wind_speed df') with (bfill (ffill (c_wind_speed df))).
    change (c_meanpressure df') with (bfill (ffill (c_meanpressure df))).
    pose proof (keeps_null_count (proj1 (proj2 Ht))).
    pose proof (keeps_null_count (proj1 (proj2 Hh))).
    pose proof (keeps_null_count (proj1 (proj2 Hw))).
    pose proof (keeps_null_count (proj1 (proj2 Hp))).
    lia.
  - unfold handle_missing_values at 1. cbv zeta.
    change (c_meantemp df') with (bfill (ffill (c_meantemp df))).
    change (c_humidity df') with (bfill (ffill (c_humidity df))).
    change (c_wind_speed df') with (bfill (ffill (c_wind_speed df))).
    change (c_meanpressure df') with (bfill (ffill (c_meanpressure df))).
    rewrite !imputed_idempotent.
    change (c_date df') with (c_date df).
    f_equal. apply Z.sub_diag.
Qed.

(** Gaps take the last value before them, a gap at the start the first
    value of the column. *)
Lemma imputation_example :
  bfill (ffill [None; Some 1%Q; None; None; Some 4%Q; None])
  = [Some 1%Q; Some 1%Q; Some 1%Q; Some 1%Q; Some 4%Q; Some 4%Q].
Proof. reflexivity. Qed.

(** ** validate.py *)

Lemma run_checks_from {Name Detail : Type}
    (calls : list (Name * bool * Detail)) :
  forall acc : Results Name Detail,
    fold_left (fun (v : Results Name Detail) (c : Name * bool * Detail) =>
                 check (fst (fst c)) (snd (fst c)) (snd c) v)
              calls acc
    = (acc ++ map (fun c : Name * bool * Detail =>
                     (fst (fst c), if snd (fst c) then "PASS" else "FAIL",
                      snd c)) calls)%list.
Proof.
  induction calls as [|c calls IH]; intros acc; cbn [fold_left map].
  - now rewrite app_nil_r.
  - rewrite IH. unfold check. cbv zeta. now rewrite <- app_assoc.
Qed.

Lemma run_checks_map {Name Detail : Type}
    (calls : list (Name * bool * Detail)) :
  run_checks calls
  = map (fun c : Name * bool * Detail =>
           (fst (fst c), if snd (fst c) then "PASS" else "FAIL", snd c))
        calls.
Proof. unfold run_checks. now rewrite run_checks_from. Qed.

Lemma all_passed_run_checks {Name Detail : Type}
    (calls : list (Name * bool * Detail)) :
  all_passed (run_checks calls)
  = forallb (fun c : Name * bool * Detail => snd (fst c)) calls.
Proof.
  rewrite run_checks_map. unfold all_passed.
  induction calls as [|[[n b] d] calls IH]; cbn [map forallb fst snd];
    [reflexivity|].
  rewrite IH. now destruct b.
Qed.

Lemma summary_run_checks {Name Detail : Type}
    (calls : list (Name * bool * Detail)) :
  summary (run_checks calls)
  = (count_true (map (fun c : Name * bool * Detail => snd (fst c)) calls),
     List.length calls).
Proof.
  rewrite run_checks_map. unfold summary, count_true. cbv zeta.
  rewrite length_map. f_equal.
  induction calls as [|[[n b] d] calls IH]; cbn [map filter fst snd];
    [reflexivity|].
  destruct b; cbn [String.eqb Ascii.eqb Bool.eqb andb List.length];
    now rewrite IH.
Qed.

Lemma count_true_all (mask : list bool) :
  count_true mask = List.length mask <-> Forall (fun b => b = true) mask.
Proof.
  unfold count_true. induction mask as [|b mask IH]; cbn [filter List.length].
  - split; [constructor | reflexivity].
  - pose proof (filter_length_le (fun b => b) mask) as Hle.
    destruct b; cbn [List.length]; split.
    + intros H. constructor; [reflexivity|]. apply IH. lia.
    + intros H. inversion H. f_equal. now apply IH.
    + intros H. lia.
    + intros H. inversion H. discriminate.
Qed.

Lemma forallb_false_exists {A} (f : A -> bool) (l : list A) :
  forallb f l = false <-> exists x, In x l /\ f x = false.
Proof.
  split.
  - intros H. induction l as [|x l IH]; [discriminate|].
    cbn [forallb] in H. apply andb_false_iff in H.
    destruct H as [H|H].
    + exists x. split; [now left | exact H].
    + destruct (IH H) as (x' & Hin & Hx'). exists x'. split; [now right|].
      exact Hx'.
  - intros (x & Hin & Hx). apply not_true_is_false. intros H.
    rewrite forallb_forall in H. rewrite (H x Hin) in Hx. discriminate.
Qed.

(** X23.  A [ValidationResult] filled by [check] calls records one entry
    per call, in call order, with status "PASS" or "FAIL" as the
    condition was; [all_passed] holds exactly when every condition held,
    which is exactly when the two numbers of the summary agree, and
    [main] exits with status 1 exactly when some condition failed.  With
    no check at all the result counts as passed. *)
Theorem validation_result_reflects_checks :
  forall (Name Detail : Type) (calls : list (Name * bool * Detail)),
    let results := run_checks calls in
    map (fun r : Name * string * Detail => (fst (fst r), snd r)) results
    = map (fun c : Name * bool * Detail => (fst (fst c), snd c)) calls
    /\ map (fun r : Name * string * Detail => snd (fst r)) results
       = map (fun c : Name * bool * Detail =>
                if snd (fst c) then "PASS" else "FAIL") calls
    /\ (all_passed results = true
        <-> Forall (fun c : Name * bool * Detail => snd (fst c) = true)
                   calls)
    /\ summary results
       = (count_true (map (fun c : Name * bool * Detail => snd (fst c))
                         calls),
          List.length calls)
    /\ (all_passed results = true
        <-> fst (summary results) = snd (summary results))
    /\ (validation_exit results = Raise (SystemExit 1)
        <-> exists c, In c calls /\ snd (fst c) = false)
    /\ (validation_exit results = Ok tt
        <-> Forall (fun c : Name * bool * Detail => snd (fst c) = true)
                   calls)
    /\ all_passed (run_checks (@nil (Name * bool * Detail))) = true.
Proof.
  intros Name Detail calls results.
  assert (Hall : all_passed results = true
                 <-> Forall (fun c : Name * bool * Detail =>
                               snd (fst c) = true) calls).
  { unfold results. rewrite all_passed_run_checks, forallb_forall,
      Forall_forall. reflexivity. }
  assert (Hnot : all_passed results = false
                 <-> exists c, In c calls /\ snd (fst c) = false).
  { unfold results. rewrite all_passed_run_checks.
    apply forallb_false_exists. }
  split; [unfold results; rewrite run_checks_map, map_map; reflexivity|].
  split; [unfold results; rewrite run_checks_map, map_map; reflexivity|].
  split; [exact Hall|].
  split; [apply summary_run_checks|].
  split.
  { unfold results. rewrite summary_run_checks. cbn [fst snd].
    rewrite <- (length_map (fun c : Name * bool * Detail => snd (fst c))
                  calls).
    rewrite count_true_all. fold results. rewrite Hall.
    rewrite Forall_map. reflexivity. }
  split.
  { rewrite <- Hnot. unfold validation_exit.
    destruct (all_passed results); cbn [negb]; split; congruence. }
  split.
  { rewrite <- Hall. unfold validation_exit.
    destruct (all_passed results); cbn [negb]; split; congruence. }
  reflexivity.
Qed.

(** ** Cleaning establishes what validation checks *)

Lemma imputed_values (P : Q -> Prop) (col col' : list (option Q)) :
  imputed col col' -> has_value col -> nan_or P col ->
  Forall (fun x => exists q, x = Some q /\ P q) col'.
Proof.
  intros (_ & _ & Hval & Hno & _) Hv HP.
  specialize (Hno Hv). unfold no_nan, nan_or in *.
  rewrite Forall_forall in *. intros x Hx.
  destruct (Hval x Hx) as [->|Hin]; [now elim (Hno None Hx)|].
  destruct x as [q|]; [|now elim (Hno None Hx)].
  exists q. split; [reflexivity | exact (HP _ Hin)].
Qed.

Lemma between_all (lo hi : Q) (col : list (option Q)) :
  Forall (fun x => exists q, x = Some q /\ within lo hi q) col ->
  all_true (between lo hi col) = true.
Proof.
  intros H. apply all_true_Forall. unfold between.
  apply Forall_forall. intros b Hb. apply in_map_iff in Hb.
  destruct Hb as (x & <- & Hx). rewrite Forall_forall in H.
  destruct (H x Hx) as (q & -> & Hl & Hh).
  apply Qle_bool_iff in Hl, Hh. now rewrite Hl, Hh.
Qed.

Lemma at_least_all (lo : Q) (col : list (option Q)) :
  Forall (fun x => exists q, x = Some q /\ (lo <= q)%Q) col ->
  all_true (at_least lo col) = true.
Proof.
  intros H. apply all_true_Forall. unfold at_least.
  apply Forall_forall. intros b Hb. apply in_map_iff in Hb.
  destruct Hb as (x & <- & Hx). rewrite Forall_forall in H.
  destruct (H x Hx) as (q & -> & Hl). now apply Qle_bool_iff.
Qed.

Lemma isnull_count_zero (P : Q -> Prop) (col : list (option Q)) :
  Forall (fun x => exists q, x = Some q /\ P q) col ->
  count_true (isnull col) = 0%nat.
Proof.
  intros H. apply count_true_zero. unfold isnull.
  apply Forall_forall. intros b Hb. apply in_map_iff in Hb.
  destruct Hb as (x & <- & Hx). rewrite Forall_forall in H.
  now destruct (H x Hx) as (q & -> & _).
Qed.

Lemma NoDup_not_duplicated (dates : list Z) :
  NoDup dates -> count_true (duplicated dates) = 0%nat.
Proof.
  intros H. apply count_true_zero.
  apply duplicated_from_NoDup; [exact H | intros d _ []].
Qed.

(** The six conditions on a frame whose columns are complete and in
    range and whose dates are pairwise different. *)
Lemma silver_conditions_hold (df : Climate) (p : CleanParams) :
  NoDup (c_date df) ->
  Forall (fun x => exists q, x = Some q
                             /\ within (fst (meantemp_range p))
                                  (snd (meantemp_range p)) q)
         (c_meantemp df) ->
  Forall (fun x => exists q, x = Some q
                             /\ within (fst (humidity_range p))
                                  (snd (humidity_range p)) q)
         (c_humidity df) ->
  Forall (fun x => exists q, x = Some q /\ (wind_speed_min p <= q)%Q)
         (c_wind_speed df) ->
  Forall (fun x => exists q, x = Some q
                             /\ within (fst (meanpressure_range p))
                                  (snd (meanpressure_range p)) q)
         (c_meanpressure df) ->
  Forall (fun c => snd c = true) (silver_conditions df p).
Proof.
  intros Hd Ht Hh Hw Hp. unfold silver_conditions. cbv zeta.
  repeat constructor; cbn [snd].
  - unfold null_count.
    rewrite (isnull_count_zero _ Ht), (isnull_count_zero _ Hh),
      (isnull_count_zero _ Hw), (isnull_count_zero _ Hp). reflexivity.
  - now rewrite (NoDup_not_duplicated Hd).
  - now apply between_all.
  - now apply between_all.
  - now apply at_least_all.
  - now apply between_all.
Qed.

(** X24.  The cleaning steps of clean.py establish what validate.py
    checks.  With the temperature and humidity ranges given as lower then
    upper bound, and a frame that after the removal of duplicate dates
    still has a temperature, a humidity, a wind speed and a pressure
    inside the pressure range: the cleaned frame has no missing value and
    no duplicate date, and all four range checks hold; they still hold
    after rows are dropped from it, as [dropna] does later, and
    [validation_exit] on these six checks does not exit. *)
Theorem cleaned_frame_passes_validation :
  forall (df : Climate) (p : CleanParams),
    well_formed df ->
    (fst (meantemp_range p) <= snd (meantemp_range p))%Q ->
    (fst (humidity_range p) <= snd (humidity_range p))%Q ->
    let deduped := fst (remove_duplicates df) in
    has_value (c_meantemp deduped) ->
    has_value (c_humidity deduped) ->
    has_value (c_wind_speed deduped) ->
    (exists q, In (Some q) (c_meanpressure deduped)
               /\ within (fst (meanpressure_range p))
                    (snd (meanpressure_range p)) q) ->
    let cleaned := clean_steps df p in
    Forall (fun c => snd c = true) (silver_conditions cleaned p)
    /\ (forall mask,
          Forall (fun c => snd c = true)
                 (silver_conditions (select_rows mask cleaned) p))
    /\ validation_exit
         (run_checks (map (fun c => (fst c, snd c, tt))
                          (silver_conditions cleaned p)))
       = Ok tt.
Proof.
  intros df p Hwf Ht Hh deduped Vt Vh Vw (qp & Hqp & Wqp) cleaned.
  set (fixed := fst (fix_out_of_range deduped p)).
  assert (Hnd : NoDup (c_date cleaned)).
  { change (c_date cleaned) with (c_date deduped).
    destruct (duplicated_from_kept (c_date df) []) as (Hnd & _). exact Hnd. }
  destruct (fix_out_of_range_columns deduped p) as (_ & Et & Eh & Ew & Ep).
  fold fixed in Et, Eh, Ew, Ep.
  assert (Ct : Forall (fun x => exists q, x = Some q
                          /\ within (fst (meantemp_range p))
                               (snd (meantemp_range p)) q)
                      (c_meantemp cleaned)).
  { apply (@imputed_values _ (c_meantemp fixed)).
    - apply impute_imputed.
    - rewrite Et. now apply clip_has_value.
    - rewrite Et. now apply clip_range. }
  assert (Ch : Forall (fun x => exists q, x = Some q
                          /\ within (fst (humidity_range p))
                               (snd (humidity_range p)) q)
                      (c_humidity cleaned)).
  { apply (@imputed_values _ (c_humidity fixed)).
    - apply impute_imputed.
    - rewrite Eh. now apply clip_has_value.
    - rewrite Eh. now apply clip_range. }
  assert (Cw : Forall (fun x => exists q, x = Some q
                          /\ (wind_speed_min p <= q)%Q)
                      (c_wind_speed cleaned)).
  { apply (@imputed_values _ (c_wind_speed fixed)).
    - apply impute_imputed.
    - rewrite Ew. now apply clip_has_value.
    - rewrite Ew. apply clip_floor. }
  assert (Cp : Forall (fun x => exists q, x = Some q
                          /\ within (fst (meanpressure_range p))
                               (snd (meanpressure_range p)) q)
                      (c_meanpressure cleaned)).
  { apply (@imputed_values _ (c_meanpressure fixed)).
    - apply impute_imputed.
    - rewrite Ep. exists qp. now apply set_nan_keeps.
    - rewrite Ep. apply set_nan_range. }
  assert (Hall : Forall (fun c => snd c = true) (silver_conditions cleaned p))
    by now apply silver_conditions_hold.
  split; [exact Hall|]. split.
  - intros mask. apply silver_conditions_hold;
      cbn [select_rows c_date c_meantemp c_humidity c_wind_speed
           c_meanpressure].
    + now apply select_NoDup.
    + now apply select_Forall.
    + now apply select_Forall.
    + now apply select_Forall.
    + now apply select_Forall.
  - unfold validation_exit. rewrite all_passed_run_checks.
    replace (forallb _ _) with true; [reflexivity|].
    symmetry. apply forallb_forall. intros c Hc. apply in_map_iff in Hc.
    destruct Hc as (c' & <- & Hc'). cbn [fst snd].
    rewrite Forall_forall in Hall. exact (Hall c' Hc').
Qed.

Lemma cleaned_frame_passes_validation_witness :
  Forall (fun c => snd c = true)
         (silver_conditions
            (clean_steps MoreExamples.toy_bronze MoreExamples.toy_clean_params)
            MoreExamples.toy_clean_params).
Proof.
  refine (proj1 (@cleaned_frame_passes_validation
                   MoreExamples.toy_bronze MoreExamples.toy_clean_params
                   _ _ _ _ _ _ _)).
  - repeat split.
  - vm_compute. discriminate.
  - vm_compute. discriminate.
  - exists 60%Q. vm_compute. tauto.
  - exists 50%Q. vm_compute. tauto.
  - exists 4%Q. vm_compute. tauto.
  - exists 1010%Q. split; [vm_compute; tauto|].
    split; vm_compute; discriminate.
Defined.

(** The cleaned example frame: the second row of date 2 is gone, the
    temperature 60 is clipped to 50 and fills the gaps around it, the
    pressure 7000 is replaced by the next valid one. *)
Lemma clean_steps_example :
  clean_steps MoreExamples.toy_bronze MoreExamples.toy_clean_params
  = mkClimate [1; 2; 3]
              [Some 50%Q; Some 50%Q; Some 50%Q]
              [Some 50%Q; Some 50%Q; Some 100%Q]
              [Some 0%Q; Some 4%Q; Some 4%Q]
              [Some 1010%Q; Some 1010%Q; Some 1010%Q].
Proof. reflexivity. Qed.

(** ** Hyperparameters of a training run *)

Lemma select_model_ok (mtype : string) (cp : option HyperParams)
    (mp : dict Q) (w w' : World) (hp : HyperParams) :
  select_model mtype cp mp w = (w', Ok hp) ->
  w' = w /\ forall w0, select_model mtype cp mp w0 = (w0, Ok hp).
Proof.
  unfold select_model. intros H.
  repeat (destruct_innermost_match_in H; unfold_monad_in H);
    try discriminate; injection H as <- <-; split; try reflexivity;
    intros w0; unfold ret, lift;
    repeat match goal with
           | E : _ = _ |- _ => rewrite E
           end; reflexivity.
Qed.

Section TrainParams.

Variable fit_score :
  string -> HyperParams -> list Row -> list Row -> result Metrics.
Variables np_mean np_std : list Q -> Q.

(** The hyperparameters logged on the run are those [select_model]
    chose. *)
Lemma train_model_run_params v mt cp w w' id :
  train_model fit_score np_mean np_std v mt cp w = (w', Ok id) ->
  exists run hp,
    registry w' = run :: registry w
    /\ run_id run = id
    /\ run_params run = hp
    /\ tag_model_type run = or_else_string mt (p_model_type (params w))
    /\ tag_run_type run = None
    /\ select_model (or_else_string mt (p_model_type (params w))) cp
         (p_model (params w)) w
       = (w, Ok hp).
Proof.
  unfold train_model. intros H. unfold_monad_in H.
  repeat (destruct_innermost_match_in H; unfold_monad_in H);
    try discriminate.
  match goal with
  | Hs : select_model _ _ _ _ = (_, Ok _) |- _ =>
      destruct (select_model_ok _ _ _ _ Hs) as [-> Hsel]
  end.
  cbn [registry stdout params gold_dir csv_files state_file] in H.
  injection H as <- <-.
  do 2 eexists. cbn [registry].
  split; [reflexivity|].
  cbn [run_id run_params tag_model_type tag_run_type log_model
       set_kpi_status log_test_metrics log_train_metrics log_cv_metrics
       log_params set_run_type set_tags blank_run].
  split; [reflexivity|]. split; [reflexivity|]. split; [reflexivity|].
  split; [reflexivity|]. apply Hsel.
Qed.

End TrainParams.

Lemma pick_items_Forall2 {V} (d : dict V) (keys : list string)
    (items : dict V) :
  pick_items d keys = Ok items ->
  Forall2 (fun k kv => fst kv = k /\ dict_get d k = Some (snd kv)) keys items.
Proof.
  revert items. induction keys as [|k keys IH]; intros items;
    cbn [pick_items].
  - intros [= <-]. constructor.
  - unfold dict_item. destruct (dict_get d k) as [v|] eqn:Ek;
      cbn [rbind]; [|discriminate].
    destruct (pick_items d keys) as [rest|e]; cbn [rbind]; [|discriminate].
    intros [= <-]. constructor; [now split | now apply IH].
Qed.

(** X25.  Without custom hyperparameters ([None], or an empty dict, which
    [or] treats alike) a training run that returns logs the configured
    ones: for "gradient_boosting" the seven keys of the model section, in
    the order of the dict literal, each with its configured value; for
    "random_forest" the number of estimators and the depth with the
    defaults 100 and 5 and the configured random state; for
    "linear_regression" nothing.  The run has the resolved model type as
    tag and, unlike a tuning run, no run type. *)
Theorem configured_hyperparameters_are_logged :
  forall (fit_score : string -> HyperParams -> list Row -> list Row
                      -> result Metrics)
         (np_mean np_std : list Q -> Q)
         (version : string) (model_type : option string)
         (custom_params : option HyperParams) (w w' : World) (id : nat),
    custom_params = None \/ custom_params = Some [] ->
    train_model fit_score np_mean np_std version model_type custom_params w
      = (w', Ok id) ->
    let mtype := or_else_string model_type (p_model_type (params w)) in
    let model_params := p_model (params w) in
    exists run,
      registry w' = run :: registry w
      /\ tag_model_type run = mtype
      /\ tag_run_type run = None
      /\ (mtype = "gradient_boosting"
          /\ Forall2 (fun k kv => fst kv = k
                                  /\ dict_get model_params k = Some (snd kv))
                     gb_keys (run_params run)
          \/ mtype = "random_forest"
             /\ (exists rs,
                   dict_get model_params "random_state" = Some rs
                   /\ run_params run
                      = [("n_estimators",
                          dict_get_default model_params "n_estimators" 100%Q);
                         ("max_depth",
                          dict_get_default model_params "max_depth" 5%Q);
                         ("random_state", rs)])
          \/ mtype = "linear_regression" /\ run_params run = []).
Proof.
  intros fit_score np_mean np_std version model_type custom_params w w' id
         Hcp H mtype model_params.
  destruct (train_model_run_params _ _ _ _ _ _ _ H)
    as (run & hp & Hreg & _ & Hhp & Htag & Hrt & Hsel).
  fold mtype model_params in Htag, Hsel.
  exists run. split; [exact Hreg|]. split; [exact Htag|].
  split; [exact Hrt|]. rewrite Hhp. clear Hhp Hreg Htag Hrt H.
  assert (Hnone : nonempty_dict custom_params = None)
    by (destruct Hcp as [->| ->]; reflexivity).
  unfold select_model in Hsel. rewrite Hnone in Hsel.
  destruct (String.eqb_spec mtype "gradient_boosting") as [Eg|Ng].
  { left. split; [exact Eg|]. unfold lift in Hsel.
    destruct (pick_items model_params gb_keys) as [items|e] eqn:E;
      [|discriminate].
    injection Hsel as <-. now apply pick_items_Forall2. }
  destruct (String.eqb_spec mtype "random_forest") as [Er|Nr].
  { right. left. split; [exact Er|]. unfold lift, dict_item in Hsel.
    destruct (dict_get model_params "random_state") as [rs|] eqn:E;
      cbn [rbind] in Hsel; [|discriminate].
    injection Hsel as <-. now exists rs. }
  destruct (String.eqb_spec mtype "linear_regression") as [El|Nl].
  { right. right. split; [exact El|]. unfold ret in Hsel.
    now injection Hsel as <-. }
  unfold bind, print, raise in Hsel. discriminate.
Qed.

Lemma configured_hyperparameters_are_logged_witness :
  exists run,
    registry (fst (toy_train "v1" (Some "random_forest") (Some [])
                     Examples.world_two))
    = run :: registry Examples.world_two
    /\ tag_model_type run = "random_forest"
    /\ tag_run_type run = None.
Proof.
  destruct (@configured_hyperparameters_are_logged
              Examples.toy_fit_score Examples.toy_mean Examples.toy_std
              "v1" (Some "random_forest") (Some []) Examples.world_two
              (fst (toy_train "v1" (Some "random_forest") (Some [])
                      Examples.world_two)) 1%nat)
    as (run & Hreg & Htag & Hrt & _).
  { right. reflexivity. }
  { vm_compute. reflexivity. }
  exists run. split; [exact Hreg|]. split; [exact Htag | exact Hrt].
Defined.
